(** * Supply-Chain-Analysis: the metrics pipeline of [supply_chain_analysis.py]
    and the score column of [supply_chain_visualizations.py]

    The two scripts are straight-line pandas programs.  Tables are lists of
    records (one record per CSV row, in file order); every aggregation step
    is a function from tables to tables or scalars.

    Numbers.  A numeric cell is an exact rational [Q]; the results of the
    float divisions whose divisor can be zero live in [float64], which adds
    the IEEE values [inf], [-inf] and [NaN] to the rationals.  The rounding
    error of binary floating point is not modelled: [0.4] is [2/5], sums are
    exact, and [round(2)] is round-half-to-even on the exact value.  Numeric
    cells of the input files are taken to be present and finite.  The two
    columns the inventory summary adds up carry the type they were read as:
    the sum of a column of 64-bit integers wraps around, and a negative
    float total that rounds to zero is the negative zero. *)

From Stdlib Require Import String List ZArith QArith Qround Lia Lqa Bool.
From Stdlib Require Import Sorting Permutation OrdersEx.
Import ListNotations.

Local Open Scope Q_scope.

(** ** Python and numpy scalars *)

Module Py.

(** Exceptions a run can stop with.  [ZeroDivisionError] is what the
    [/] operator raises on Python numbers; [ExplicitError] stands for an
    exception raised by a [raise] statement of the script itself. *)
Inductive exn : Type :=
| ZeroDivisionError
| ExplicitError (msg : string).

Inductive result (A : Type) : Type :=
| Ok (a : A)
| Raise (e : exn).
Arguments Ok {A} a.
Arguments Raise {A} e.

Definition bind {A B} (r : result A) (k : A -> result B) : result B :=
  match r with
  | Ok a => k a
  | Raise e => Raise e
  end.

(** [a / b] on two Python [int]s: true division, raising on [b = 0]. *)
Definition truediv (a b : Z) : result Q :=
  if (b =? 0)%Z then Raise ZeroDivisionError
  else Ok (inject_Z a / inject_Z b).

(** [len(x)] *)
Definition len {A} (l : list A) : Z := Z.of_nat (length l).

End Py.

Module Np.

(** A [float64] value up to rounding: a rational or one of the three
    special values. *)
Inductive float64 : Type :=
| Fin (q : Q)
| PInf
| NInf
| NaN.

(** Equality of values: [Qeq] on the finite ones, identity on the
    special ones ([NaN] stands for a null cell and is related to itself). *)
Definition feq (x y : float64) : Prop :=
  match x, y with
  | Fin a, Fin b => a == b
  | PInf, PInf => True
  | NInf, NInf => True
  | NaN, NaN => True
  | _, _ => False
  end.

Definition is_finite (x : float64) : bool :=
  match x with Fin _ => true | _ => false end.

Definition Qsgn (q : Q) : comparison := q ?= 0.

(** Array division: a zero divisor gives [inf], [-inf] or [NaN] by the
    sign of the dividend, never an exception. *)
Definition div (x y : float64) : float64 :=
  match x, y with
  | NaN, _ | _, NaN => NaN
  | Fin a, Fin b =>
      match Qsgn b with
      | Eq => match Qsgn a with Gt => PInf | Lt => NInf | Eq => NaN end
      | _ => Fin (a / b)
      end
  | Fin _, (PInf | NInf) => Fin 0
  | PInf, Fin b => match Qsgn b with Lt => NInf | _ => PInf end
  | NInf, Fin b => match Qsgn b with Lt => PInf | _ => NInf end
  | (PInf | NInf), (PInf | NInf) => NaN
  end.

Definition sub (x y : float64) : float64 :=
  match x, y with
  | NaN, _ | _, NaN => NaN
  | Fin a, Fin b => Fin (a - b)
  | Fin _, PInf => NInf
  | Fin _, NInf => PInf
  | PInf, Fin _ => PInf
  | NInf, Fin _ => NInf
  | PInf, NInf => PInf
  | NInf, PInf => NInf
  | PInf, PInf | NInf, NInf => NaN
  end.

Definition mul (x y : float64) : float64 :=
  match x, y with
  | NaN, _ | _, NaN => NaN
  | Fin a, Fin b => Fin (a * b)
  | Fin a, PInf | PInf, Fin a =>
      match Qsgn a with Gt => PInf | Lt => NInf | Eq => NaN end
  | Fin a, NInf | NInf, Fin a =>
      match Qsgn a with Gt => NInf | Lt => PInf | Eq => NaN end
  | PInf, PInf | NInf, NInf => PInf
  | PInf, NInf | NInf, PInf => NInf
  end.

(** [x > y]; every comparison with [NaN] is false. *)
Definition gt (x y : float64) : bool :=
  match x, y with
  | NaN, _ | _, NaN => false
  | Fin a, Fin b => negb (Qle_bool a b)
  | PInf, (Fin _ | NInf) => true
  | Fin _, NInf => true
  | _, _ => false
  end.

(** [rint]: the nearest integer, halves to the even neighbour. *)
Definition rint (x : Q) : Z :=
  let f := Qfloor x in
  match ((x - inject_Z f) ?= (1 # 2))%Q with
  | Lt => f
  | Gt => (f + 1)%Z
  | Eq => if Z.even f then f else (f + 1)%Z
  end.

(** [round(x, 2)]: scale by 100, [rint], scale back. *)
Definition round2 (x : Q) : Q := inject_Z (rint (x * 100)) / 100.

Definition fround2 (x : float64) : float64 :=
  match x with
  | Fin q => Fin (round2 q)
  | other => other
  end.

(** [Series.sum()] of a column without nulls. *)
Definition sum (l : list Q) : Q := fold_left Qplus l 0.

(** The type a numeric column of a file is read as: 64-bit integers when
    every cell is an integer literal (each taken to fit in 64 bits),
    floats otherwise. *)
Inductive dtype : Type :=
| int64_column
| float64_column.

(** Arithmetic on 64-bit integers wraps around. *)
Definition wrap64 (z : Z) : Z := ((z + 2 ^ 63) mod 2 ^ 64 - 2 ^ 63)%Z.

(** The ['sum'] of a column by its type: the sum of an integer column is
    a 64-bit integer. *)
Definition column_sum (dt : dtype) (col : list Q) : Q :=
  match dt with
  | float64_column => sum col
  | int64_column => inject_Z (wrap64 (Qfloor (sum col)))
  end.

(** [column * k] for an integer [k], by the column's type. *)
Definition column_times (dt : dtype) (x : Q) (k : Z) : Q :=
  match dt with
  | float64_column => x * inject_Z k
  | int64_column => inject_Z (wrap64 (Qfloor x * k))
  end.

(** [-x] *)
Definition neg (x : float64) : float64 :=
  match x with
  | Fin q => Fin (- q)
  | PInf => NInf
  | NInf => PInf
  | NaN => NaN
  end.

End Np.

(** ** pandas operations used by the scripts *)

Module Pd.

Section Sorting.
Context {A : Type} (key : A -> Q).

(** The order of a column read upwards or downwards. *)
Definition before (ascending : bool) (a b : A) : Prop :=
  if ascending then key a <= key b else key b <= key a.

Definition beforeb (ascending : bool) (a b : A) : bool :=
  if ascending then Qle_bool (key a) (key b) else Qle_bool (key b) (key a).

(** A stable sort (what [kind='mergesort'] computes): among equal keys
    the earlier input row comes first, in both directions. *)
Fixpoint insert_stable (ascending : bool) (x : A) (l : list A) : list A :=
  match l with
  | [] => [x]
  | y :: t =>
      if beforeb ascending x y then x :: y :: t
      else y :: insert_stable ascending x t
  end.

Definition sort_stable (ascending : bool) (l : list A) : list A :=
  fold_right (insert_stable ascending) [] l.

(** [df.sort_values(by, ascending=...)] with the default
    [kind='quicksort'], which pandas documents as not stable: the
    result is some rearrangement of the rows that is in order; the
    relative order of rows with equal keys is not determined. *)
Definition sort_values (ascending : bool) (df out : list A) : Prop :=
  Permutation df out /\ StronglySorted (before ascending) out.

(** [nlargest]/[nsmallest] with [keep='first'].  When [n] is at least
    the number of rows pandas returns [sort_values(...).head(n)];
    otherwise it takes the first [n] rows of the stable order. *)
Definition select_n (ascending : bool) (n : nat) (df out : list A) : Prop :=
  if (length df <=? n)%nat
  then exists s, sort_values ascending df s /\ out = firstn n s
  else out = firstn n (sort_stable ascending df).

(** The strict order of a column, and the order "by key, equal keys
    by [R0]" that a stable sort produces from rows arriving in the
    order [R0]. *)
Definition strictly (ascending : bool) (a b : A) : Prop :=
  if ascending then key a < key b else key b < key a.

Definition key_then_input (R0 : A -> A -> Prop) (ascending : bool)
           (a b : A) : Prop :=
  strictly ascending a b \/ (key a == key b /\ R0 a b).

Definition nlargest := select_n false.
Definition nsmallest := select_n true.

End Sorting.

(** No two cells of a column are equal. *)
Fixpoint all_distinct (col : list Q) : bool :=
  match col with
  | [] => true
  | x :: t => forallb (fun y => negb (Qeq_bool x y)) t && all_distinct t
  end.

(** A table read from a file carries a [RangeIndex]: row [i] has label [i]. *)
Definition with_index {A} (l : list A) : list (nat * A) :=
  combine (seq 0 (length l)) l.

(** The order of the rows of a file. *)
Definition label_lt {A} (a b : nat * A) : Prop := (fst a < fst b)%nat.

Section GroupBy.
Context {K A : Type} (cmp : K -> K -> comparison) (by_ : A -> K).

Fixpoint insert_key (k : K) (ks : list K) : list K :=
  match ks with
  | [] => [k]
  | k' :: t =>
      match cmp k k' with
      | Lt => k :: k' :: t
      | Eq => k' :: t
      | Gt => k' :: insert_key k t
      end
  end.

(** The distinct keys of the table, ascending ([sort=True]). *)
Definition group_keys (df : list A) : list K :=
  fold_right (fun r ks => insert_key (by_ r) ks) [] df.

Definition same_key (k : K) (r : A) : bool :=
  match cmp (by_ r) k with Eq => true | _ => false end.

(** [df.groupby(by)]: one group per distinct key, keys ascending, the
    rows of a group in table order. *)
Definition groupby (df : list A) : list (K * list A) :=
  map (fun k => (k, filter (same_key k) df)) (group_keys df).

End GroupBy.

(** [left.merge(right, on=key)]: inner join; every pair of a left and a
    right row with equal keys, in the order of the left rows. *)
Definition merge {L R} (lkey : L -> string) (rkey : R -> string)
           (left : list L) (right : list R) : list (L * R) :=
  flat_map
    (fun l => map (pair l) (filter (fun r => String.eqb (lkey l) (rkey r)) right))
    left.

(** The ['mean'] of a column over the rows of one group; a group has at
    least one row, so the quotient is finite. *)
Definition group_mean (l : list Q) : Q := Np.sum l / inject_Z (Py.len l).

(** [Series.quantile(q)], default [interpolation='linear']: with the
    values in ascending order [v], at position [h = (n - 1) * q] the
    result is [v[j] + (v[j+1] - v[j]) * (h - j)] for [j = floor h]
    (the upper index clipped to [n - 1]); [NaN] on an empty column. *)
Definition quantile (q : Q) (col : list Q) : Np.float64 :=
  match col with
  | [] => Np.NaN
  | _ :: _ =>
      let v := sort_stable (fun x => x) true col in
      let n := length v in
      let h := inject_Z (Z.of_nat (n - 1)) * q in
      let j := Z.to_nat (Qfloor h) in
      let g := h - inject_Z (Qfloor h) in
      let lo := nth j v 0 in
      let hi := nth (Nat.min (j + 1) (n - 1)) v 0 in
      Np.Fin (lo + (hi - lo) * g)
  end.

(** [Series.pct_change()]: [x / x.shift(1) - 1]; the first row has no
    predecessor and is [NaN]. *)
Fixpoint pct_change_from (prev : Np.float64) (col : list Np.float64)
  : list Np.float64 :=
  match col with
  | [] => []
  | x :: t => Np.sub (Np.div x prev) (Np.Fin 1) :: pct_change_from x t
  end.

Definition pct_change (col : list Np.float64) : list Np.float64 :=
  pct_change_from Np.NaN col.

(** Days since 1970-01-01 of a proleptic Gregorian date. *)
Definition days_from_civil (y m d : Z) : Z :=
  let y' := (if m <=? 2 then y - 1 else y)%Z in
  let era := (y' / 400)%Z in
  let yoe := (y' - era * 400)%Z in
  let mp := (if m <=? 2 then m + 9 else m - 3)%Z in
  let doy := ((153 * mp + 2) / 5 + d - 1)%Z in
  let doe := (yoe * 365 + yoe / 4 - yoe / 100 + doy)%Z in
  (era * 146097 + doe - 719468)%Z.

(** [df.head(n)] and [df.tail(n)] *)
Definition head {A} (n : nat) (df : list A) : list A := firstn n df.

Definition tail {A} (n : nat) (df : list A) : list A :=
  skipn (length df - n) df.

End Pd.

(** ** The data model: one record per CSV row *)

(** A parsed date cell, at day resolution. *)
Record Timestamp : Type := mkTimestamp {
  year : Z;
  month : Z;
  day : Z
}.

(** [(a - b).dt.days] *)
Definition days_between (a b : Timestamp) : Z :=
  (Pd.days_from_civil (year a) (month a) (day a)
   - Pd.days_from_civil (year b) (month b) (day b))%Z.

(** [ts.to_period('M')]: a monthly period is its count of months since
    January 1970; periods are ordered by that count. *)
Definition to_period_M (t : Timestamp) : Z :=
  ((year t - 1970) * 12 + (month t - 1))%Z.

(** orders_data.csv *)
Module Orders.
Record row : Type := mk {
  Order_ID : string;
  Order_Date : Timestamp;
  Expected_Delivery : Timestamp;
  Actual_Delivery : Timestamp;
  On_Time_Delivery : string;
  Warehouse : string;
  Total_Value : Q
}.
End Orders.

(** inventory_data.csv *)
Module Inventory.
Record row : Type := mk {
  Product : string;
  Warehouse : string;
  Category : string;
  Current_Stock : Q;
  Reorder_Point : Q;
  Avg_Monthly_Demand : Q;
  Days_of_Inventory : Q;
  Stock_Status : string
}.
End Inventory.

(** supplier_performance.csv *)
Module Suppliers.
Record row : Type := mk {
  Supplier : string;
  Category : string;
  On_Time_Delivery_Rate : Q;
  Quality_Score : Q;
  Defect_Rate_Percent : Q;
  Total_Orders : Z
}.
End Suppliers.

(** shipping_costs.csv *)
Module Shipping.
Record row : Type := mk {
  Shipping_ID : string;
  Order_ID : string;
  Carrier : string;
  Shipping_Cost : Q;
  Distance_KM : Q;
  Weight_KG : Q
}.
End Shipping.

(** Python's order on [str]: lexicographic by character code. *)
Definition str_compare : string -> string -> comparison := String_as_OT.compare.

(** ** supply_chain_analysis.py *)

Module Analysis.

(** *** 2. Order fulfillment *)

Definition is_yes (o : Orders.row) : bool :=
  String.eqb (Orders.On_Time_Delivery o) "Yes".

(** [orders_df[orders_df['On_Time_Delivery'] == 'Yes']] *)
Definition on_time_rows (orders_df : list Orders.row) : list Orders.row :=
  filter is_yes orders_df.

Definition total_orders (orders_df : list Orders.row) : Z := Py.len orders_df.

Definition on_time_orders (orders_df : list Orders.row) : Z :=
  Py.len (on_time_rows orders_df).

(** [on_time_rate = (on_time_orders / total_orders) * 100], on Python
    numbers.  It is the first computation of the step: an exception
    here ends the run. *)
Definition on_time_rate (orders_df : list Orders.row) : Py.result Q :=
  Py.bind (Py.truediv (on_time_orders orders_df) (total_orders orders_df))
          (fun r => Py.Ok (r * 100)).

(** [orders_df['Delivery_Time_Days']] *)
Definition Delivery_Time_Days (o : Orders.row) : Z :=
  days_between (Orders.Actual_Delivery o) (Orders.Order_Date o).

(** A row of [warehouse_performance]; [Warehouse] is the index and
    [On_Time_Rate_pct] the column ['On_Time_Rate_%']. *)
Module WarehousePerformance.
Record row : Type := mk {
  Warehouse : string;
  Total_Orders : Z;
  On_Time_Rate_pct : Q;
  Total_Revenue : Q;
  Avg_Delivery_Days : Q
}.
End WarehousePerformance.

(** [lambda x: (x == 'Yes').sum() / len(x) * 100] on the rows of one
    group; a group has at least one row, so the quotient is finite. *)
Definition group_on_time_pct (g : list Orders.row) : Q :=
  inject_Z (Py.len (filter is_yes g)) / inject_Z (Py.len g) * 100.

(** [orders_df.groupby('Warehouse').agg({...}).round(2)] with the
    columns renamed. *)
Definition warehouse_rollup (orders_df : list Orders.row)
  : list WarehousePerformance.row :=
  map (fun kg : string * list Orders.row =>
         let (k, g) := kg in
         {| WarehousePerformance.Warehouse := k;
            WarehousePerformance.Total_Orders := Py.len g;
            WarehousePerformance.On_Time_Rate_pct :=
              Np.round2 (group_on_time_pct g);
            WarehousePerformance.Total_Revenue :=
              Np.round2 (Np.sum (map Orders.Total_Value g));
            WarehousePerformance.Avg_Delivery_Days :=
              Np.round2
                (Pd.group_mean
                   (map (fun o => inject_Z (Delivery_Time_Days o)) g)) |})
      (Pd.groupby str_compare Orders.Warehouse orders_df).

(** [warehouse_performance.sort_values('On_Time_Rate_%', ascending=False)]:
    [out] is a table the statement can produce. *)
Definition warehouse_performance (orders_df : list Orders.row)
           (out : list WarehousePerformance.row) : Prop :=
  Pd.sort_values WarehousePerformance.On_Time_Rate_pct false
                 (warehouse_rollup orders_df) out.

(** *** 3. Inventory *)

(** A row of [inventory_summary]; [Category] is the index. *)
Module InventorySummary.
Record row : Type := mk {
  Category : string;
  Current_Stock : Q;
  Avg_Monthly_Demand : Q;
  Days_of_Inventory : Q;
  Turnover_Ratio : Np.float64
}.
End InventorySummary.

(** A float total that is negative and rounds to zero is stored by
    [round(2)] as [-0.0]: its value is 0 and a division by it sees its
    sign.  An integer total has no negative zero. *)
Definition rounds_to_negative_zero (dt : Np.dtype) (total : Q) : bool :=
  match dt with
  | Np.float64_column =>
      negb (Qle_bool 0 total) && Qeq_bool (Np.round2 total) 0
  | Np.int64_column => false
  end.

(** [(Avg_Monthly_Demand * 12 / Current_Stock).round(2)] on the rounded
    sums of the summary: [numerator] is [Avg_Monthly_Demand * 12],
    [stock] the value of [Current_Stock] and [negative_zero] tells
    whether that value is [-0.0]. *)
Definition turnover_ratio (numerator stock : Q) (negative_zero : bool)
  : Np.float64 :=
  let quotient := Np.div (Np.Fin numerator) (Np.Fin stock) in
  Np.fround2 (if negative_zero then Np.neg quotient else quotient).

(** [inventory_df.groupby('Category').agg({...}).round(2)] with the
    ['Turnover_Ratio'] column; [stock_dtype] and [demand_dtype] are the
    types ['Current_Stock'] and ['Avg_Monthly_Demand'] were read as. *)
Definition inventory_summary (stock_dtype demand_dtype : Np.dtype)
           (inventory_df : list Inventory.row)
  : list InventorySummary.row :=
  map (fun kg : string * list Inventory.row =>
         let (k, g) := kg in
         let stock_total :=
           Np.column_sum stock_dtype (map Inventory.Current_Stock g) in
         let stock := Np.round2 stock_total in
         let demand :=
           Np.round2 (Np.column_sum demand_dtype
                        (map Inventory.Avg_Monthly_Demand g)) in
         {| InventorySummary.Category := k;
            InventorySummary.Current_Stock := stock;
            InventorySummary.Avg_Monthly_Demand := demand;
            InventorySummary.Days_of_Inventory :=
              Np.round2 (Pd.group_mean (map Inventory.Days_of_Inventory g));
            InventorySummary.Turnover_Ratio :=
              turnover_ratio (Np.column_times demand_dtype demand 12) stock
                (rounds_to_negative_zero stock_dtype stock_total) |})
      (Pd.groupby str_compare Inventory.Category inventory_df).

(** *** 4. Supplier performance *)

(** A supplier row with the derived column. *)
Record scored : Type := mk_scored {
  supplier : Suppliers.row;
  Performance_Score : Q
}.

(** [(On_Time_Delivery_Rate * 0.4 + Quality_Score * 0.4
      - Defect_Rate_Percent * 2).round(2)] *)
Definition performance_score (s : Suppliers.row) : Q :=
  Np.round2 (Suppliers.On_Time_Delivery_Rate s * (4 # 10)
             + Suppliers.Quality_Score s * (4 # 10)
             - Suppliers.Defect_Rate_Percent s * 2).

(** [supplier_df] after the assignment of ['Performance_Score']. *)
Definition with_performance_score (supplier_df : list Suppliers.row)
  : list scored :=
  map (fun s => {| supplier := s; Performance_Score := performance_score s |})
      supplier_df.

Definition score_of (r : nat * scored) : Q := Performance_Score (snd r).

(** The five columns kept by the column selection after [nlargest] and
    [nsmallest]. *)
Module Ranking.
Record row : Type := mk {
  Supplier : string;
  Category : string;
  On_Time_Delivery_Rate : Q;
  Quality_Score : Q;
  Performance_Score : Q
}.
End Ranking.

Definition project (r : nat * scored) : nat * Ranking.row :=
  (fst r,
   {| Ranking.Supplier := Suppliers.Supplier (supplier (snd r));
      Ranking.Category := Suppliers.Category (supplier (snd r));
      Ranking.On_Time_Delivery_Rate :=
        Suppliers.On_Time_Delivery_Rate (supplier (snd r));
      Ranking.Quality_Score := Suppliers.Quality_Score (supplier (snd r));
      Ranking.Performance_Score := Performance_Score (snd r) |}).

Definition rank_score (r : nat * Ranking.row) : Q :=
  Ranking.Performance_Score (snd r).

(** [supplier_df.nlargest(5, 'Performance_Score')]: the selected rows,
    each with its index label. *)
Definition top_selection (supplier_df : list Suppliers.row)
           (sel : list (nat * scored)) : Prop :=
  Pd.nlargest score_of 5
    (Pd.with_index (with_performance_score supplier_df)) sel.

(** [supplier_df.nsmallest(3, 'Performance_Score')] *)
Definition bottom_selection (supplier_df : list Suppliers.row)
           (sel : list (nat * scored)) : Prop :=
  Pd.nsmallest score_of 3
    (Pd.with_index (with_performance_score supplier_df)) sel.

Definition top_suppliers (supplier_df : list Suppliers.row)
           (out : list (nat * Ranking.row)) : Prop :=
  exists sel, top_selection supplier_df sel /\ out = map project sel.

Definition bottom_suppliers (supplier_df : list Suppliers.row)
           (out : list (nat * Ranking.row)) : Prop :=
  exists sel, bottom_selection supplier_df sel /\ out = map project sel.

(** *** 5. Cost analysis *)

(** [orders_df.merge(shipping_df, on='Order_ID')] *)
Definition orders_with_shipping (orders_df : list Orders.row)
           (shipping_df : list Shipping.row)
  : list (Orders.row * Shipping.row) :=
  Pd.merge Orders.Order_ID Shipping.Order_ID orders_df shipping_df.

Definition total_order_value (orders_df : list Orders.row) : Q :=
  Np.sum (map Orders.Total_Value orders_df).

Definition total_shipping_cost (shipping_df : list Shipping.row) : Q :=
  Np.sum (map Shipping.Shipping_Cost shipping_df).

Definition total_cost (orders_df : list Orders.row)
           (shipping_df : list Shipping.row) : Q :=
  total_order_value orders_df + total_shipping_cost shipping_df.

(** [(total_shipping_cost / total_order_value) * 100], on numpy scalars. *)
Definition shipping_pct_of_order_value (orders_df : list Orders.row)
           (shipping_df : list Shipping.row) : Np.float64 :=
  Np.mul (Np.div (Np.Fin (total_shipping_cost shipping_df))
                 (Np.Fin (total_order_value orders_df)))
         (Np.Fin 100).

(** [shipping_df['Shipping_Cost'].quantile(0.90)] *)
Definition high_cost_threshold (shipping_df : list Shipping.row) : Np.float64 :=
  Pd.quantile (9 # 10) (map Shipping.Shipping_Cost shipping_df).

Definition joined_cost (r : Orders.row * Shipping.row) : Q :=
  Shipping.Shipping_Cost (snd r).

(** [orders_with_shipping[orders_with_shipping['Shipping_Cost']
      > high_cost_threshold]] *)
Definition high_cost_shipments (orders_df : list Orders.row)
           (shipping_df : list Shipping.row)
  : list (Orders.row * Shipping.row) :=
  filter (fun r => Np.gt (Np.Fin (joined_cost r))
                         (high_cost_threshold shipping_df))
         (orders_with_shipping orders_df shipping_df).

(** [high_cost_shipments['Shipping_Cost'].sum() * 0.15] *)
Definition potential_savings (orders_df : list Orders.row)
           (shipping_df : list Shipping.row) : Q :=
  Np.sum (map joined_cost (high_cost_shipments orders_df shipping_df))
  * (15 # 100).

(** *** 6. Trends *)

(** [orders_df['Year_Month']] *)
Definition Year_Month (o : Orders.row) : Z := to_period_M (Orders.Order_Date o).

(** A row of [monthly_trends] before the growth columns; [Year_Month]
    is the index. *)
Module MonthlyTrends.
Record row : Type := mk {
  Year_Month : Z;
  Orders : Z;
  Revenue : Q;
  On_Time_Rate_pct : Q
}.
End MonthlyTrends.

(** [orders_df.groupby('Year_Month').agg({...}).round(2)] *)
Definition monthly_agg (orders_df : list Orders.row)
  : list MonthlyTrends.row :=
  map (fun kg : Z * list Orders.row =>
         let (k, g) := kg in
         {| MonthlyTrends.Year_Month := k;
            MonthlyTrends.Orders := Py.len g;
            MonthlyTrends.Revenue :=
              Np.round2 (Np.sum (map Orders.Total_Value g));
            MonthlyTrends.On_Time_Rate_pct :=
              Np.round2 (group_on_time_pct g) |})
      (Pd.groupby Z.compare Year_Month orders_df).

Definition times_100 (col : list Np.float64) : list Np.float64 :=
  map (fun x => Np.mul x (Np.Fin 100)) col.

(** [monthly_trends['Orders'].pct_change() * 100] *)
Definition Order_Growth_pct (orders_df : list Orders.row) : list Np.float64 :=
  times_100
    (Pd.pct_change (map (fun r => Np.Fin (inject_Z (MonthlyTrends.Orders r)))
                        (monthly_agg orders_df))).

(** [monthly_trends['Revenue'].pct_change() * 100] *)
Definition Revenue_Growth_pct (orders_df : list Orders.row) : list Np.float64 :=
  times_100
    (Pd.pct_change (map (fun r => Np.Fin (MonthlyTrends.Revenue r))
                        (monthly_agg orders_df))).

(** A row of [monthly_trends] with its two growth cells. *)
Definition monthly_trends (orders_df : list Orders.row)
  : list (MonthlyTrends.row * (Np.float64 * Np.float64)) :=
  combine (monthly_agg orders_df)
          (combine (Order_Growth_pct orders_df) (Revenue_Growth_pct orders_df)).

(** *** 2. Order fulfillment: late orders *)

Definition is_no (o : Orders.row) : bool :=
  String.eqb (Orders.On_Time_Delivery o) "No".

(** [orders_df[orders_df['On_Time_Delivery'] == 'No']] *)
Definition late_orders (orders_df : list Orders.row) : list Orders.row :=
  filter is_no orders_df.

(** [(len(late_orders)/total_orders)*100] of the report line, on Python
    numbers. *)
Definition late_pct (orders_df : list Orders.row) : Py.result Q :=
  Py.bind (Py.truediv (Py.len (late_orders orders_df)) (total_orders orders_df))
          (fun r => Py.Ok (r * 100)).

(** *** 3. Inventory: status distribution and alerts *)

(** The distinct values of ['Stock_Status'] with their numbers of rows. *)
Definition status_counts (inventory_df : list Inventory.row)
  : list (string * Z) :=
  map (fun kg : string * list Inventory.row => (fst kg, Py.len (snd kg)))
      (Pd.groupby str_compare Inventory.Stock_Status inventory_df).

(** [inventory_df['Stock_Status'].value_counts()]: the counts in
    descending order; the order of values with equal counts is left
    open. *)
Definition stock_status_summary (inventory_df : list Inventory.row)
           (out : list (string * Z)) : Prop :=
  Pd.sort_values (fun r : string * Z => inject_Z (snd r)) false
                 (status_counts inventory_df) out.


Definition has_status (status : string) (i : Inventory.row) : bool :=
  String.eqb (Inventory.Stock_Status i) status.

(** [inventory_df[inventory_df['Stock_Status'] == 'Low Stock']
      .sort_values('Days_of_Inventory')] *)
Definition low_stock_items (inventory_df out : list Inventory.row) : Prop :=
  Pd.sort_values Inventory.Days_of_Inventory true
                 (filter (has_status "Low Stock") inventory_df) out.

(** [inventory_df[inventory_df['Stock_Status'] == 'Overstock']
      .sort_values('Current_Stock', ascending=False)] *)
Definition overstock_items (inventory_df out : list Inventory.row) : Prop :=
  Pd.sort_values Inventory.Current_Stock false
                 (filter (has_status "Overstock") inventory_df) out.

(** *** 5. Cost analysis: carriers *)

(** A row of [carrier_analysis]; [Carrier] is the index. *)
Module CarrierAnalysis.
Record row : Type := mk {
  Carrier : string;
  Shipments : Z;
  Total_Cost : Q;
  Avg_Cost : Q;
  Avg_Distance : Q;
  Cost_per_KM : Np.float64
}.
End CarrierAnalysis.

(** [(Total_Cost / (Shipments * Avg_Distance)).round(2)] on the rounded
    columns. *)
Definition cost_per_km (total : Q) (shipments : Z) (avg_distance : Q)
  : Np.float64 :=
  Np.fround2
    (Np.div (Np.Fin total)
            (Np.mul (Np.Fin (inject_Z shipments)) (Np.Fin avg_distance))).

(** [shipping_df.groupby('Carrier').agg({...}).round(2)] with the columns
    renamed and ['Cost_per_KM'] added. *)
Definition carrier_rollup (shipping_df : list Shipping.row)
  : list CarrierAnalysis.row :=
  map (fun kg : string * list Shipping.row =>
         let (k, g) := kg in
         let shipments := Py.len g in
         let total := Np.round2 (Np.sum (map Shipping.Shipping_Cost g)) in
         let distance :=
           Np.round2 (Pd.group_mean (map Shipping.Distance_KM g)) in
         {| CarrierAnalysis.Carrier := k;
            CarrierAnalysis.Shipments := shipments;
            CarrierAnalysis.Total_Cost := total;
            CarrierAnalysis.Avg_Cost :=
              Np.round2 (Pd.group_mean (map Shipping.Shipping_Cost g));
            CarrierAnalysis.Avg_Distance := distance;
            CarrierAnalysis.Cost_per_KM :=
              cost_per_km total shipments distance |})
      (Pd.groupby str_compare Shipping.Carrier shipping_df).

(** [carrier_analysis.sort_values('Total_Cost', ascending=False)] *)
Definition carrier_analysis (shipping_df : list Shipping.row)
           (out : list CarrierAnalysis.row) : Prop :=
  Pd.sort_values CarrierAnalysis.Total_Cost false
                 (carrier_rollup shipping_df) out.

(** *** 6. Trends: the rows shown *)

(** [monthly_trends.tail(6)] *)
Definition recent_monthly_performance (orders_df : list Orders.row)
  : list (MonthlyTrends.row * (Np.float64 * Np.float64)) :=
  Pd.tail 6 (monthly_trends orders_df).

(** *** 7. Key insights *)

(** [warehouse_performance.iloc[0]]: the first row of the ranking;
    [iloc[0]] of a table without rows raises IndexError, here [None]. *)
Definition best_warehouse (orders_df : list Orders.row)
           (res : option WarehousePerformance.row) : Prop :=
  exists out, warehouse_performance orders_df out /\ res = hd_error out.

(** [top_suppliers.iloc[0]]: the first row of the top-5 selection of a
    Supplier table that has rows.  On a file without rows the script does
    not get here: the score column of a frame without rows is not numeric
    and [nlargest] at line 146 has already raised. *)
Definition top_supplier (supplier_df : list Suppliers.row)
           (res : nat * Ranking.row) : Prop :=
  supplier_df <> [] /\
  exists out, top_suppliers supplier_df out /\ hd_error out = Some res.

End Analysis.

(** ** supply_chain_visualizations.py *)

Module Visualizations.

Record scored : Type := mk_scored {
  supplier : Suppliers.row;
  Performance_Score : Q
}.

(** [(On_Time_Delivery_Rate * 0.4 + Quality_Score * 0.4
      - Defect_Rate_Percent * 2).round(2)] *)
Definition performance_score (s : Suppliers.row) : Q :=
  Np.round2 (Suppliers.On_Time_Delivery_Rate s * (4 # 10)
             + Suppliers.Quality_Score s * (4 # 10)
             - Suppliers.Defect_Rate_Percent s * 2).

Definition with_performance_score (supplier_df : list Suppliers.row)
  : list scored :=
  map (fun s => {| supplier := s; Performance_Score := performance_score s |})
      supplier_df.

(** *** Visualization 2: on-time delivery by warehouse *)

Definition is_yes (o : Orders.row) : bool :=
  String.eqb (Orders.On_Time_Delivery o) "Yes".

(** [lambda x: (x == 'Yes').sum() / len(x) * 100] on one group. *)
Definition group_on_time_pct (g : list Orders.row) : Q :=
  inject_Z (Py.len (filter is_yes g)) / inject_Z (Py.len g) * 100.

(** [orders_df.groupby('Warehouse')['On_Time_Delivery'].apply(...)] *)
Definition warehouse_rates (orders_df : list Orders.row) : list (string * Q) :=
  map (fun kg : string * list Orders.row =>
         (fst kg, group_on_time_pct (snd kg)))
      (Pd.groupby str_compare Orders.Warehouse orders_df).

(** [....sort_values(ascending=False)] *)
Definition warehouse_perf (orders_df : list Orders.row)
           (out : list (string * Q)) : Prop :=
  Pd.sort_values (fun r : string * Q => snd r) false
                 (warehouse_rates orders_df) out.

(** *** Visualization 3: days of inventory by warehouse *)

(** [inventory_df.groupby('Warehouse')['Days_of_Inventory'].mean()
      .sort_values()] *)
Definition warehouse_inventory (inventory_df : list Inventory.row)
           (out : list (string * Q)) : Prop :=
  Pd.sort_values (fun r : string * Q => snd r) true
    (map (fun kg : string * list Inventory.row =>
            (fst kg, Pd.group_mean (map Inventory.Days_of_Inventory (snd kg))))
         (Pd.groupby str_compare Inventory.Warehouse inventory_df))
    out.

(** ['#e74c3c' if x < 30 else '#2ecc71' if x > 60 else '#f39c12'] *)
Definition colour_bar (x : Q) : string :=
  if negb (Qle_bool 30 x) then "#e74c3c"
  else if negb (Qle_bool x 60) then "#2ecc71"
  else "#f39c12".

Definition colors_bar (out : list (string * Q)) : list string :=
  map (fun r => colour_bar (snd r)) out.

(** *** Visualization 4: supplier scorecard *)

(** [supplier_df.sort_values('Performance_Score', ascending=True)] *)
Definition supplier_df_sorted (supplier_df : list Suppliers.row)
           (out : list scored) : Prop :=
  Pd.sort_values Performance_Score true
                 (with_performance_score supplier_df) out.

(** ['#2ecc71' if x > 80 else '#f39c12' if x > 70 else '#e74c3c'] *)
Definition colour_supplier (x : Q) : string :=
  if negb (Qle_bool x 80) then "#2ecc71"
  else if negb (Qle_bool x 70) then "#f39c12"
  else "#e74c3c".

Definition colors_supplier (out : list scored) : list string :=
  map (fun r => colour_supplier (Performance_Score r)) out.

(** *** Visualization 5: cost by carrier *)

(** A row of [carrier_costs]: the carrier with the ['sum'], ['mean'] and
    ['count'] of its shipping costs. *)
Definition carrier_costs (shipping_df : list Shipping.row)
  : list (string * (Q * Q * Z)) :=
  map (fun kg : string * list Shipping.row =>
         let costs := map Shipping.Shipping_Cost (snd kg) in
         (fst kg, (Np.sum costs, Pd.group_mean costs, Py.len costs)))
      (Pd.groupby str_compare Shipping.Carrier shipping_df).

(** *** Visualization 6: the dashboard's figures *)

(** [(orders_df['On_Time_Delivery'] == 'Yes').sum() / len(orders_df) * 100]:
    the count is a numpy integer, so the division is numpy's. *)
Definition on_time_pct (orders_df : list Orders.row) : Np.float64 :=
  Np.mul (Np.div (Np.Fin (inject_Z (Py.len (filter is_yes orders_df))))
                 (Np.Fin (inject_Z (Py.len orders_df))))
         (Np.Fin 100).

(** ['#2ecc71' if on_time_pct > 85 else '#e74c3c'] *)
Definition color_otd (orders_df : list Orders.row) : string :=
  if Np.gt (on_time_pct orders_df) (Np.Fin 85) then "#2ecc71" else "#e74c3c".

(** [orders_df['Total_Value'].sum()] *)
Definition total_revenue (orders_df : list Orders.row) : Q :=
  Np.sum (map Orders.Total_Value orders_df).

End Visualizations.

(** ** The formulas of the specification, in its own words *)

Module Spec.

(** "performance score = 0.4 x on-time + 0.4 x quality - 2 x defect_rate" *)
Definition performance_score (s : Suppliers.row) : Q :=
  (4 # 10) * Suppliers.On_Time_Delivery_Rate s
  + (4 # 10) * Suppliers.Quality_Score s
  - 2 * Suppliers.Defect_Rate_Percent s.

(** "100 x (count where flag=yes) / (total count)" *)
Definition on_time_rate (yes total : Z) : Q :=
  100 * inject_Z yes / inject_Z total.

(** "turnover ratio = (monthly demand x 12) / current stock" *)
Definition turnover_ratio (demand stock : Q) : Np.float64 :=
  Np.div (Np.Fin (demand * 12)) (Np.Fin stock).

(** "(current - previous) / previous x 100" *)
Definition growth (current previous : Np.float64) : Np.float64 :=
  Np.mul (Np.div (Np.sub current previous) previous) (Np.Fin 100).

(** Position of the first occurrence of a name in a list of names. *)
Fixpoint first_position (x : string) (l : list string) : nat :=
  match l with
  | [] => 0
  | y :: t => if String.eqb x y then 0 else S (first_position x t)
  end.

(** "ties broken by original input order": two rows of the ranking with
    equal on-time rates stand in the order in which their warehouses
    occur in [reference]. *)
Definition ties_in_order_of (reference : list string)
           (out : list Analysis.WarehousePerformance.row) : Prop :=
  forall i j a b,
    (i < j)%nat -> nth_error out i = Some a -> nth_error out j = Some b ->
    Analysis.WarehousePerformance.On_Time_Rate_pct a
      == Analysis.WarehousePerformance.On_Time_Rate_pct b ->
    (first_position (Analysis.WarehousePerformance.Warehouse a) reference
     < first_position (Analysis.WarehousePerformance.Warehouse b) reference)%nat.

(** The total of a column of counts. *)
Definition sum_counts (col : list Z) : Z := fold_right Z.add 0%Z col.

(** A shipment "references an existing Order". *)
Definition has_order (orders_df : list Orders.row) (s : Shipping.row) : bool :=
  existsb (fun o => String.eqb (Orders.Order_ID o) (Shipping.Order_ID s))
          orders_df.

(** "High-cost shipment: a shipment whose cost exceeds the 90th percentile
    of all shipment costs in the dataset." *)
Definition high_cost (shipping_df : list Shipping.row) : list Shipping.row :=
  filter (fun s => Np.gt (Np.Fin (Shipping.Shipping_Cost s))
                         (Analysis.high_cost_threshold shipping_df))
         shipping_df.

End Spec.

(** ** Sample tables *)

Module Examples.

Definition supplier_named (name : string) (on_time quality defect : Q)
  : Suppliers.row :=
  Suppliers.mk name "Parts" on_time quality defect 100.

(** Eight suppliers with one and the same score, in name order. *)
Definition tied_suppliers : list Suppliers.row :=
  map (fun name => supplier_named name 90 95 1)
      ["A"; "B"; "C"; "D"; "E"; "F"; "G"; "H"]%string.

(** Eight suppliers with eight different scores. *)
Definition ranked_suppliers : list Suppliers.row :=
  [ supplier_named "A" 90 95 1;
    supplier_named "B" 80 70 2;
    supplier_named "C" 99 98 (1 # 2);
    supplier_named "D" 60 65 5;
    supplier_named "E" 85 90 1;
    supplier_named "F" 75 82 3;
    supplier_named "G" 95 86 2;
    supplier_named "H" 70 60 4 ].

(** The same eight suppliers and a ninth whose score, 68, is that of E. *)
Definition ranked_suppliers_with_tie : list Suppliers.row :=
  ranked_suppliers ++ [ supplier_named "I" 85 90 1 ].

(** The names and the scores of a ranking, top to bottom. *)
Definition supplier_names (out : list (nat * Analysis.Ranking.row))
  : list string :=
  map (fun r => Analysis.Ranking.Supplier (snd r)) out.

Definition supplier_scores (out : list (nat * Analysis.Ranking.row))
  : list Q :=
  map (fun r => Qred (Analysis.rank_score r)) out.

Definition order_of (id warehouse flag : string) (value : Q)
           (ordered delivered : Timestamp) : Orders.row :=
  Orders.mk id ordered delivered delivered flag warehouse value.

(** Two warehouses, both always on time; West comes first in the file. *)
Definition two_warehouses : list Orders.row :=
  [ order_of "O1" "West" "Yes" 10 (mkTimestamp 2024 1 5) (mkTimestamp 2024 1 8);
    order_of "O2" "East" "Yes" 20 (mkTimestamp 2024 1 6) (mkTimestamp 2024 1 9) ]%string.

(** Orders of three warehouses over December, January and March. *)
Definition sample_orders : list Orders.row :=
  [ order_of "O1" "West" "Yes" 10 (mkTimestamp 2024 3 5) (mkTimestamp 2024 3 8);
    order_of "O2" "East" "Yes" 20 (mkTimestamp 2024 1 6) (mkTimestamp 2024 1 9);
    order_of "O3" "West" "No" 5 (mkTimestamp 2024 3 7) (mkTimestamp 2024 3 17);
    order_of "O4" "North" "No" 7 (mkTimestamp 2023 12 30) (mkTimestamp 2024 1 4)
  ]%string.

Definition warehouse_names (out : list Analysis.WarehousePerformance.row)
  : list string :=
  map Analysis.WarehousePerformance.Warehouse out.

Definition item_of (category : string) (stock demand : Q) : Inventory.row :=
  Inventory.mk "P" "West" category stock 0 demand 30 "Normal".

(** One item per category: B turns 12/7 times a year, A and C hold no
    stock. *)
Definition inventory : list Inventory.row :=
  [ item_of "B" 7 1; item_of "A" 0 3; item_of "C" 0 0 ]%string.

(** A category whose stock total, -0.001, rounds to -0.0. *)
Definition returned_stock : list Inventory.row :=
  [ item_of "D" (-1 # 1000) 3 ]%string.

(** Two items of one category whose integer stocks add up to 2^63. *)
Definition huge_stock : list Inventory.row :=
  [ item_of "E" 4611686018427387904 1;
    item_of "E" 4611686018427387904 1 ]%string.

Definition shipment_of (id order_id : string) (cost : Q) : Shipping.row :=
  Shipping.mk id order_id "DHL" cost 100 10.

(** Ten shipments costing 10, 20, ..., 100, for orders of [sample_orders]. *)
Definition shipments : list Shipping.row :=
  [ shipment_of "S1" "O1" 30; shipment_of "S2" "O2" 10;
    shipment_of "S3" "O3" 100; shipment_of "S4" "O4" 20;
    shipment_of "S5" "O1" 50; shipment_of "S6" "O2" 40;
    shipment_of "S7" "O3" 60; shipment_of "S8" "O4" 90;
    shipment_of "S9" "O1" 80; shipment_of "S10" "O2" 70 ]%string.

(** Shipments of three carriers: UPS and DHL both cost 50 in total, and
    the one DHL shipment covers no distance. *)
Definition carrier_shipments : list Shipping.row :=
  [ Shipping.mk "S1" "O1" "UPS" 30 100 2;
    Shipping.mk "S2" "O2" "DHL" 50 0 1;
    Shipping.mk "S3" "O3" "UPS" 20 200 4;
    Shipping.mk "S4" "O4" "FedEx" 10 50 1 ]%string.

(** A shipment for an order that is not in [sample_orders]. *)
Definition orphan_shipment : Shipping.row :=
  shipment_of "S11" "O99"%string 500.

(** A supplier whose unrounded score, 36.004, has three decimals. *)
Definition fractional_supplier : Suppliers.row :=
  supplier_named "Delta" (9001 # 100) 0 0.

Definition item_with_status (product status : string) (stock days : Q)
  : Inventory.row :=
  Inventory.mk product "West" "Parts" stock 10 5 days status.

(** Five items: two low on stock, two overstocked, one normal. *)
Definition stock_alerts : list Inventory.row :=
  [ item_with_status "P1" "Low Stock" 4 9;
    item_with_status "P2" "Overstock" 900 200;
    item_with_status "P3" "Normal" 50 40;
    item_with_status "P4" "Low Stock" 2 3;
    item_with_status "P5" "Overstock" 1500 310 ]%string.

(** Suppliers scoring 72, 56.8 and 85.4. *)
Definition scorecard_suppliers : list Suppliers.row :=
  [ supplier_named "A" 90 95 1;
    supplier_named "F" 75 82 3;
    supplier_named "K" 99 (1195 # 10) 1 ]%string.

(** Items of three warehouses with 9, 40 and 200 days of inventory. *)
Definition warehouse_items : list Inventory.row :=
  [ Inventory.mk "P1" "South" "Parts" 5 10 5 40 "Normal";
    Inventory.mk "P2" "North" "Parts" 5 10 5 200 "Overstock";
    Inventory.mk "P3" "East" "Parts" 5 10 5 9 "Low Stock" ]%string.

(** Two orders that share the identifier O1. *)
Definition repeated_orders : list Orders.row :=
  [ order_of "O1" "West" "Yes" 10 (mkTimestamp 2024 3 5) (mkTimestamp 2024 3 8);
    order_of "O1" "East" "Yes" 20 (mkTimestamp 2024 1 6) (mkTimestamp 2024 1 9)
  ]%string.

End Examples.

(** * Properties *)

Lemma filter_length_le {A} (f : A -> bool) (l : list A) :
  (length (filter f l) <= length l)%nat.
Proof.
  induction l as [|a l IH]; simpl; [lia|].
  destruct (f a); simpl; lia.
Qed.

Lemma percentage_bounds (k n : Z) :
  (0 <= k <= n)%Z -> (0 < n)%Z -> 0 <= inject_Z k / inject_Z n * 100 <= 100.
Proof.
  intros [Hk Hkn] Hn.
  rewrite Zle_Qle in Hk, Hkn. rewrite Zlt_Qlt in Hn.
  change (inject_Z 0) with 0 in *.
  split.
  - apply Qmult_le_0_compat; [|lra].
    apply Qle_shift_div_l; lra.
  - assert (inject_Z k / inject_Z n <= 1).
    { apply Qle_shift_div_r; lra. }
    lra.
Qed.

Lemma rate_as_spec (k n : Z) :
  inject_Z k / inject_Z n * 100 == Spec.on_time_rate k n.
Proof. unfold Spec.on_time_rate, Qdiv. ring. Qed.

Lemma yes_count_bounds (g : list Orders.row) :
  (0 <= Py.len (filter Analysis.is_yes g) <= Py.len g)%Z.
Proof.
  unfold Py.len. pose proof (filter_length_le Analysis.is_yes g). lia.
Qed.

Lemma len_pos {A} (g : list A) : g <> [] -> (0 < Py.len g)%Z.
Proof.
  unfold Py.len. destruct g; [congruence | simpl; lia].
Qed.

(** C1: on a non-empty Order table the overall on-time rate is returned, it
    equals 100 x (number of rows flagged 'Yes') / (number of rows), and it
    lies between 0 and 100. *)
Theorem on_time_rate_formula_and_range (orders_df : list Orders.row) :
  orders_df <> [] ->
  exists r,
    Analysis.on_time_rate orders_df = Py.Ok r /\
    r == Spec.on_time_rate (Analysis.on_time_orders orders_df)
                           (Analysis.total_orders orders_df) /\
    0 <= r <= 100.
Proof.
  intros Hne. pose proof (len_pos orders_df Hne) as Hpos.
  unfold Analysis.on_time_rate, Py.truediv, Analysis.total_orders,
    Analysis.on_time_orders, Analysis.on_time_rows.
  destruct (Z.eqb_spec (Py.len orders_df) 0) as [E|_]; [lia|].
  simpl. eexists. split; [reflexivity|]. split.
  - apply rate_as_spec.
  - apply percentage_bounds; [apply yes_count_bounds | exact Hpos].
Qed.

Lemma on_time_rate_formula_and_range_witness :
  exists r,
    Analysis.on_time_rate Examples.sample_orders = Py.Ok r /\
    r == 50 /\ 0 <= r <= 100.
Proof.
  destruct (on_time_rate_formula_and_range Examples.sample_orders)
    as (r & Hr & Hf & Hb); [discriminate|].
  exists r. split; [exact Hr|]. split; [|exact Hb].
  rewrite Hf. vm_compute. reflexivity.
Defined.

(** ** Sums and rounding *)

Lemma sum_from (l : list Q) (a : Q) : fold_left Qplus l a == a + Np.sum l.
Proof.
  unfold Np.sum. revert a.
  induction l as [|x l IH]; intros a; simpl; [ring|].
  rewrite (IH (a + x)), (IH (0 + x)). ring.
Qed.

Lemma sum_cons (x : Q) (l : list Q) : Np.sum (x :: l) == x + Np.sum l.
Proof.
  unfold Np.sum at 1. simpl. rewrite sum_from. ring.
Qed.

Lemma sum_app (l1 l2 : list Q) : Np.sum (l1 ++ l2) == Np.sum l1 + Np.sum l2.
Proof.
  induction l1 as [|x l1 IH]; simpl.
  - unfold Np.sum at 2. simpl. ring.
  - rewrite !sum_cons, IH. ring.
Qed.

Lemma rint_comp (x y : Q) : x == y -> Np.rint x = Np.rint y.
Proof.
  intros E. unfold Np.rint.
  rewrite (Qfloor_comp _ _ E).
  assert (E' : x - inject_Z (Qfloor y) == y - inject_Z (Qfloor y))
    by (rewrite E; reflexivity).
  rewrite (Qcompare_comp _ _ E' (1 # 2) (1 # 2) (Qeq_refl _)).
  reflexivity.
Qed.

Lemma round2_comp (x y : Q) : x == y -> Np.round2 x = Np.round2 y.
Proof.
  intros E. unfold Np.round2.
  rewrite (rint_comp (x * 100) (y * 100)); [reflexivity|].
  rewrite E. reflexivity.
Qed.

(** [rint] moves its argument by at most one half. *)
Lemma rint_error (x : Q) :
  x - (1 # 2) <= inject_Z (Np.rint x) <= x + (1 # 2).
Proof.
  unfold Np.rint.
  pose proof (Qfloor_le x) as Hlo.
  pose proof (Qlt_floor x) as Hhi.
  rewrite inject_Z_plus in Hhi. change (inject_Z 1) with 1 in Hhi.
  destruct (Qcompare_spec (x - inject_Z (Qfloor x)) (1 # 2)) as [E|L|G].
  - destruct (Z.even (Qfloor x));
      [|rewrite inject_Z_plus; change (inject_Z 1) with 1]; lra.
  - lra.
  - rewrite inject_Z_plus. change (inject_Z 1) with 1. lra.
Qed.

(** [rint] stays between any two integers that enclose its argument. *)
Lemma rint_between (a b : Z) (x : Q) :
  inject_Z a <= x <= inject_Z b -> (a <= Np.rint x <= b)%Z.
Proof.
  intros [Ha Hb].
  pose proof (Qfloor_le x) as Hlo.
  pose proof (Qlt_floor x) as Hhi.
  pose proof (Qfloor_resp_le _ _ Ha) as Hfa. rewrite Qfloor_Z in Hfa.
  pose proof (Qfloor_resp_le _ _ Hb) as Hfb. rewrite Qfloor_Z in Hfb.
  unfold Np.rint.
  assert (Hup : (1 # 2) <= x - inject_Z (Qfloor x) -> (Qfloor x + 1 <= b)%Z).
  { intros Hhalf.
    destruct (Z.eq_dec (Qfloor x) b) as [E|NE]; [|lia].
    exfalso. rewrite E in Hhalf. lra. }
  destruct (Qcompare_spec (x - inject_Z (Qfloor x)) (1 # 2)) as [E|L|G].
  - destruct (Z.even (Qfloor x)); [lia|].
    split; [lia|]. apply Hup. rewrite E. apply Qle_refl.
  - lia.
  - split; [lia|]. apply Hup. apply Qlt_le_weak. exact G.
Qed.

(** [round(2)] moves a value by at most half a hundredth. *)
Lemma round2_error (x : Q) :
  x - (1 # 200) <= Np.round2 x <= x + (1 # 200).
Proof.
  unfold Np.round2.
  pose proof (rint_error (x * 100)) as [Hlo Hhi].
  set (z := inject_Z (Np.rint (x * 100))) in *.
  split.
  - apply Qle_shift_div_l; [reflexivity|]. lra.
  - apply Qle_shift_div_r; [reflexivity|]. lra.
Qed.

(** A percentage stays a percentage under [round(2)]. *)
Lemma round2_percent (x : Q) : 0 <= x <= 100 -> 0 <= Np.round2 x <= 100.
Proof.
  intros [H0 H1].
  assert (Hb : (0 <= Np.rint (x * 100) <= 10000)%Z).
  { apply rint_between.
    change (inject_Z 0) with 0. change (inject_Z 10000) with 10000.
    split; lra. }
  unfold Np.round2.
  destruct Hb as [Hb0 Hb1].
  rewrite Zle_Qle in Hb0, Hb1.
  change (inject_Z 0) with 0 in Hb0. change (inject_Z 10000) with 10000 in Hb1.
  set (z := inject_Z (Np.rint (x * 100))) in *.
  split.
  - apply Qle_shift_div_l; [reflexivity|]. lra.
  - apply Qle_shift_div_r; [reflexivity|]. lra.
Qed.

(** ** Sorting *)

Lemma StronglySorted_app_inv {A} (R : A -> A -> Prop) (l1 l2 : list A) :
  StronglySorted R (l1 ++ l2) ->
  StronglySorted R l1 /\ StronglySorted R l2 /\
  (forall a b, In a l1 -> In b l2 -> R a b).
Proof.
  induction l1 as [|x l1 IH]; simpl; intros H.
  - repeat split; [constructor | exact H | intros a b []].
  - inversion H as [|? ? Hs Hf]; subst.
    destruct (IH Hs) as (H1 & H2 & H12).
    rewrite Forall_app in Hf. destruct Hf as [Hf1 Hf2].
    repeat split; [constructor; assumption | assumption |].
    intros a b [<-|Ha] Hb.
    + rewrite Forall_forall in Hf2. auto.
    + auto.
Qed.

Section SortingFacts.
Context {A : Type} (key : A -> Q).

Let before := Pd.before key.
Let beforeb := Pd.beforeb key.

Lemma beforeb_true asc a b : beforeb asc a b = true <-> before asc a b.
Proof. destruct asc; apply Qle_bool_iff. Qed.

Lemma beforeb_false asc a b : beforeb asc a b = false -> before asc b a.
Proof.
  intros H. unfold before, Pd.before.
  assert (N : ~ before asc a b)
    by (rewrite <- beforeb_true; congruence).
  unfold before, Pd.before in N.
  destruct asc; apply Qlt_le_weak, Qnot_le_lt; exact N.
Qed.

Lemma before_trans asc a b c :
  before asc a b -> before asc b c -> before asc a c.
Proof.
  unfold before, Pd.before. destruct asc; intros; eapply Qle_trans; eauto.
Qed.

Lemma insert_stable_perm asc x l :
  Permutation (x :: l) (Pd.insert_stable key asc x l).
Proof.
  induction l as [|y t IH]; simpl; [reflexivity|].
  destruct (Pd.beforeb key asc x y); [reflexivity|].
  rewrite perm_swap. constructor. exact IH.
Qed.

Lemma sort_stable_perm asc l : Permutation l (Pd.sort_stable key asc l).
Proof.
  induction l as [|x l IH]; simpl; [constructor|].
  rewrite <- insert_stable_perm. constructor. exact IH.
Qed.

Lemma insert_stable_sorted asc x l :
  StronglySorted (before asc) l ->
  StronglySorted (before asc) (Pd.insert_stable key asc x l).
Proof.
  induction 1 as [|y t Hs IH Hf]; simpl.
  - repeat constructor.
  - destruct (Pd.beforeb key asc x y) eqn:E.
    + apply beforeb_true in E.
      constructor; [constructor; assumption|].
      constructor; [exact E|].
      eapply Forall_impl; [|exact Hf].
      intros z Hz. eapply before_trans; eauto.
    + apply beforeb_false in E.
      constructor; [exact IH|].
      rewrite <- insert_stable_perm. constructor; assumption.
Qed.

Lemma sort_stable_sorted asc l :
  StronglySorted (before asc) (Pd.sort_stable key asc l).
Proof.
  induction l as [|x l IH]; simpl; [constructor|].
  apply insert_stable_sorted. exact IH.
Qed.

(** The stable order is one of the orders [sort_values] may return. *)
Lemma sort_stable_is_sort_values asc l :
  Pd.sort_values key asc l (Pd.sort_stable key asc l).
Proof. split; [apply sort_stable_perm | apply sort_stable_sorted]. Qed.

(** Stability: rows that enter in the order [R0] leave ordered by key,
    and by [R0] among equal keys. *)
Section Stable.
Variable R0 : A -> A -> Prop.
Variable asc : bool.

Let strictly := Pd.strictly key asc.
Let key_then_input := Pd.key_then_input key R0 asc.

Lemma strictly_of_not_before a b :
  Pd.beforeb key asc a b = false -> strictly b a.
Proof.
  intros H. unfold strictly, Pd.strictly.
  assert (N : ~ before asc a b)
    by (rewrite <- beforeb_true; unfold beforeb; congruence).
  unfold before, Pd.before in N.
  destruct asc; apply Qnot_le_lt; exact N.
Qed.

Lemma before_cases a b :
  before asc a b -> strictly a b \/ key a == key b.
Proof.
  unfold before, Pd.before, strictly, Pd.strictly. destruct asc; intros H.
  - destruct (Qle_lt_or_eq _ _ H); auto.
  - destruct (Qle_lt_or_eq _ _ H) as [L|E]; [auto|].
    right. symmetry. exact E.
Qed.

Lemma key_then_input_weaken a b : key_then_input a b -> before asc a b.
Proof.
  unfold key_then_input, Pd.key_then_input, Pd.strictly, before, Pd.before.
  destruct asc; intros [L|[E _]];
    try (apply Qlt_le_weak; exact L); rewrite E; apply Qle_refl.
Qed.

Lemma before_strictly a b c :
  before asc a b -> strictly b c -> strictly a c.
Proof.
  unfold before, Pd.before, strictly, Pd.strictly. destruct asc; intros.
  - eapply Qle_lt_trans; eauto.
  - eapply Qlt_le_trans; eauto.
Qed.

Lemma insert_stable_keeps_input_order x s :
  StronglySorted key_then_input s ->
  Forall (R0 x) s ->
  StronglySorted key_then_input (Pd.insert_stable key asc x s).
Proof.
  induction 1 as [|y t Hs IH Hf]; simpl; intros HR.
  - repeat constructor.
  - inversion HR as [|? ? Hxy Hxt]; subst.
    destruct (Pd.beforeb key asc x y) eqn:E.
    + apply beforeb_true in E.
      constructor; [constructor; assumption|].
      constructor.
      * destruct (before_cases _ _ E) as [L|T]; [left | right]; auto.
      * rewrite Forall_forall in *. intros z Hz.
        specialize (Hf z Hz). specialize (Hxt z Hz).
        destruct Hf as [L|[T _]].
        -- left. eapply before_strictly; eauto.
        -- destruct (before_cases _ _ E) as [L'|T'].
           ++ left. unfold strictly, Pd.strictly in *.
              destruct asc; rewrite <- T; exact L'.
           ++ right. split; [rewrite T'; exact T | exact Hxt].
    + constructor; [apply IH; exact Hxt|].
      rewrite <- insert_stable_perm.
      constructor; [|exact Hf].
      left. apply strictly_of_not_before. exact E.
Qed.

Lemma sort_stable_keeps_input_order l :
  StronglySorted R0 l ->
  StronglySorted key_then_input (Pd.sort_stable key asc l).
Proof.
  induction 1 as [|x l Hs IH Hf]; simpl; [constructor|].
  apply insert_stable_keeps_input_order; [exact IH|].
  rewrite <- sort_stable_perm. exact Hf.
Qed.

End Stable.

End SortingFacts.

(** ** Index labels *)

Lemma in_combine_seq {A} (l : list A) (s i : nat) (x : A) :
  In (i, x) (combine (seq s (length l)) l) <->
  (s <= i)%nat /\ nth_error l (i - s) = Some x.
Proof.
  revert s. induction l as [|y l IH]; intros s; simpl.
  - split; [intros [] | intros [_ H]].
    destruct (i - s)%nat; discriminate.
  - rewrite IH. split.
    + intros [E|[Hle Hn]].
      * inversion E; subst. rewrite Nat.sub_diag. split; [lia | reflexivity].
      * split; [lia|].
        replace (i - s)%nat with (S (i - S s)) by lia. exact Hn.
    + intros [Hle Hn].
      destruct (Nat.eq_dec i s) as [->|NE].
      * rewrite Nat.sub_diag in Hn. simpl in Hn. left. congruence.
      * right. split; [lia|].
        replace (i - s)%nat with (S (i - S s)) in Hn by lia. exact Hn.
Qed.

Lemma in_with_index {A} (l : list A) (i : nat) (x : A) :
  In (i, x) (Pd.with_index l) <-> nth_error l i = Some x.
Proof.
  unfold Pd.with_index. rewrite in_combine_seq, Nat.sub_0_r.
  split; [intros [_ H]; exact H | intros H; split; [lia | exact H]].
Qed.

Lemma with_index_fst {A} (l : list A) :
  map fst (Pd.with_index l) = seq 0 (length l).
Proof.
  unfold Pd.with_index. generalize 0%nat.
  induction l as [|x l IH]; intros s; simpl; [reflexivity|].
  rewrite IH. reflexivity.
Qed.

Lemma with_index_length {A} (l : list A) :
  length (Pd.with_index l) = length l.
Proof.
  unfold Pd.with_index. rewrite length_combine, length_seq. apply Nat.min_id.
Qed.

Lemma with_index_NoDup {A} (l : list A) : NoDup (Pd.with_index l).
Proof.
  apply (NoDup_map_inv fst). rewrite with_index_fst. apply seq_NoDup.
Qed.

(** A label names one row. *)
Lemma with_index_label_inj {A} (l : list A) (a b : nat * A) :
  In a (Pd.with_index l) -> In b (Pd.with_index l) -> fst a = fst b -> a = b.
Proof.
  destruct a as [i x], b as [j y]. rewrite !in_with_index. simpl.
  intros Hx Hy ->. congruence.
Qed.

(** The rows of a file arrive in the order of their labels. *)
Lemma with_index_sorted {A} (l : list A) :
  StronglySorted Pd.label_lt (Pd.with_index l).
Proof.
  unfold Pd.with_index, Pd.label_lt. generalize 0%nat.
  induction l as [|x l IH]; intros s; simpl; constructor.
  - apply IH.
  - rewrite Forall_forall. intros [i y] Hin. simpl.
    apply in_combine_seq in Hin. lia.
Qed.

(** Pairwise different cells that all occur in a column are at most as
    many as the column has rows. *)
Lemma distinct_cells_count (qs col : list Q) :
  Pd.all_distinct qs = true ->
  (forall q, In q qs -> exists x, In x col /\ q == x) ->
  (length qs <= length col)%nat.
Proof.
  revert col. induction qs as [|q qs IH]; intros col Hd Hin; simpl; [lia|].
  simpl in Hd. apply andb_true_iff in Hd. destruct Hd as [Hq Hd].
  rewrite forallb_forall in Hq.
  destruct (Hin q (or_introl eq_refl)) as (x & Hx & E).
  apply in_split in Hx. destruct Hx as (c1 & c2 & ->).
  assert (Hrest : (length qs <= length (c1 ++ c2))%nat).
  { apply IH; [exact Hd|]. intros q' Hq'.
    destruct (Hin q' (or_intror Hq')) as (y & Hy & E').
    exists y. split; [|exact E'].
    apply in_app_or in Hy. apply in_or_app.
    destruct Hy as [Hy|[Hy|Hy]]; [left; exact Hy | | right; exact Hy].
    exfalso. subst y. specialize (Hq q' Hq').
    apply negb_true_iff in Hq. apply Qeq_bool_neq in Hq.
    apply Hq. rewrite E, E'. reflexivity. }
  rewrite length_app in *. simpl. lia.
Qed.

(** ** Selections of the largest and the smallest rows *)

Section Selections.
Context {A : Type} (key : A -> Q).

(** When [t + b] pairwise different keys occur in a table, its [t] largest
    and its [b] smallest rows have no row in common: a common row [a]
    would leave room for [t - 1] keys above its own, [b - 1] below, and
    its own. *)
Lemma largest_smallest_disjoint (df : list A) (t b : nat) (a : A)
      (qs : list Q) :
  Pd.all_distinct qs = true ->
  (forall q, In q qs -> exists x, In x df /\ key x == q) ->
  (t + b <= length qs)%nat ->
  In a (firstn t (Pd.sort_stable key false df)) ->
  In a (firstn b (Pd.sort_stable key true df)) ->
  False.
Proof.
  intros Hd Hq Hlen Htop Hbot.
  set (D := Pd.sort_stable key false df) in *.
  set (U := Pd.sort_stable key true df) in *.
  assert (HpD : Permutation df D) by apply sort_stable_perm.
  assert (HpU : Permutation df U) by apply sort_stable_perm.
  assert (HsD : StronglySorted (Pd.before key false) D)
    by apply sort_stable_sorted.
  assert (HsU : StronglySorted (Pd.before key true) U)
    by apply sort_stable_sorted.
  rewrite <- (firstn_skipn t D) in HsD.
  rewrite <- (firstn_skipn b U) in HsU.
  apply StronglySorted_app_inv in HsD. destruct HsD as (_ & _ & HD).
  apply StronglySorted_app_inv in HsU. destruct HsU as (_ & _ & HU).
  destruct (in_split _ _ Hbot) as (U1 & U2 & EU).
  assert (Hcount : (length qs
                    <= length (map key (firstn t D) ++ map key (U1 ++ U2)))%nat).
  { apply distinct_cells_count; [exact Hd|].
    intros q Hin. destruct (Hq q Hin) as (x & Hx & E).
    destruct (Qlt_le_dec (key a) (key x)) as [Hgt|Hle].
    - exists (key x). split; [|symmetry; exact E].
      apply in_or_app. left. apply in_map.
      assert (HxD : In x D) by (eapply Permutation_in; [exact HpD | exact Hx]).
      rewrite <- (firstn_skipn t D) in HxD.
      apply in_app_or in HxD. destruct HxD as [H|H]; [exact H|].
      exfalso. pose proof (HD a x Htop H) as Hb. unfold Pd.before in Hb.
      exact (Qlt_not_le _ _ Hgt Hb).
    - destruct (Qlt_le_dec (key x) (key a)) as [Hlt|Hge].
      + exists (key x). split; [|symmetry; exact E].
        apply in_or_app. right. apply in_map.
        assert (HxU : In x U) by (eapply Permutation_in; [exact HpU | exact Hx]).
        rewrite <- (firstn_skipn b U) in HxU.
        apply in_app_or in HxU. destruct HxU as [H|H].
        * rewrite EU in H. apply in_app_or in H. apply in_or_app.
          destruct H as [H|[H|H]]; [left; exact H | | right; exact H].
          exfalso. subst x. exact (Qlt_irrefl _ Hlt).
        * exfalso. pose proof (HU a x Hbot H) as Hb. unfold Pd.before in Hb.
          exact (Qlt_not_le _ _ Hlt Hb).
      + exists (key a). split.
        * apply in_or_app. left. apply in_map. exact Htop.
        * rewrite <- E. apply Qle_antisym; assumption. }
  pose proof (firstn_le_length t D) as HlD.
  pose proof (firstn_le_length b U) as HlU.
  rewrite EU in HlU.
  rewrite !length_app, !length_map in Hcount.
  rewrite length_app in *. simpl in HlU. lia.
Qed.

End Selections.

Lemma in_firstn {A} (n : nat) (l : list A) (x : A) :
  In x (firstn n l) -> In x l.
Proof.
  intros H. rewrite <- (firstn_skipn n l). apply in_or_app. left. exact H.
Qed.

Section SelectN.
Context {A : Type} (key : A -> Q).

Lemma select_n_incl asc n df out :
  Pd.select_n key asc n df out -> incl out df.
Proof.
  unfold Pd.select_n. intros H x Hx.
  destruct (length df <=? n)%nat.
  - destruct H as (s & [Hp _] & ->).
    apply in_firstn in Hx.
    eapply Permutation_in; [symmetry; exact Hp | exact Hx].
  - subst out. apply in_firstn in Hx.
    eapply Permutation_in; [symmetry; apply sort_stable_perm | exact Hx].
Qed.

Lemma select_n_sorted asc n df out :
  Pd.select_n key asc n df out -> StronglySorted (Pd.before key asc) out.
Proof.
  unfold Pd.select_n. intros H.
  assert (Hfirst : forall s, StronglySorted (Pd.before key asc) s ->
                             StronglySorted (Pd.before key asc) (firstn n s)).
  { intros s Hs. rewrite <- (firstn_skipn n s) in Hs.
    apply StronglySorted_app_inv in Hs. tauto. }
  destruct (length df <=? n)%nat.
  - destruct H as (s & [_ Hs] & ->). auto.
  - subst out. apply Hfirst, sort_stable_sorted.
Qed.

Lemma select_n_length asc n df out :
  Pd.select_n key asc n df out -> length out = Nat.min n (length df).
Proof.
  unfold Pd.select_n. intros H.
  destruct (length df <=? n)%nat.
  - destruct H as (s & [Hp _] & ->).
    rewrite length_firstn, (Permutation_length Hp). reflexivity.
  - subst out.
    rewrite length_firstn, <- (Permutation_length (sort_stable_perm key asc df)).
    reflexivity.
Qed.

(** Fewer rows asked for than the table has: the selection is the head
    of the stable order. *)
Lemma select_n_fast asc n df out :
  (n < length df)%nat ->
  Pd.select_n key asc n df out ->
  out = firstn n (Pd.sort_stable key asc df).
Proof.
  unfold Pd.select_n. intros Hlt H.
  destruct (Nat.leb_spec (length df) n); [lia | exact H].
Qed.

End SelectN.

Lemma StronglySorted_map {A B} (f : A -> B) (R : B -> B -> Prop) (l : list A) :
  StronglySorted (fun a b => R (f a) (f b)) l -> StronglySorted R (map f l).
Proof.
  induction 1 as [|x l Hs IH Hf]; simpl; constructor; [exact IH|].
  rewrite Forall_map. exact Hf.
Qed.

(** ** Supplier scores and rankings *)

Lemma performance_score_rounds_spec (s : Suppliers.row) :
  Analysis.performance_score s = Np.round2 (Spec.performance_score s).
Proof.
  unfold Analysis.performance_score, Spec.performance_score.
  apply round2_comp. ring.
Qed.

Lemma in_scored_table (supplier_df : list Suppliers.row) (a : nat * Analysis.scored) :
  In a (Pd.with_index (Analysis.with_performance_score supplier_df)) ->
  exists s, nth_error supplier_df (fst a) = Some s /\
            Analysis.supplier (snd a) = s /\
            Analysis.Performance_Score (snd a) = Analysis.performance_score s.
Proof.
  destruct a as [i sc]. rewrite in_with_index.
  unfold Analysis.with_performance_score. rewrite nth_error_map. simpl.
  destruct (nth_error supplier_df i) as [s|]; simpl; [|discriminate].
  intros E. inversion E; subst. exists s. auto.
Qed.

Lemma scored_table_length (supplier_df : list Suppliers.row) :
  length (Pd.with_index (Analysis.with_performance_score supplier_df))
  = length supplier_df.
Proof.
  rewrite with_index_length. unfold Analysis.with_performance_score.
  apply length_map.
Qed.

Lemma selected_row_score (supplier_df : list Suppliers.row) asc n sel i r :
  Pd.select_n Analysis.score_of asc n
    (Pd.with_index (Analysis.with_performance_score supplier_df)) sel ->
  In (i, r) (map Analysis.project sel) ->
  exists s, nth_error supplier_df i = Some s /\
    Analysis.Ranking.Supplier r = Suppliers.Supplier s /\
    Analysis.Ranking.Performance_Score r = Np.round2 (Spec.performance_score s).
Proof.
  intros Hsel Hin. apply in_map_iff in Hin. destruct Hin as (a & E & Ha).
  apply (select_n_incl _ _ _ _ _ Hsel) in Ha.
  destruct (in_scored_table _ _ Ha) as (s & Hn & Hs & Hp).
  unfold Analysis.project in E. inversion E; subst i r. simpl.
  exists s. rewrite Hs, Hp. repeat split; [exact Hn|].
  apply performance_score_rounds_spec.
Qed.

(** C2: every supplier of the table carries the score
    round2 (0.4 x on-time + 0.4 x quality - 2 x defect), which is within
    0.005 of the unrounded formula, and so does every selected row for the
    supplier at its row label; and when the table contains at least 8
    suppliers whose scores are pairwise different (other rows may tie),
    the top-5 and the bottom-3 selections share no row label. *)
Theorem supplier_scores_and_disjoint_selections
  (supplier_df : list Suppliers.row)
  (top bottom : list (nat * Analysis.Ranking.row)) :
  Analysis.top_suppliers supplier_df top ->
  Analysis.bottom_suppliers supplier_df bottom ->
  (forall i s, nth_error supplier_df i = Some s ->
     exists r,
       nth_error (Analysis.with_performance_score supplier_df) i = Some r /\
       Analysis.supplier r = s /\
       Analysis.Performance_Score r = Np.round2 (Spec.performance_score s) /\
       Spec.performance_score s - (1 # 200)
         <= Analysis.Performance_Score r
         <= Spec.performance_score s + (1 # 200)) /\
  (forall i r, In (i, r) (top ++ bottom) ->
     exists s, nth_error supplier_df i = Some s /\
       Analysis.Ranking.Performance_Score r
         = Np.round2 (Spec.performance_score s) /\
       Spec.performance_score s - (1 # 200)
         <= Analysis.Ranking.Performance_Score r
         <= Spec.performance_score s + (1 # 200)) /\
  ((exists chosen : list Suppliers.row,
      (8 <= length chosen)%nat /\
      incl chosen supplier_df /\
      Pd.all_distinct (map Analysis.performance_score chosen) = true) ->
   forall i, In i (map fst top) -> ~ In i (map fst bottom)).
Proof.
  intros (st & Ht & ->) (sb & Hb & ->). split; [|split].
  - intros i s Hn.
    exists {| Analysis.supplier := s;
              Analysis.Performance_Score := Analysis.performance_score s |}.
    unfold Analysis.with_performance_score. rewrite nth_error_map, Hn. simpl.
    rewrite performance_score_rounds_spec.
    repeat split; apply round2_error.
  - intros i r Hin. apply in_app_or in Hin.
    assert (H : exists s, nth_error supplier_df i = Some s /\
                Analysis.Ranking.Supplier r = Suppliers.Supplier s /\
                Analysis.Ranking.Performance_Score r
                  = Np.round2 (Spec.performance_score s)).
    { destruct Hin as [Hin|Hin];
        [exact (selected_row_score _ _ _ _ _ _ Ht Hin)
        |exact (selected_row_score _ _ _ _ _ _ Hb Hin)]. }
    destruct H as (s & Hn & _ & Hp). exists s.
    repeat split; try assumption; rewrite Hp; apply round2_error.
  - intros (chosen & Hlen & Hincl & Hdist) i Hit Hib.
    unfold Analysis.top_selection, Pd.nlargest in Ht.
    unfold Analysis.bottom_selection, Pd.nsmallest in Hb.
    set (df := Pd.with_index (Analysis.with_performance_score supplier_df)) in *.
    set (qs := map Analysis.performance_score chosen) in *.
    assert (Hq : forall q, In q qs ->
                   exists x, In x df /\ Analysis.score_of x == q).
    { intros q Hq. apply in_map_iff in Hq. destruct Hq as (c & <- & Hc).
      apply Hincl in Hc. apply In_nth_error in Hc. destruct Hc as (n & Hn).
      exists (n, {| Analysis.supplier := c;
                    Analysis.Performance_Score := Analysis.performance_score c |}).
      split; [|reflexivity].
      apply in_with_index. unfold Analysis.with_performance_score.
      rewrite nth_error_map, Hn. reflexivity. }
    assert (Hqs : length qs = length chosen) by apply length_map.
    assert (Hl : (8 <= length df)%nat).
    { rewrite <- (length_map Analysis.score_of df).
      apply Nat.le_trans with (length qs); [lia|].
      apply distinct_cells_count; [exact Hdist|].
      intros q Hin. destruct (Hq q Hin) as (x & Hx & E).
      exists (Analysis.score_of x). split; [apply in_map; exact Hx|].
      symmetry. exact E. }
    apply select_n_fast in Ht; [|lia].
    apply select_n_fast in Hb; [|lia].
    rewrite map_map in Hit, Hib. simpl in Hit, Hib.
    apply in_map_iff in Hit. destruct Hit as (a & Ea & Ha).
    apply in_map_iff in Hib. destruct Hib as (b & Eb & Hb').
    assert (Hab : a = b).
    { apply (with_index_label_inj (Analysis.with_performance_score supplier_df)).
      - subst st. apply in_firstn in Ha.
        eapply Permutation_in; [symmetry; apply sort_stable_perm | exact Ha].
      - subst sb. apply in_firstn in Hb'.
        eapply Permutation_in; [symmetry; apply sort_stable_perm | exact Hb'].
      - congruence. }
    subst b st sb.
    apply (largest_smallest_disjoint Analysis.score_of df 5 3 a qs);
      [exact Hdist | exact Hq | lia | exact Ha | exact Hb'].
Qed.

(** C5: the top-5 selection is ordered by score descending and takes
    min(5, n) rows of the table; when the table has more than five rows,
    equal scores are taken and listed in the order of their row labels
    (the input order), never by supplier name. *)
Theorem top_suppliers_by_score_then_row_order
  (supplier_df : list Suppliers.row) (out : list (nat * Analysis.Ranking.row)) :
  Analysis.top_suppliers supplier_df out ->
  let table := map Analysis.project
                 (Pd.with_index (Analysis.with_performance_score supplier_df)) in
  let by_score_then_label :=
    Pd.key_then_input Analysis.rank_score Pd.label_lt false in
  StronglySorted (fun a b => Analysis.rank_score b <= Analysis.rank_score a) out /\
  length out = Nat.min 5 (length supplier_df) /\
  incl out table /\
  ((5 < length supplier_df)%nat ->
   StronglySorted by_score_then_label out /\
   forall a b, In a out -> In b table -> ~ In b out -> by_score_then_label a b).
Proof.
  intros (sel & Hsel & ->). cbv zeta.
  set (df := Pd.with_index (Analysis.with_performance_score supplier_df)) in *.
  unfold Analysis.top_selection, Pd.nlargest in Hsel. fold df in Hsel.
  repeat split.
  - apply StronglySorted_map. exact (select_n_sorted _ _ _ _ _ Hsel).
  - rewrite length_map, (select_n_length _ _ _ _ _ Hsel).
    unfold df. rewrite scored_table_length. reflexivity.
  - intros x Hx. apply in_map_iff in Hx. destruct Hx as (a & <- & Ha).
    apply in_map. exact (select_n_incl _ _ _ _ _ Hsel a Ha).
  - apply StronglySorted_map.
    apply select_n_fast in Hsel; [|unfold df; rewrite scored_table_length; lia].
    pose proof (sort_stable_keeps_input_order Analysis.score_of Pd.label_lt
                  false df (with_index_sorted _)) as Hs.
    rewrite <- (firstn_skipn 5) in Hs.
    apply StronglySorted_app_inv in Hs. subst sel. exact (proj1 Hs).
  - intros a b Ha Hb Hnb.
    apply select_n_fast in Hsel; [|unfold df; rewrite scored_table_length; lia].
    pose proof (sort_stable_keeps_input_order Analysis.score_of Pd.label_lt
                  false df (with_index_sorted _)) as Hs.
    rewrite <- (firstn_skipn 5) in Hs.
    apply StronglySorted_app_inv in Hs. destruct Hs as (_ & _ & Hcross).
    apply in_map_iff in Ha. destruct Ha as (a0 & <- & Ha0).
    apply in_map_iff in Hb. destruct Hb as (b0 & <- & Hb0).
    subst sel.
    apply (Hcross a0 b0 Ha0).
    assert (Hb1 : In b0 (Pd.sort_stable Analysis.score_of false df))
      by (eapply Permutation_in; [apply sort_stable_perm | exact Hb0]).
    rewrite <- (firstn_skipn 5) in Hb1. apply in_app_or in Hb1.
    destruct Hb1 as [Hq|Hq]; [|exact Hq].
    exfalso. apply Hnb. apply in_map. exact Hq.
Qed.

(** C10: the visualization script and the analysis script give every
    supplier the same Performance_Score, the 0.4 / 0.4 / -2 combination
    rounded to two decimals. *)
Theorem performance_score_scripts_agree (supplier_df : list Suppliers.row) :
  map Visualizations.Performance_Score
      (Visualizations.with_performance_score supplier_df)
  = map Analysis.Performance_Score
        (Analysis.with_performance_score supplier_df) /\
  map Visualizations.supplier (Visualizations.with_performance_score supplier_df)
  = map Analysis.supplier (Analysis.with_performance_score supplier_df) /\
  map Analysis.Performance_Score (Analysis.with_performance_score supplier_df)
  = map (fun s => Np.round2 (Spec.performance_score s)) supplier_df.
Proof.
  unfold Visualizations.with_performance_score, Analysis.with_performance_score.
  rewrite !map_map. simpl. repeat split.
  apply map_ext. intros s. apply performance_score_rounds_spec.
Qed.

Lemma supplier_scores_and_disjoint_selections_witness :
  exists top bottom,
    Analysis.top_suppliers Examples.ranked_suppliers_with_tie top /\
    Analysis.bottom_suppliers Examples.ranked_suppliers_with_tie bottom /\
    map fst top = [2; 0; 6; 4; 8]%nat /\
    map fst bottom = [3; 7; 1]%nat /\
    Pd.all_distinct
      (map Analysis.performance_score Examples.ranked_suppliers_with_tie)
    = false /\
    (exists r,
       nth_error
         (Analysis.with_performance_score Examples.ranked_suppliers_with_tie) 8
       = Some r /\
       Analysis.Performance_Score r == 68) /\
    (forall i, In i (map fst top) -> ~ In i (map fst bottom)).
Proof.
  set (df := Pd.with_index
               (Analysis.with_performance_score
                  Examples.ranked_suppliers_with_tie)).
  set (top := map Analysis.project
                (firstn 5 (Pd.sort_stable Analysis.score_of false df))).
  set (bottom := map Analysis.project
                   (firstn 3 (Pd.sort_stable Analysis.score_of true df))).
  assert (Ht : Analysis.top_suppliers Examples.ranked_suppliers_with_tie top).
  { exists (firstn 5 (Pd.sort_stable Analysis.score_of false df)).
    split; [vm_compute; reflexivity | reflexivity]. }
  assert (Hb : Analysis.bottom_suppliers
                 Examples.ranked_suppliers_with_tie bottom).
  { exists (firstn 3 (Pd.sort_stable Analysis.score_of true df)).
    split; [vm_compute; reflexivity | reflexivity]. }
  pose proof (supplier_scores_and_disjoint_selections
                Examples.ranked_suppliers_with_tie top bottom Ht Hb)
    as (Hscore & _ & Hdisjoint).
  exists top, bottom.
  split; [exact Ht|]. split; [exact Hb|].
  split; [vm_compute; reflexivity|]. split; [vm_compute; reflexivity|].
  split; [vm_compute; reflexivity|]. split.
  - destruct (Hscore 8%nat (Examples.supplier_named "I" 85 90 1) eq_refl)
      as (r & Hn & _ & Hp & _).
    exists r. split; [exact Hn|]. rewrite Hp. vm_compute. reflexivity.
  - apply Hdisjoint. exists Examples.ranked_suppliers.
    split; [vm_compute; apply le_n|].
    split; [|vm_compute; reflexivity].
    intros s Hs. unfold Examples.ranked_suppliers_with_tie.
    apply in_or_app. left. exact Hs.
Defined.

(** C2, as stated, fails twice: a score is the rounded value, not the value
    of the formula (36 for 36.004); and eight suppliers with one common
    score have label 0 in the top-5 and in the bottom-3 selection. *)
Lemma tied_scores_selections_overlap :
  (Analysis.performance_score Examples.fractional_supplier == 36 /\
   Spec.performance_score Examples.fractional_supplier == 36004 # 1000 /\
   ~ Analysis.performance_score Examples.fractional_supplier
     == Spec.performance_score Examples.fractional_supplier) /\
  (length Examples.tied_suppliers = 8%nat /\
   exists top bottom,
     Analysis.top_suppliers Examples.tied_suppliers top /\
     Analysis.bottom_suppliers Examples.tied_suppliers bottom /\
     map fst top = [0; 1; 2; 3; 4]%nat /\
     map fst bottom = [0; 1; 2]%nat /\
     In 0%nat (map fst top) /\ In 0%nat (map fst bottom)).
Proof.
  split.
  - split; [vm_compute; reflexivity|]. split; [vm_compute; reflexivity|].
    intros E. vm_compute in E. discriminate E.
  - split; [reflexivity|].
    set (df := Pd.with_index
                 (Analysis.with_performance_score Examples.tied_suppliers)).
    exists (map Analysis.project
              (firstn 5 (Pd.sort_stable Analysis.score_of false df))),
           (map Analysis.project
              (firstn 3 (Pd.sort_stable Analysis.score_of true df))).
    split.
    { exists (firstn 5 (Pd.sort_stable Analysis.score_of false df)).
      split; [vm_compute; reflexivity | reflexivity]. }
    split.
    { exists (firstn 3 (Pd.sort_stable Analysis.score_of true df)).
      split; [vm_compute; reflexivity | reflexivity]. }
    split; [vm_compute; reflexivity|]. split; [vm_compute; reflexivity|].
    split; vm_compute; left; reflexivity.
Qed.

Lemma top_suppliers_by_score_then_row_order_witness :
  exists out,
    Analysis.top_suppliers (rev Examples.tied_suppliers) out /\
    Examples.supplier_names out = ["H"; "G"; "F"; "E"; "D"]%string /\
    StronglySorted
      (Pd.key_then_input Analysis.rank_score Pd.label_lt false) out.
Proof.
  set (df := Pd.with_index
               (Analysis.with_performance_score (rev Examples.tied_suppliers))).
  set (out := map Analysis.project
                (firstn 5 (Pd.sort_stable Analysis.score_of false df))).
  assert (Ht : Analysis.top_suppliers (rev Examples.tied_suppliers) out).
  { exists (firstn 5 (Pd.sort_stable Analysis.score_of false df)).
    split; [vm_compute; reflexivity | reflexivity]. }
  exists out. split; [exact Ht|]. split; [vm_compute; reflexivity|].
  pose proof (top_suppliers_by_score_then_row_order
                (rev Examples.tied_suppliers) out Ht) as H.
  cbv zeta in H. destruct H as (_ & _ & _ & H).
  apply H. vm_compute. repeat constructor.
Defined.

(** C5, as stated, fails: the same eight suppliers, all with one score, give
    A..E as the top five when listed in name order and H..D when listed in
    the reverse order; equal scores follow the input rows, not the names. *)
Lemma top_suppliers_depend_on_row_order :
  Permutation Examples.tied_suppliers (rev Examples.tied_suppliers) /\
  (exists out, Analysis.top_suppliers Examples.tied_suppliers out) /\
  (exists out, Analysis.top_suppliers (rev Examples.tied_suppliers) out) /\
  (forall out, Analysis.top_suppliers Examples.tied_suppliers out ->
     Examples.supplier_names out = ["A"; "B"; "C"; "D"; "E"]%string) /\
  (forall out, Analysis.top_suppliers (rev Examples.tied_suppliers) out ->
     Examples.supplier_names out = ["H"; "G"; "F"; "E"; "D"]%string /\
     Examples.supplier_scores out = [72; 72; 72; 72; 72]).
Proof.
  split; [apply Permutation_rev|].
  split.
  { eexists. eexists. split; [|reflexivity]. vm_compute. reflexivity. }
  split.
  { eexists. eexists. split; [|reflexivity]. vm_compute. reflexivity. }
  split.
  - intros out (sel & Hsel & ->). vm_compute in Hsel. subst sel.
    vm_compute. reflexivity.
  - intros out (sel & Hsel & ->). vm_compute in Hsel. subst sel.
    split; vm_compute; reflexivity.
Qed.

(** ** The empty Order table *)

(** C3: on a table without rows the division [on_time_orders / total_orders]
    raises ZeroDivisionError, ending the run without a value; on any other
    table the rate is returned.  No exception other than that of the
    division is ever raised. *)
Theorem on_time_rate_outcome (orders_df : list Orders.row) :
  (orders_df = [] /\
   Analysis.on_time_rate orders_df = Py.Raise Py.ZeroDivisionError) \/
  (orders_df <> [] /\ exists r, Analysis.on_time_rate orders_df = Py.Ok r).
Proof.
  destruct orders_df as [|o l].
  - left. split; reflexivity.
  - right. split; [discriminate|].
    unfold Analysis.on_time_rate, Py.truediv, Analysis.total_orders.
    destruct (Z.eqb_spec (Py.len (o :: l)) 0) as [E|_].
    + unfold Py.len in E. simpl length in E. lia.
    + eexists. reflexivity.
Qed.

(** C3, as stated, fails: the empty table is not rejected by a check of the
    script; the run ends on the ZeroDivisionError of the division itself. *)
Lemma empty_orders_unguarded_division :
  Analysis.on_time_rate [] = Py.Raise Py.ZeroDivisionError /\
  ~ (exists msg, Analysis.on_time_rate [] = Py.Raise (Py.ExplicitError msg)).
Proof.
  split; [reflexivity|].
  intros [msg H]. vm_compute in H. discriminate H.
Qed.

(** ** Grouping *)

Section GroupByFacts.
Context {K A : Type} (cmp : K -> K -> comparison) (by_ : A -> K).

Hypothesis cmp_eq : forall x y, cmp x y = Eq <-> x = y.
Hypothesis cmp_lt_trans :
  forall x y z, cmp x y = Lt -> cmp y z = Lt -> cmp x z = Lt.
Hypothesis cmp_gt_lt : forall x y, cmp x y = Gt -> cmp y x = Lt.

Let klt (x y : K) : Prop := cmp x y = Lt.

Lemma insert_key_in k ks k' :
  In k' (Pd.insert_key cmp k ks) <-> k' = k \/ In k' ks.
Proof.
  induction ks as [|h t IH]; simpl.
  - intuition.
  - destruct (cmp k h) eqn:E; simpl.
    + apply cmp_eq in E. subst h. intuition.
    + intuition.
    + rewrite IH. intuition.
Qed.

Lemma insert_key_sorted k ks :
  StronglySorted klt ks -> StronglySorted klt (Pd.insert_key cmp k ks).
Proof.
  induction 1 as [|h t Hs IH Hf]; simpl.
  - repeat constructor.
  - destruct (cmp k h) eqn:E.
    + constructor; assumption.
    + constructor; [constructor; assumption|].
      constructor; [exact E|].
      eapply Forall_impl; [|exact Hf].
      intros z Hz. exact (cmp_lt_trans _ _ _ E Hz).
    + constructor; [exact IH|].
      rewrite Forall_forall in *. intros z Hz.
      apply insert_key_in in Hz. destruct Hz as [->|Hz]; [|auto].
      apply cmp_gt_lt. exact E.
Qed.

Lemma group_keys_in df k :
  In k (Pd.group_keys cmp by_ df) <-> exists r, In r df /\ by_ r = k.
Proof.
  induction df as [|r df IH]; simpl.
  - split; [intros [] | intros (r & [] & _)].
  - rewrite insert_key_in, IH. split.
    + intros [->|(r' & Hin & E)]; eauto.
    + intros (r' & [<-|Hin] & E); [left; auto | right; eauto].
Qed.

Lemma group_keys_sorted df : StronglySorted klt (Pd.group_keys cmp by_ df).
Proof.
  induction df as [|r df IH]; simpl; [constructor|].
  apply insert_key_sorted. exact IH.
Qed.

Lemma same_key_true k r : Pd.same_key cmp by_ k r = true <-> by_ r = k.
Proof.
  unfold Pd.same_key. rewrite <- cmp_eq.
  destruct (cmp (by_ r) k); split; congruence.
Qed.

Lemma groupby_keys df :
  map fst (Pd.groupby cmp by_ df) = Pd.group_keys cmp by_ df.
Proof.
  unfold Pd.groupby. rewrite map_map. simpl. apply map_id.
Qed.

(** A group holds the rows of its key, in table order, and is not empty. *)
Lemma groupby_in df k g :
  In (k, g) (Pd.groupby cmp by_ df) ->
  g = filter (Pd.same_key cmp by_ k) df /\ g <> [] /\
  (forall r, In r g <-> In r df /\ by_ r = k).
Proof.
  unfold Pd.groupby. intros H. apply in_map_iff in H.
  destruct H as (k' & E & Hk). inversion E; subst k' g. clear E.
  split; [reflexivity|].
  assert (Hmem : forall r, In r (filter (Pd.same_key cmp by_ k) df)
                           <-> In r df /\ by_ r = k).
  { intros r. rewrite filter_In, same_key_true. reflexivity. }
  split; [|exact Hmem].
  apply group_keys_in in Hk. destruct Hk as (r & Hin & Hr).
  intros Hnil. assert (Hr' : In r (filter (Pd.same_key cmp by_ k) df))
    by (apply Hmem; auto).
  rewrite Hnil in Hr'. exact Hr'.
Qed.

End GroupByFacts.

Lemma str_compare_eq (x y : string) : str_compare x y = Eq <-> x = y.
Proof.
  unfold str_compare.
  destruct (String_as_OT.compare_spec x y) as [E|L|G].
  - tauto.
  - split; [discriminate|]. intros ->.
    exfalso. exact (StrictOrder_Irreflexive _ L).
  - split; [discriminate|]. intros ->.
    exfalso. exact (StrictOrder_Irreflexive _ G).
Qed.

Lemma str_compare_lt_trans (x y z : string) :
  str_compare x y = Lt -> str_compare y z = Lt -> str_compare x z = Lt.
Proof.
  unfold str_compare. intros H1 H2.
  exact (StrictOrder_Transitive x y z H1 H2).
Qed.

Lemma str_compare_gt_lt (x y : string) :
  str_compare x y = Gt -> str_compare y x = Lt.
Proof.
  unfold str_compare.
  destruct (String_as_OT.compare_spec x y) as [E|L|G]; try discriminate.
  intros _. exact G.
Qed.

Lemma Z_compare_lt_trans (x y z : Z) :
  (x ?= y)%Z = Lt -> (y ?= z)%Z = Lt -> (x ?= z)%Z = Lt.
Proof. rewrite !Z.compare_lt_iff. lia. Qed.

Lemma Z_compare_gt_lt (x y : Z) : (x ?= y)%Z = Gt -> (y ?= x)%Z = Lt.
Proof. rewrite Z.compare_gt_iff, Z.compare_lt_iff. lia. Qed.

Lemma strictly_sorted_NoDup {A} (R : A -> A -> Prop) (l : list A) :
  (forall x, ~ R x x) -> StronglySorted R l -> NoDup l.
Proof.
  intros Hirr. induction 1 as [|x l Hs IH Hf]; constructor; [|exact IH].
  intros Hin. rewrite Forall_forall in Hf. exact (Hirr x (Hf x Hin)).
Qed.

(** ** The warehouse ranking *)

Lemma warehouse_rollup_names (orders_df : list Orders.row) :
  map Analysis.WarehousePerformance.Warehouse (Analysis.warehouse_rollup orders_df)
  = Pd.group_keys str_compare Orders.Warehouse orders_df.
Proof.
  unfold Analysis.warehouse_rollup. rewrite map_map.
  rewrite <- (groupby_keys str_compare Orders.Warehouse).
  apply map_ext. intros [k g]. reflexivity.
Qed.

(** C4: the warehouse ranking is the rollup rearranged so that the rounded
    on-time rates descend.  The rollup has one row per warehouse of the
    Order table, in ascending name order, each row computed from the orders
    of its warehouse, with a rate between 0 and 100.  The order of rows
    with equal rates is not fixed. *)
Theorem warehouse_performance_ranked_by_rate
  (orders_df : list Orders.row) (out : list Analysis.WarehousePerformance.row) :
  Analysis.warehouse_performance orders_df out ->
  StronglySorted
    (fun a b => Analysis.WarehousePerformance.On_Time_Rate_pct b
                <= Analysis.WarehousePerformance.On_Time_Rate_pct a) out /\
  Permutation (Analysis.warehouse_rollup orders_df) out /\
  StronglySorted (fun x y => str_compare x y = Lt)
    (map Analysis.WarehousePerformance.Warehouse
         (Analysis.warehouse_rollup orders_df)) /\
  NoDup (map Analysis.WarehousePerformance.Warehouse out) /\
  (forall w, In w (map Analysis.WarehousePerformance.Warehouse out)
             <-> In w (map Orders.Warehouse orders_df)) /\
  (forall r, In r out ->
     exists g,
       g = filter (Pd.same_key str_compare Orders.Warehouse
                     (Analysis.WarehousePerformance.Warehouse r)) orders_df /\
       g <> [] /\
       Analysis.WarehousePerformance.Total_Orders r = Py.len g /\
       Analysis.WarehousePerformance.On_Time_Rate_pct r
         = Np.round2 (Spec.on_time_rate (Py.len (filter Analysis.is_yes g))
                                        (Py.len g)) /\
       0 <= Analysis.WarehousePerformance.On_Time_Rate_pct r <= 100 /\
       Analysis.WarehousePerformance.Total_Revenue r
         = Np.round2 (Np.sum (map Orders.Total_Value g)) /\
       Analysis.WarehousePerformance.Avg_Delivery_Days r
         = Np.round2
             (Pd.group_mean
                (map (fun o => inject_Z (Analysis.Delivery_Time_Days o)) g))).
Proof.
  intros [Hperm Hsorted].
  assert (Hkeys : StronglySorted (fun x y => str_compare x y = Lt)
            (map Analysis.WarehousePerformance.Warehouse
                 (Analysis.warehouse_rollup orders_df))).
  { rewrite warehouse_rollup_names.
    apply group_keys_sorted;
      [apply str_compare_eq | apply str_compare_lt_trans | apply str_compare_gt_lt]. }
  assert (Hnames : Permutation
            (map Analysis.WarehousePerformance.Warehouse
                 (Analysis.warehouse_rollup orders_df))
            (map Analysis.WarehousePerformance.Warehouse out))
    by (apply Permutation_map; exact Hperm).
  split; [exact Hsorted|]. split; [exact Hperm|]. split; [exact Hkeys|].
  split; [|split].
  - eapply Permutation_NoDup; [exact Hnames|].
    eapply strictly_sorted_NoDup; [|exact Hkeys].
    intros x Hx. pose proof (proj2 (str_compare_eq x x) eq_refl). congruence.
  - intros w. split; intros Hw.
    + apply (Permutation_in _ (Permutation_sym Hnames)) in Hw.
      rewrite warehouse_rollup_names in Hw.
      apply (group_keys_in str_compare Orders.Warehouse str_compare_eq) in Hw.
      destruct Hw as (o & Ho & <-). apply in_map. exact Ho.
    + apply (Permutation_in _ Hnames).
      rewrite warehouse_rollup_names.
      apply (group_keys_in str_compare Orders.Warehouse str_compare_eq).
      apply in_map_iff in Hw. destruct Hw as (o & E & Ho). eauto.
  - intros r Hr.
    apply (Permutation_in _ (Permutation_sym Hperm)) in Hr.
    unfold Analysis.warehouse_rollup in Hr. apply in_map_iff in Hr.
    destruct Hr as ([k g] & <- & Hg). simpl.
    destruct (groupby_in str_compare Orders.Warehouse str_compare_eq _ _ _ Hg)
      as (Eg & Hne & _).
    exists g. split; [exact Eg|]. split; [exact Hne|]. split; [reflexivity|].
    split; [apply round2_comp, rate_as_spec|].
    split; [|split; reflexivity].
    apply round2_percent. apply percentage_bounds;
      [apply yes_count_bounds | apply len_pos; exact Hne].
Qed.

Lemma warehouse_performance_ranked_by_rate_witness :
  exists out,
    Analysis.warehouse_performance Examples.sample_orders out /\
    Examples.warehouse_names out = ["East"; "West"; "North"]%string /\
    StronglySorted
      (fun a b => Analysis.WarehousePerformance.On_Time_Rate_pct b
                  <= Analysis.WarehousePerformance.On_Time_Rate_pct a) out /\
    NoDup (Examples.warehouse_names out).
Proof.
  set (out := Pd.sort_stable Analysis.WarehousePerformance.On_Time_Rate_pct
                false (Analysis.warehouse_rollup Examples.sample_orders)).
  assert (H : Analysis.warehouse_performance Examples.sample_orders out)
    by apply sort_stable_is_sort_values.
  exists out. split; [exact H|]. split; [vm_compute; reflexivity|].
  destruct (warehouse_performance_ranked_by_rate Examples.sample_orders out H)
    as (Hs & _ & _ & Hn & _).
  split; [exact Hs | exact Hn].
Defined.

(** C4, as stated, fails.  West and East both have the rate 100 and West
    comes first in the Order table.  The rollup lists them by name, East
    then West, and that table is a ranking the sort may return: the order
    of the Order table is lost.  The reversed table, West then East, is a
    ranking the sort may return as well: the order of the rollup need not
    be kept either. *)
Lemma warehouse_ties_not_in_input_order :
  Examples.two_warehouses <> [] /\
  Examples.warehouse_names (Analysis.warehouse_rollup Examples.two_warehouses)
    = ["East"; "West"]%string /\
  (Analysis.warehouse_performance Examples.two_warehouses
     (Analysis.warehouse_rollup Examples.two_warehouses) /\
   ~ Spec.ties_in_order_of
       (map Orders.Warehouse Examples.two_warehouses)
       (Analysis.warehouse_rollup Examples.two_warehouses)) /\
  (Analysis.warehouse_performance Examples.two_warehouses
     (rev (Analysis.warehouse_rollup Examples.two_warehouses)) /\
   ~ Spec.ties_in_order_of
       (Examples.warehouse_names
          (Analysis.warehouse_rollup Examples.two_warehouses))
       (rev (Analysis.warehouse_rollup Examples.two_warehouses))).
Proof.
  assert (Hroll : exists a b,
             Analysis.warehouse_rollup Examples.two_warehouses = [a; b] /\
             Analysis.WarehousePerformance.Warehouse a = "East"%string /\
             Analysis.WarehousePerformance.Warehouse b = "West"%string /\
             Analysis.WarehousePerformance.On_Time_Rate_pct a = 10000 # 100 /\
             Analysis.WarehousePerformance.On_Time_Rate_pct b = 10000 # 100).
  { vm_compute. eexists. eexists. repeat split. }
  destruct Hroll as (a & b & Hr & Ha & Hb & Hra & Hrb).
  split; [discriminate|]. split; [vm_compute; reflexivity|].
  rewrite Hr. simpl rev.
  assert (Hle : forall x y,
             Analysis.WarehousePerformance.On_Time_Rate_pct x = 10000 # 100 ->
             Analysis.WarehousePerformance.On_Time_Rate_pct y = 10000 # 100 ->
             Pd.before Analysis.WarehousePerformance.On_Time_Rate_pct false x y).
  { intros x y Hx Hy. unfold Pd.before. rewrite Hx, Hy. apply Qle_refl. }
  split; split.
  - unfold Analysis.warehouse_performance. rewrite Hr.
    split; [reflexivity|]. repeat constructor. auto.
  - intros H.
    specialize (H 0%nat 1%nat a b Nat.lt_0_1 eq_refl eq_refl).
    rewrite Ha, Hb, Hra, Hrb in H. specialize (H (Qeq_refl _)).
    vm_compute in H. lia.
  - unfold Analysis.warehouse_performance. rewrite Hr.
    split; [apply perm_swap|]. repeat constructor. auto.
  - intros H.
    specialize (H 0%nat 1%nat b a Nat.lt_0_1 eq_refl eq_refl).
    unfold Examples.warehouse_names in H. simpl map in H.
    rewrite Ha, Hb, Hra, Hrb in H. specialize (H (Qeq_refl _)).
    vm_compute in H. lia.
Qed.

(** ** Inventory turnover *)

Lemma Qsgn_zero (q : Q) : q == 0 -> Np.Qsgn q = Eq.
Proof. unfold Np.Qsgn. intros E. apply (proj1 (Qeq_alt _ _)). exact E. Qed.

Lemma Qsgn_nonzero (q : Q) : ~ q == 0 -> Np.Qsgn q <> Eq.
Proof. unfold Np.Qsgn. intros N E. apply N. apply (proj2 (Qeq_alt _ _)). exact E. Qed.

Lemma Qsgn_times_12 (q : Q) : Np.Qsgn (q * 12) = Np.Qsgn q.
Proof.
  unfold Np.Qsgn.
  destruct (Qcompare_spec q 0) as [E|L|G].
  - apply (proj1 (Qeq_alt _ _)). rewrite E. reflexivity.
  - apply (proj1 (Qlt_alt _ _)). lra.
  - apply (proj1 (Qgt_alt _ _)). lra.
Qed.

Lemma round2_zero (x : Q) : x == 0 -> Np.round2 x == 0.
Proof.
  intros E. rewrite (round2_comp x 0 E). vm_compute. reflexivity.
Qed.

Lemma neg_infinite (x : Np.float64) :
  Np.is_finite (Np.neg x) = Np.is_finite x.
Proof. destruct x; reflexivity. Qed.

Lemma negative_zero_iff (dt : Np.dtype) (total : Q) :
  Analysis.rounds_to_negative_zero dt total = true <->
  dt = Np.float64_column /\ total < 0 /\ Np.round2 total == 0.
Proof.
  unfold Analysis.rounds_to_negative_zero. destruct dt.
  - split; [discriminate | intros (E & _); discriminate E].
  - rewrite andb_true_iff, negb_true_iff, Qeq_bool_iff. split.
    + intros [Hn Hz]. repeat split; [|exact Hz].
      apply Qnot_le_lt. intros Hle. apply Qle_bool_iff in Hle. congruence.
    + intros (_ & Hn & Hz). split; [|exact Hz].
      destruct (Qle_bool 0 total) eqn:B; [|reflexivity].
      apply Qle_bool_iff in B. exfalso. exact (Qlt_not_le _ _ Hn B).
Qed.

(** C6: a category's stored stock and demand are its column sums rounded to
    two decimals (the sum of an all-integer column is a 64-bit integer);
    the turnover ratio is (demand x 12) / stock on the stored values,
    rounded to two decimals.  When the stored stock is zero the ratio is
    NaN for a zero numerator and otherwise inf or -inf, by the sign of the
    numerator, reversed when the stock is the -0.0 that a negative float
    total rounds to: no exception and no finite value.  Otherwise it is
    finite, within 0.005 of the quotient. *)
Theorem turnover_ratio_of_category
  (stock_dtype demand_dtype : Np.dtype)
  (inventory_df : list Inventory.row) (r : Analysis.InventorySummary.row) :
  In r (Analysis.inventory_summary stock_dtype demand_dtype inventory_df) ->
  let stock := Analysis.InventorySummary.Current_Stock r in
  let demand := Analysis.InventorySummary.Avg_Monthly_Demand r in
  let ratio := Analysis.InventorySummary.Turnover_Ratio r in
  exists g numerator negative_zero,
    g = filter (Pd.same_key str_compare Inventory.Category
                  (Analysis.InventorySummary.Category r)) inventory_df /\
    g <> [] /\
    stock = Np.round2 (Np.column_sum stock_dtype
                         (map Inventory.Current_Stock g)) /\
    demand = Np.round2 (Np.column_sum demand_dtype
                          (map Inventory.Avg_Monthly_Demand g)) /\
    numerator = Np.column_times demand_dtype demand 12 /\
    (demand_dtype = Np.float64_column -> numerator = demand * 12) /\
    (negative_zero = true <->
     stock_dtype = Np.float64_column /\
     Np.sum (map Inventory.Current_Stock g) < 0 /\ stock == 0) /\
    (stock == 0 ->
     Np.is_finite ratio = false /\
     ratio = match Np.Qsgn numerator with
             | Eq => Np.NaN
             | Gt => if negative_zero then Np.NInf else Np.PInf
             | Lt => if negative_zero then Np.PInf else Np.NInf
             end) /\
    (~ stock == 0 ->
     ratio = Np.Fin (Np.round2 (numerator / stock)) /\
     numerator / stock - (1 # 200) <= Np.round2 (numerator / stock)
       <= numerator / stock + (1 # 200)).
Proof.
  intros Hr. cbv zeta.
  unfold Analysis.inventory_summary in Hr. apply in_map_iff in Hr.
  destruct Hr as ([k g] & <- & Hg). simpl.
  destruct (groupby_in str_compare Inventory.Category str_compare_eq _ _ _ Hg)
    as (Eg & Hne & _).
  set (total := Np.column_sum stock_dtype (map Inventory.Current_Stock g)).
  set (stock := Np.round2 total).
  set (demand := Np.round2 (Np.column_sum demand_dtype
                              (map Inventory.Avg_Monthly_Demand g))).
  set (numerator := Np.column_times demand_dtype demand 12).
  set (nz := Analysis.rounds_to_negative_zero stock_dtype total).
  exists g, numerator, nz.
  assert (Hnz : nz = true <->
            stock_dtype = Np.float64_column /\
            Np.sum (map Inventory.Current_Stock g) < 0 /\ stock == 0).
  { unfold nz. rewrite negative_zero_iff. unfold stock, total.
    split; intros (E & H1 & H2); subst stock_dtype; simpl in *; auto. }
  split; [exact Eg|]. split; [exact Hne|].
  split; [reflexivity|]. split; [reflexivity|]. split; [reflexivity|].
  split; [intros E; unfold numerator; rewrite E; reflexivity|].
  split; [exact Hnz|]. split.
  - intros Hz. unfold Analysis.turnover_ratio, Np.div.
    rewrite (Qsgn_zero _ Hz).
    destruct (Np.Qsgn numerator), nz; split; reflexivity.
  - intros Hs.
    assert (Hfalse : nz = false).
    { destruct nz; [|reflexivity]. exfalso. apply Hs.
      exact (proj2 (proj2 (proj1 Hnz eq_refl))). }
    rewrite Hfalse. unfold Analysis.turnover_ratio, Np.div.
    pose proof (Qsgn_nonzero _ Hs) as Hq.
    split; [|apply round2_error].
    destruct (Np.Qsgn stock); [congruence | reflexivity | reflexivity].
Qed.

Lemma turnover_ratio_of_category_witness :
  exists r r',
    In r (Analysis.inventory_summary Np.float64_column Np.float64_column
            Examples.inventory) /\
    Analysis.InventorySummary.Category r = "A"%string /\
    Analysis.InventorySummary.Turnover_Ratio r = Np.PInf /\
    Np.is_finite (Analysis.InventorySummary.Turnover_Ratio r) = false /\
    In r' (Analysis.inventory_summary Np.float64_column Np.float64_column
             Examples.returned_stock) /\
    Analysis.InventorySummary.Turnover_Ratio r' = Np.NInf /\
    Np.is_finite (Analysis.InventorySummary.Turnover_Ratio r') = false.
Proof.
  assert (H : exists r,
             In r (Analysis.inventory_summary Np.float64_column
                     Np.float64_column Examples.inventory) /\
             Analysis.InventorySummary.Category r = "A"%string /\
             Analysis.InventorySummary.Turnover_Ratio r = Np.PInf /\
             Analysis.InventorySummary.Current_Stock r == 0).
  { eexists. split; [left; reflexivity|]. vm_compute. repeat split. }
  assert (H' : exists r,
             In r (Analysis.inventory_summary Np.float64_column
                     Np.float64_column Examples.returned_stock) /\
             Analysis.InventorySummary.Turnover_Ratio r = Np.NInf /\
             Analysis.InventorySummary.Current_Stock r == 0).
  { eexists. split; [left; reflexivity|]. vm_compute. repeat split. }
  destruct H as (r & Hin & Hc & Ht & Hz).
  destruct H' as (r' & Hin' & Ht' & Hz').
  exists r, r'.
  split; [exact Hin|]. split; [exact Hc|]. split; [exact Ht|].
  pose proof (turnover_ratio_of_category _ _ Examples.inventory r Hin) as H.
  pose proof (turnover_ratio_of_category _ _ Examples.returned_stock r' Hin')
    as H'.
  cbv zeta in H, H'.
  destruct H as (g & n & nz & _ & _ & _ & _ & _ & _ & _ & H & _).
  destruct H' as (g' & n' & nz' & _ & _ & _ & _ & _ & _ & _ & H' & _).
  split; [exact (proj1 (H Hz))|].
  split; [exact Hin'|]. split; [exact Ht'|].
  exact (proj1 (H' Hz')).
Defined.

(** A stock total of -0.001 is stored as -0.0: the ratio of a positive
    demand is -inf.  Two integer stocks of 2^62 add up to -2^63. *)
Lemma turnover_ratio_edge_cases :
  map Analysis.InventorySummary.Turnover_Ratio
      (Analysis.inventory_summary Np.float64_column Np.float64_column
         Examples.returned_stock) = [Np.NInf] /\
  map (fun r => Qred (Analysis.InventorySummary.Current_Stock r))
      (Analysis.inventory_summary Np.int64_column Np.int64_column
         Examples.huge_stock) = [inject_Z (- 2 ^ 63)].
Proof. split; vm_compute; reflexivity. Qed.

(** C6, as stated, fails on the equality: category B, with demand 1 and
    stock 7, gets the ratio 1.71, not 12/7. *)
Lemma turnover_ratio_is_rounded :
  exists r,
    In r (Analysis.inventory_summary Np.int64_column Np.int64_column
            Examples.inventory) /\
    Analysis.InventorySummary.Category r = "B"%string /\
    Np.feq (Analysis.InventorySummary.Turnover_Ratio r) (Np.Fin (171 # 100)) /\
    Np.feq (Spec.turnover_ratio 1 7) (Np.Fin (12 # 7)) /\
    ~ Np.feq (Analysis.InventorySummary.Turnover_Ratio r)
             (Spec.turnover_ratio 1 7).
Proof.
  eexists. split; [right; left; reflexivity|].
  split; [vm_compute; reflexivity|].
  split; [vm_compute; reflexivity|].
  split; [vm_compute; reflexivity|].
  intros H. vm_compute in H. discriminate H.
Qed.

(** ** Costs *)

Lemma in_merge {L R} (lkey : L -> string) (rkey : R -> string)
      (left : list L) (right : list R) (l : L) (r : R) :
  In (l, r) (Pd.merge lkey rkey left right)
  <-> In l left /\ In r right /\ lkey l = rkey r.
Proof.
  unfold Pd.merge. rewrite in_flat_map. split.
  - intros (l' & Hl & Hin). apply in_map_iff in Hin.
    destruct Hin as (r' & E & Hr). inversion E; subst l' r'.
    apply filter_In in Hr. destruct Hr as [Hr Hk].
    apply String.eqb_eq in Hk. auto.
  - intros (Hl & Hr & Hk). exists l. split; [exact Hl|].
    apply in_map. apply filter_In. split; [exact Hr|].
    apply String.eqb_eq. exact Hk.
Qed.

(** A right row without a partner leaves the join as it would be
    without that row. *)
Lemma merge_drops_unmatched {L R} (lkey : L -> string) (rkey : R -> string)
      (left : list L) (before after : list R) (r : R) :
  (forall l, In l left -> lkey l <> rkey r) ->
  Pd.merge lkey rkey left (before ++ r :: after)
  = Pd.merge lkey rkey left (before ++ after).
Proof.
  unfold Pd.merge. induction left as [|l left IH]; intros Hno; simpl.
  - reflexivity.
  - rewrite IH by (intros l' Hl'; apply Hno; right; exact Hl').
    f_equal. f_equal. rewrite !filter_app. simpl.
    destruct (String.eqb_spec (lkey l) (rkey r)) as [E|_]; [|reflexivity].
    exfalso. exact (Hno l (or_introl eq_refl) E).
Qed.

Lemma sorted_nth_le (v : list Q) (i j : nat) :
  StronglySorted Qle v -> (i <= j)%nat -> (j < length v)%nat ->
  nth i v 0 <= nth j v 0.
Proof.
  intros Hs. revert i j.
  induction Hs as [|x v Hs IH Hf]; intros i j Hij Hj; simpl in Hj; [lia|].
  destruct i as [|i], j as [|j]; simpl; try lia.
  - apply Qle_refl.
  - rewrite Forall_forall in Hf. apply Hf. apply nth_In. lia.
  - apply IH; lia.
Qed.

Lemma floor_fraction (h : Q) :
  0 <= h - inject_Z (Qfloor h) <= 1.
Proof.
  pose proof (Qfloor_le h) as Hlo. pose proof (Qlt_floor h) as Hhi.
  rewrite inject_Z_plus in Hhi. change (inject_Z 1) with 1 in Hhi.
  split; lra.
Qed.

Lemma interpolation_between (lo hi g : Q) :
  lo <= hi -> 0 <= g <= 1 -> lo <= lo + (hi - lo) * g <= hi.
Proof.
  intros Hlh [Hg0 Hg1].
  assert (H0 : 0 <= (hi - lo) * g) by (apply Qmult_le_0_compat; lra).
  assert (H1 : 0 <= (hi - lo) * (1 - g)) by (apply Qmult_le_0_compat; lra).
  split; [lra|].
  setoid_replace hi with (lo + (hi - lo) * g + (hi - lo) * (1 - g)) at 2 by ring.
  lra.
Qed.

(** The 0.9-quantile of a non-empty column is the linear interpolation
    between two neighbouring order statistics, and lies between them. *)
Lemma quantile_090_linear (col : list Q) :
  col <> [] ->
  exists v,
    Permutation col v /\ StronglySorted Qle v /\
    let h := inject_Z (Z.of_nat (length v - 1)) * (9 # 10) in
    let j := Z.to_nat (Qfloor h) in
    let lo := nth j v 0 in
    let hi := nth (Nat.min (j + 1) (length v - 1)) v 0 in
    let t := lo + (hi - lo) * (h - inject_Z (Qfloor h)) in
    Pd.quantile (9 # 10) col = Np.Fin t /\ lo <= t <= hi.
Proof.
  intros Hne.
  exists (Pd.sort_stable (fun x => x) true col).
  pose proof (sort_stable_perm (fun x => x) true col) as Hp.
  pose proof (sort_stable_sorted (fun x => x) true col) as Hs.
  split; [exact Hp|]. split; [exact Hs|]. cbv zeta.
  split; [destruct col; [congruence | reflexivity]|].
  set (v := Pd.sort_stable (fun x => x) true col) in *.
  assert (Hlen : (0 < length v)%nat).
  { rewrite <- (Permutation_length Hp). destruct col; [congruence | simpl; lia]. }
  set (h := inject_Z (Z.of_nat (length v - 1)) * (9 # 10)).
  assert (Hh0 : 0 <= h).
  { unfold h. apply Qmult_le_0_compat; [|discriminate].
    change 0 with (inject_Z 0). rewrite <- Zle_Qle. lia. }
  assert (Hh1 : h <= inject_Z (Z.of_nat (length v - 1))).
  { unfold h.
    assert (0 <= inject_Z (Z.of_nat (length v - 1)))
      by (change 0 with (inject_Z 0); rewrite <- Zle_Qle; lia).
    lra. }
  assert (Hf0 : (0 <= Qfloor h)%Z).
  { change 0%Z with (Qfloor 0). apply Qfloor_resp_le. exact Hh0. }
  assert (Hf1 : (Qfloor h <= Z.of_nat (length v - 1))%Z).
  { rewrite <- (Qfloor_Z (Z.of_nat (length v - 1))).
    apply Qfloor_resp_le. exact Hh1. }
  apply interpolation_between; [|apply floor_fraction].
  apply sorted_nth_le; [exact Hs | lia | lia].
Qed.

Lemma gt_finite (c : Q) (t : Np.float64) :
  Np.gt (Np.Fin c) t = true <->
  (exists q, t = Np.Fin q /\ q < c) \/ t = Np.NInf.
Proof.
  destruct t as [q| | |]; simpl.
  - rewrite negb_true_iff. split.
    + intros H. left. exists q. split; [reflexivity|].
      apply Qnot_le_lt. intros Hle. apply Qle_bool_iff in Hle. congruence.
    + intros [(q' & E & Hlt)|E]; [|discriminate].
      inversion E; subst q'.
      destruct (Qle_bool c q) eqn:B; [|reflexivity].
      apply Qle_bool_iff in B. exfalso. exact (Qlt_not_le _ _ Hlt B).
  - split; [discriminate|]. intros [(q & E & _)|E]; discriminate.
  - split; [auto|reflexivity].
  - split; [discriminate|]. intros [(q & E & _)|E]; discriminate.
Qed.

Lemma high_cost_threshold_cases (shipping_df : list Shipping.row) :
  (shipping_df = [] /\ Analysis.high_cost_threshold shipping_df = Np.NaN) \/
  (shipping_df <> [] /\
   exists t, Analysis.high_cost_threshold shipping_df = Np.Fin t).
Proof.
  unfold Analysis.high_cost_threshold.
  destruct shipping_df as [|s l]; [left; split; reflexivity|].
  right. split; [discriminate|]. simpl map. unfold Pd.quantile.
  eexists. reflexivity.
Qed.

(** C7: the high-cost table is the inner join on Order_ID filtered, rows and
    repetitions kept, by "cost strictly above the threshold": a pair
    (order, shipment) is in it exactly when the order and the shipment are
    rows of their tables with one Order_ID and the shipment's cost is
    strictly above the threshold; the threshold is the 0.9-quantile of all shipment costs,
    interpolated linearly between the order statistics j and j+1 for
    j = floor (0.9 (n - 1)); and the projected savings are 0.15 times the
    sum of the costs of the high-cost rows. *)
Theorem high_cost_shipments_above_threshold
  (orders_df : list Orders.row) (shipping_df : list Shipping.row) :
  let costs := map Shipping.Shipping_Cost shipping_df in
  let high := Analysis.high_cost_shipments orders_df shipping_df in
  high = filter (fun r => Np.gt (Np.Fin (Shipping.Shipping_Cost (snd r)))
                                (Analysis.high_cost_threshold shipping_df))
                (Pd.merge Orders.Order_ID Shipping.Order_ID
                          orders_df shipping_df) /\
  (forall o s,
     In (o, s) high <->
     In (o, s) (Analysis.orders_with_shipping orders_df shipping_df) /\
     exists t, Analysis.high_cost_threshold shipping_df = Np.Fin t /\
               t < Shipping.Shipping_Cost s) /\
  (forall o s,
     In (o, s) (Analysis.orders_with_shipping orders_df shipping_df) <->
     In o orders_df /\ In s shipping_df /\
     Orders.Order_ID o = Shipping.Order_ID s) /\
  (shipping_df <> [] ->
   exists v,
     Permutation costs v /\ StronglySorted Qle v /\
     let h := inject_Z (Z.of_nat (length v - 1)) * (9 # 10) in
     let j := Z.to_nat (Qfloor h) in
     let lo := nth j v 0 in
     let hi := nth (Nat.min (j + 1) (length v - 1)) v 0 in
     let t := lo + (hi - lo) * (h - inject_Z (Qfloor h)) in
     Analysis.high_cost_threshold shipping_df = Np.Fin t /\ lo <= t <= hi) /\
  Analysis.potential_savings orders_df shipping_df
  == (15 # 100) * Np.sum (map (fun r => Shipping.Shipping_Cost (snd r)) high).
Proof.
  cbv zeta. split; [reflexivity|]. split; [|split; [|split]].
  - intros o s. unfold Analysis.high_cost_shipments.
    rewrite filter_In. unfold Analysis.joined_cost. simpl snd.
    rewrite gt_finite. split.
    + intros [Hin [H|H]]; [split; assumption|].
      destruct (high_cost_threshold_cases shipping_df)
        as [[_ E]|[_ [t E]]]; congruence.
    + intros [Hin H]. split; [exact Hin | left; exact H].
  - intros o s. apply in_merge.
  - intros Hne. unfold Analysis.high_cost_threshold.
    apply quantile_090_linear.
    destruct shipping_df; [congruence | discriminate].
  - unfold Analysis.potential_savings, Analysis.joined_cost. ring.
Qed.

(** The specification's example: for the costs 10, 20, ..., 100 the
    threshold is 91, one shipment lies above it, and 15 is saved. *)
Lemma high_cost_shipments_example :
  Np.feq (Analysis.high_cost_threshold Examples.shipments) (Np.Fin 91) /\
  map (fun r => Shipping.Shipping_ID (snd r))
      (Analysis.high_cost_shipments Examples.sample_orders Examples.shipments)
    = ["S3"%string] /\
  Analysis.potential_savings Examples.sample_orders Examples.shipments == 15.
Proof.
  split; [vm_compute; reflexivity|].
  split; vm_compute; reflexivity.
Qed.

(** C9: the totals are sums over the whole Order table and the whole
    Shipment table.  A shipment whose order is missing appears in no row of
    the joined table, and the joined table is the one obtained without it,
    yet its cost is part of the total shipping cost and of the percentage. *)
Theorem totals_include_unmatched_shipments
  (orders_df : list Orders.row) (before after : list Shipping.row)
  (s : Shipping.row) :
  (forall o, In o orders_df -> Orders.Order_ID o <> Shipping.Order_ID s) ->
  let shipping_df := before ++ s :: after in
  (forall o, ~ In (o, s) (Analysis.orders_with_shipping orders_df shipping_df)) /\
  Analysis.orders_with_shipping orders_df shipping_df
  = Analysis.orders_with_shipping orders_df (before ++ after) /\
  Analysis.total_shipping_cost shipping_df
  == Analysis.total_shipping_cost (before ++ after) + Shipping.Shipping_Cost s /\
  Analysis.total_shipping_cost shipping_df
  == Np.sum (map Shipping.Shipping_Cost shipping_df) /\
  Analysis.total_order_value orders_df
  == Np.sum (map Orders.Total_Value orders_df) /\
  Analysis.shipping_pct_of_order_value orders_df shipping_df
  = Np.mul (Np.div (Np.Fin (Np.sum (map Shipping.Shipping_Cost shipping_df)))
                   (Np.Fin (Np.sum (map Orders.Total_Value orders_df))))
           (Np.Fin 100).
Proof.
  intros Hno. cbv zeta. split; [|split; [|split; [|split; [|split]]]].
  - intros o Hin. apply in_merge in Hin. destruct Hin as (Ho & _ & E).
    exact (Hno o Ho E).
  - apply merge_drops_unmatched. exact Hno.
  - unfold Analysis.total_shipping_cost.
    rewrite !map_app. simpl map. rewrite !sum_app, sum_cons. ring.
  - reflexivity.
  - reflexivity.
  - reflexivity.
Qed.

Lemma totals_include_unmatched_shipments_witness :
  let shipping_df := Examples.shipments ++ [Examples.orphan_shipment] in
  Analysis.orders_with_shipping Examples.sample_orders shipping_df
  = Analysis.orders_with_shipping Examples.sample_orders Examples.shipments /\
  Analysis.total_shipping_cost Examples.shipments == 550 /\
  Analysis.total_shipping_cost shipping_df == 1050.
Proof.
  cbv zeta.
  assert (Hno : forall o, In o Examples.sample_orders ->
                  Orders.Order_ID o
                  <> Shipping.Order_ID Examples.orphan_shipment).
  { intros o [<-|[<-|[<-|[<-|[]]]]]; discriminate. }
  pose proof (totals_include_unmatched_shipments
                Examples.sample_orders Examples.shipments []
                Examples.orphan_shipment Hno) as H.
  cbv zeta in H. destruct H as (_ & Hj & Ht & _).
  rewrite app_nil_r in Hj, Ht.
  split; [exact Hj|]. split; [vm_compute; reflexivity|].
  rewrite Ht. vm_compute. reflexivity.
Defined.

(** ** Monthly trends *)

Lemma pct_change_from_length (p : Np.float64) (col : list Np.float64) :
  length (Pd.pct_change_from p col) = length col.
Proof.
  revert p. induction col as [|x col IH]; intros p; simpl; [reflexivity|].
  rewrite IH. reflexivity.
Qed.

Lemma pct_change_first (x : Np.float64) (col : list Np.float64) :
  nth_error (Pd.pct_change (x :: col)) 0 = Some Np.NaN.
Proof.
  unfold Pd.pct_change. simpl. destruct x; reflexivity.
Qed.

Lemma pct_change_from_next (p : Np.float64) (col : list Np.float64)
      (i : nat) (prev cur : Np.float64) :
  nth_error col i = Some prev -> nth_error col (S i) = Some cur ->
  nth_error (Pd.pct_change_from p col) (S i)
  = Some (Np.sub (Np.div cur prev) (Np.Fin 1)).
Proof.
  revert p i. induction col as [|x col IH]; intros p i Hp Hc.
  - destruct i; discriminate.
  - destruct i as [|i]; simpl in Hp, Hc |- *.
    + inversion Hp; subst x. destruct col as [|y col]; [discriminate|].
      simpl in Hc. inversion Hc; subst y. reflexivity.
    + exact (IH x i Hp Hc).
Qed.

Lemma Qsgn_minus_zero (c p : Q) : p == 0 -> Np.Qsgn (c - p) = Np.Qsgn c.
Proof.
  intros E. unfold Np.Qsgn.
  assert (E' : c - p == c) by (rewrite E; ring).
  rewrite (Qcompare_comp _ _ E' 0 0 (Qeq_refl _)). reflexivity.
Qed.

(** [x / previous - 1], times 100, is "(x - previous) / previous x 100",
    whatever the previous value: on a zero divisor both are inf, -inf or
    NaN by the sign of [x]. *)
Lemma growth_as_spec (c p : Q) :
  Np.feq (Np.mul (Np.sub (Np.div (Np.Fin c) (Np.Fin p)) (Np.Fin 1)) (Np.Fin 100))
         (Spec.growth (Np.Fin c) (Np.Fin p)).
Proof.
  unfold Spec.growth. simpl Np.sub at 2. unfold Np.div.
  destruct (Qcompare_spec p 0) as [E|L|G].
  - rewrite (Qsgn_zero p E), (Qsgn_minus_zero c p E).
    destruct (Np.Qsgn c); simpl; exact I.
  - assert (Hs : Np.Qsgn p = Lt) by (apply (proj1 (Qlt_alt _ _)); exact L).
    rewrite Hs. simpl. field. lra.
  - assert (Hs : Np.Qsgn p = Gt) by (apply (proj1 (Qgt_alt _ _)); exact G).
    rewrite Hs. simpl. field. lra.
Qed.

Lemma growth_finite (c p : Q) :
  0 < p ->
  Np.is_finite
    (Np.mul (Np.sub (Np.div (Np.Fin c) (Np.Fin p)) (Np.Fin 1)) (Np.Fin 100))
  = true.
Proof.
  intros Hp. unfold Np.div.
  assert (Hs : Np.Qsgn p = Gt) by (apply (proj1 (Qgt_alt _ _)); exact Hp).
  rewrite Hs. reflexivity.
Qed.

Lemma sorted_consecutive (l : list Z) (i : nat) (a b : Z) :
  StronglySorted Z.lt l ->
  nth_error l i = Some a -> nth_error l (S i) = Some b ->
  (a < b)%Z /\ forall k, In k l -> ~ (a < k < b)%Z.
Proof.
  intros Hs. revert i.
  induction Hs as [|x t Hs IH Hf]; intros i Ha Hb.
  - destruct i; discriminate.
  - rewrite Forall_forall in Hf. destruct i as [|i]; simpl in Ha, Hb.
    + inversion Ha; subst x. destruct t as [|y t']; [discriminate|].
      simpl in Hb. inversion Hb; subst y.
      inversion Hs as [|? ? _ Hft]; subst. rewrite Forall_forall in Hft.
      split; [apply Hf; left; reflexivity|].
      intros k [<-|[<-|Hk]]; [lia | lia |].
      specialize (Hft k Hk). lia.
    + destruct (IH i Ha Hb) as [Hlt Hbetween].
      split; [exact Hlt|].
      intros k [<-|Hk]; [|auto].
      pose proof (Hf a (nth_error_In _ _ Ha)). lia.
Qed.

Lemma monthly_agg_months (orders_df : list Orders.row) :
  map Analysis.MonthlyTrends.Year_Month (Analysis.monthly_agg orders_df)
  = Pd.group_keys Z.compare Analysis.Year_Month orders_df.
Proof.
  unfold Analysis.monthly_agg. rewrite map_map.
  rewrite <- (groupby_keys Z.compare Analysis.Year_Month).
  apply map_ext. intros [k g]. reflexivity.
Qed.

Lemma monthly_agg_orders_pos (orders_df : list Orders.row)
      (r : Analysis.MonthlyTrends.row) :
  In r (Analysis.monthly_agg orders_df) ->
  (0 < Analysis.MonthlyTrends.Orders r)%Z.
Proof.
  unfold Analysis.monthly_agg. intros H. apply in_map_iff in H.
  destruct H as ([k g] & <- & Hg). simpl.
  destruct (groupby_in Z.compare Analysis.Year_Month Z.compare_eq_iff _ _ _ Hg)
    as (_ & Hne & _).
  apply len_pos. exact Hne.
Qed.

Lemma monthly_agg_first (orders_df : list Orders.row) :
  orders_df <> [] -> exists r t, Analysis.monthly_agg orders_df = r :: t.
Proof.
  intros Hne. destruct (Analysis.monthly_agg orders_df) as [|r t] eqn:E; eauto.
  exfalso. destruct orders_df as [|o l]; [congruence|].
  assert (Hin : In (Analysis.Year_Month o)
                   (Pd.group_keys Z.compare Analysis.Year_Month (o :: l))).
  { apply (group_keys_in Z.compare Analysis.Year_Month Z.compare_eq_iff).
    exists o. split; [left|]; reflexivity. }
  rewrite <- monthly_agg_months, E in Hin. exact Hin.
Qed.

(** C8: the growth columns have one cell per month of the table.  The cell
    of the first month is NaN.  The cell of every later row is
    (current - previous) / previous x 100, where previous is the row just
    above: the latest earlier month that has an order.  Order growth is
    always finite there; revenue growth is inf, -inf or NaN when the
    previous revenue is zero. *)
Theorem monthly_growth_rates (orders_df : list Orders.row) :
  let table := Analysis.monthly_agg orders_df in
  let order_growth := Analysis.Order_Growth_pct orders_df in
  let revenue_growth := Analysis.Revenue_Growth_pct orders_df in
  length order_growth = length table /\
  length revenue_growth = length table /\
  (orders_df <> [] ->
   nth_error order_growth 0 = Some Np.NaN /\
   nth_error revenue_growth 0 = Some Np.NaN) /\
  (forall i prev cur,
     nth_error table i = Some prev -> nth_error table (S i) = Some cur ->
     (Analysis.MonthlyTrends.Year_Month prev
      < Analysis.MonthlyTrends.Year_Month cur)%Z /\
     (forall o, In o orders_df ->
        ~ (Analysis.MonthlyTrends.Year_Month prev < Analysis.Year_Month o
           < Analysis.MonthlyTrends.Year_Month cur)%Z) /\
     exists go gr,
       nth_error order_growth (S i) = Some go /\
       nth_error revenue_growth (S i) = Some gr /\
       Np.feq go (Spec.growth
                    (Np.Fin (inject_Z (Analysis.MonthlyTrends.Orders cur)))
                    (Np.Fin (inject_Z (Analysis.MonthlyTrends.Orders prev)))) /\
       Np.feq gr (Spec.growth (Np.Fin (Analysis.MonthlyTrends.Revenue cur))
                              (Np.Fin (Analysis.MonthlyTrends.Revenue prev))) /\
       Np.is_finite go = true).
Proof.
  cbv zeta.
  unfold Analysis.Order_Growth_pct, Analysis.Revenue_Growth_pct,
    Analysis.times_100, Pd.pct_change.
  split; [rewrite length_map, pct_change_from_length, length_map; reflexivity|].
  split; [rewrite length_map, pct_change_from_length, length_map; reflexivity|].
  split.
  - intros Hne. destruct (monthly_agg_first orders_df Hne) as (r & t & E).
    rewrite E. simpl. split; reflexivity.
  - intros i prev cur Hp Hc.
    pose proof (group_keys_sorted Z.compare Analysis.Year_Month
                  Z.compare_eq_iff Z_compare_lt_trans Z_compare_gt_lt orders_df)
      as Hsorted.
    rewrite <- monthly_agg_months in Hsorted.
    assert (Hpm : nth_error (map Analysis.MonthlyTrends.Year_Month
                               (Analysis.monthly_agg orders_df)) i
                  = Some (Analysis.MonthlyTrends.Year_Month prev))
      by (rewrite nth_error_map, Hp; reflexivity).
    assert (Hcm : nth_error (map Analysis.MonthlyTrends.Year_Month
                               (Analysis.monthly_agg orders_df)) (S i)
                  = Some (Analysis.MonthlyTrends.Year_Month cur))
      by (rewrite nth_error_map, Hc; reflexivity).
    destruct (sorted_consecutive _ _ _ _ Hsorted Hpm Hcm) as [Hlt Hbetween].
    split; [exact Hlt|]. split.
    + intros o Ho. apply Hbetween. rewrite monthly_agg_months.
      apply (group_keys_in Z.compare Analysis.Year_Month Z.compare_eq_iff).
      exists o. split; [exact Ho | reflexivity].
    + eexists. eexists.
      rewrite !nth_error_map.
      rewrite (pct_change_from_next Np.NaN _ i
                 (Np.Fin (inject_Z (Analysis.MonthlyTrends.Orders prev)))
                 (Np.Fin (inject_Z (Analysis.MonthlyTrends.Orders cur))))
        by (rewrite nth_error_map; (rewrite Hp || rewrite Hc); reflexivity).
      rewrite (pct_change_from_next Np.NaN _ i
                 (Np.Fin (Analysis.MonthlyTrends.Revenue prev))
                 (Np.Fin (Analysis.MonthlyTrends.Revenue cur)))
        by (rewrite nth_error_map; (rewrite Hp || rewrite Hc); reflexivity).
      simpl option_map.
      split; [reflexivity|]. split; [reflexivity|].
      split; [apply growth_as_spec|]. split; [apply growth_as_spec|].
      apply growth_finite.
      pose proof (monthly_agg_orders_pos orders_df prev (nth_error_In _ _ Hp)).
      change 0 with (inject_Z 0). rewrite <- Zlt_Qlt. assumption.
Qed.

(** Orders in December 2023, January 2024 and March 2024: March is compared
    with January, the month of the row above. *)
Lemma monthly_growth_example :
  map Analysis.MonthlyTrends.Year_Month
      (Analysis.monthly_agg Examples.sample_orders) = [647; 648; 650]%Z /\
  map Analysis.MonthlyTrends.Orders
      (Analysis.monthly_agg Examples.sample_orders) = [1; 1; 2]%Z /\
  Forall2 Np.feq (Analysis.Order_Growth_pct Examples.sample_orders)
          [Np.NaN; Np.Fin 0; Np.Fin 100] /\
  Forall2 Np.feq (Analysis.Revenue_Growth_pct Examples.sample_orders)
          [Np.NaN; Np.Fin (1300 # 7); Np.Fin (-25)].
Proof.
  split; [vm_compute; reflexivity|]. split; [vm_compute; reflexivity|].
  split; vm_compute; repeat constructor.
Qed.

(** * Further properties of the two scripts *)

(** ** Totals over groups *)

Lemma sum_counts_app (l1 l2 : list Z) :
  Spec.sum_counts (l1 ++ l2) = (Spec.sum_counts l1 + Spec.sum_counts l2)%Z.
Proof.
  induction l1 as [|x l1 IH]; simpl; [reflexivity|]. rewrite IH. lia.
Qed.

Lemma sum_counts_perm (l1 l2 : list Z) :
  Permutation l1 l2 -> Spec.sum_counts l1 = Spec.sum_counts l2.
Proof.
  induction 1; simpl; lia.
Qed.

Lemma sum_counts_plus {K} (a b : K -> Z) (ks : list K) :
  Spec.sum_counts (map (fun k => (a k + b k)%Z) ks)
  = (Spec.sum_counts (map a ks) + Spec.sum_counts (map b ks))%Z.
Proof.
  induction ks as [|k ks IH]; simpl; [reflexivity|]. rewrite IH. lia.
Qed.

Lemma sum_perm (l1 l2 : list Q) :
  Permutation l1 l2 -> Np.sum l1 == Np.sum l2.
Proof.
  induction 1 as [|x l l' _ IH|x y l|l l' l'' _ IH1 _ IH2].
  - reflexivity.
  - rewrite !sum_cons, IH. reflexivity.
  - rewrite !sum_cons. ring.
  - rewrite IH1. exact IH2.
Qed.

Lemma sum_map_plus {K} (a b : K -> Q) (ks : list K) :
  Np.sum (map (fun k => a k + b k) ks)
  == Np.sum (map a ks) + Np.sum (map b ks).
Proof.
  induction ks as [|k ks IH]; simpl.
  - vm_compute. reflexivity.
  - rewrite !sum_cons, IH. ring.
Qed.

Lemma sum_map_ext {K} (a b : K -> Q) (ks : list K) :
  (forall k, In k ks -> a k == b k) ->
  Np.sum (map a ks) == Np.sum (map b ks).
Proof.
  induction ks as [|k ks IH]; intros H; simpl; [reflexivity|].
  rewrite !sum_cons, (H k (or_introl eq_refl)), IH; [reflexivity|].
  intros k' Hk'. apply H. right. exact Hk'.
Qed.

Section GroupTotals.
Context {K A : Type} (cmp : K -> K -> comparison) (by_ : A -> K).

Hypothesis cmp_eq : forall x y, cmp x y = Eq <-> x = y.
Hypothesis cmp_lt_trans :
  forall x y z, cmp x y = Lt -> cmp y z = Lt -> cmp x z = Lt.
Hypothesis cmp_gt_lt : forall x y, cmp x y = Gt -> cmp y x = Lt.

Lemma group_keys_NoDup df : NoDup (Pd.group_keys cmp by_ df).
Proof.
  eapply strictly_sorted_NoDup;
    [|exact (group_keys_sorted cmp by_ cmp_eq cmp_lt_trans cmp_gt_lt df)].
  intros x Hx. simpl in Hx.
  pose proof (proj2 (cmp_eq x x) eq_refl). congruence.
Qed.

(** A row lies in the group of its own key and in no other. *)
Lemma one_group_counts (r : A) (ks : list K) :
  NoDup ks -> In (by_ r) ks ->
  Spec.sum_counts
    (map (fun k => if Pd.same_key cmp by_ k r then 1%Z else 0%Z) ks) = 1%Z.
Proof.
  induction 1 as [|k ks Hk Hnd IH]; intros Hin; [destruct Hin|].
  simpl. destruct (Pd.same_key cmp by_ k r) eqn:E.
  - apply (same_key_true cmp by_ cmp_eq) in E. subst k.
    assert (Hz : Spec.sum_counts
                   (map (fun k => if Pd.same_key cmp by_ k r then 1%Z else 0%Z) ks)
                 = 0%Z).
    { clear IH Hin Hnd. induction ks as [|k' ks IH']; simpl; [reflexivity|].
      destruct (Pd.same_key cmp by_ k' r) eqn:E'.
      - apply (same_key_true cmp by_ cmp_eq) in E'.
        exfalso. apply Hk. left. congruence.
      - rewrite IH'; [reflexivity|]. intros H. apply Hk. right. exact H. }
    rewrite Hz. reflexivity.
  - destruct Hin as [->|Hin].
    + assert (E' : Pd.same_key cmp by_ (by_ r) r = true)
        by (apply (same_key_true cmp by_ cmp_eq); reflexivity).
      congruence.
    + rewrite (IH Hin). reflexivity.
Qed.

Lemma one_group_weights (w : A -> Q) (r : A) (ks : list K) :
  NoDup ks -> In (by_ r) ks ->
  Np.sum (map (fun k => if Pd.same_key cmp by_ k r then w r else 0) ks) == w r.
Proof.
  induction 1 as [|k ks Hk Hnd IH]; intros Hin; [destruct Hin|].
  simpl. rewrite sum_cons. destruct (Pd.same_key cmp by_ k r) eqn:E.
  - apply (same_key_true cmp by_ cmp_eq) in E. subst k.
    assert (Hz : Np.sum
                   (map (fun k => if Pd.same_key cmp by_ k r then w r else 0) ks)
                 == 0).
    { clear IH Hin Hnd. induction ks as [|k' ks IH']; simpl.
      - vm_compute. reflexivity.
      - rewrite sum_cons. destruct (Pd.same_key cmp by_ k' r) eqn:E'.
        + apply (same_key_true cmp by_ cmp_eq) in E'.
          exfalso. apply Hk. left. congruence.
        + rewrite IH'; [ring|]. intros H. apply Hk. right. exact H. }
    rewrite Hz. ring.
  - destruct Hin as [->|Hin].
    + assert (E' : Pd.same_key cmp by_ (by_ r) r = true)
        by (apply (same_key_true cmp by_ cmp_eq); reflexivity).
      congruence.
    + rewrite (IH Hin). ring.
Qed.

(** The groups of a set of keys that covers the table split its rows. *)
Lemma groups_split_rows (ks : list K) (df : list A) :
  NoDup ks -> (forall r, In r df -> In (by_ r) ks) ->
  Spec.sum_counts
    (map (fun k => Py.len (filter (Pd.same_key cmp by_ k) df)) ks)
  = Py.len df.
Proof.
  intros Hnd. induction df as [|r df IH]; intros Hcov.
  - simpl. clear Hnd Hcov. induction ks as [|k ks IHk]; simpl; [reflexivity|].
    rewrite IHk. reflexivity.
  - rewrite (map_ext _
      (fun k => ((if Pd.same_key cmp by_ k r then 1 else 0)
                 + Py.len (filter (Pd.same_key cmp by_ k) df))%Z)).
    + rewrite sum_counts_plus, one_group_counts, IH.
      * unfold Py.len. simpl length. lia.
      * intros r' Hr'. apply Hcov. right. exact Hr'.
      * exact Hnd.
      * apply Hcov. left. reflexivity.
    + intros k. simpl. unfold Py.len.
      destruct (Pd.same_key cmp by_ k r); simpl length; lia.
Qed.

Lemma groups_split_weights (w : A -> Q) (ks : list K) (df : list A) :
  NoDup ks -> (forall r, In r df -> In (by_ r) ks) ->
  Np.sum (map (fun k => Np.sum (map w (filter (Pd.same_key cmp by_ k) df))) ks)
  == Np.sum (map w df).
Proof.
  intros Hnd. induction df as [|r df IH]; intros Hcov.
  - simpl. clear Hnd Hcov. induction ks as [|k ks IHk]; simpl.
    + reflexivity.
    + rewrite sum_cons, IHk. vm_compute. reflexivity.
  - rewrite (sum_map_ext _
      (fun k => (if Pd.same_key cmp by_ k r then w r else 0)
                + Np.sum (map w (filter (Pd.same_key cmp by_ k) df)))).
    + rewrite sum_map_plus, one_group_weights, IH.
      * simpl map. rewrite sum_cons. reflexivity.
      * intros r' Hr'. apply Hcov. right. exact Hr'.
      * exact Hnd.
      * apply Hcov. left. reflexivity.
    + intros k _. simpl.
      destruct (Pd.same_key cmp by_ k r); simpl map.
      * rewrite sum_cons. reflexivity.
      * ring.
Qed.

(** The group sizes of [groupby] add up to the number of rows. *)
Lemma groupby_sizes df :
  Spec.sum_counts (map (fun kg => Py.len (snd kg)) (Pd.groupby cmp by_ df))
  = Py.len df.
Proof.
  unfold Pd.groupby. rewrite map_map. simpl.
  apply groups_split_rows; [apply group_keys_NoDup|].
  intros r Hr. apply (group_keys_in cmp by_ cmp_eq). eauto.
Qed.

(** The group sums of [groupby] add up to the sum of the column. *)
Lemma groupby_sums (w : A -> Q) df :
  Np.sum (map (fun kg => Np.sum (map w (snd kg))) (Pd.groupby cmp by_ df))
  == Np.sum (map w df).
Proof.
  unfold Pd.groupby. rewrite map_map. simpl.
  apply groups_split_weights; [apply group_keys_NoDup|].
  intros r Hr. apply (group_keys_in cmp by_ cmp_eq). eauto.
Qed.

End GroupTotals.


(** ** Order counts of the rollups *)

(** X1: the order counts of the warehouse ranking add up to the number of
    orders: every order is counted in exactly one warehouse row. *)
Theorem warehouse_order_counts_add_up
  (orders_df : list Orders.row) (out : list Analysis.WarehousePerformance.row) :
  Analysis.warehouse_performance orders_df out ->
  Spec.sum_counts (map Analysis.WarehousePerformance.Total_Orders out)
  = Analysis.total_orders orders_df.
Proof.
  intros [Hperm _].
  rewrite <- (sum_counts_perm _ _
                (Permutation_map Analysis.WarehousePerformance.Total_Orders Hperm)).
  unfold Analysis.warehouse_rollup, Analysis.total_orders. rewrite map_map.
  rewrite <- (groupby_sizes str_compare Orders.Warehouse str_compare_eq
                str_compare_lt_trans str_compare_gt_lt orders_df).
  f_equal. apply map_ext. intros [k g]. reflexivity.
Qed.

Lemma warehouse_order_counts_add_up_witness :
  exists out,
    Analysis.warehouse_performance Examples.sample_orders out /\
    map Analysis.WarehousePerformance.Total_Orders out = [1; 2; 1]%Z /\
    Spec.sum_counts (map Analysis.WarehousePerformance.Total_Orders out) = 4%Z.
Proof.
  set (out := Pd.sort_stable Analysis.WarehousePerformance.On_Time_Rate_pct
                false (Analysis.warehouse_rollup Examples.sample_orders)).
  assert (H : Analysis.warehouse_performance Examples.sample_orders out)
    by apply sort_stable_is_sort_values.
  exists out. split; [exact H|]. split; [vm_compute; reflexivity|].
  rewrite (warehouse_order_counts_add_up Examples.sample_orders out H).
  reflexivity.
Defined.

(** X2: the monthly order counts add up to the number of orders, and every
    month of the table has at least one order. *)
Theorem monthly_order_counts_add_up (orders_df : list Orders.row) :
  Spec.sum_counts
    (map Analysis.MonthlyTrends.Orders (Analysis.monthly_agg orders_df))
  = Analysis.total_orders orders_df /\
  Forall (fun r => (1 <= Analysis.MonthlyTrends.Orders r)%Z)
         (Analysis.monthly_agg orders_df).
Proof.
  split.
  - unfold Analysis.monthly_agg, Analysis.total_orders. rewrite map_map.
    rewrite <- (groupby_sizes Z.compare Analysis.Year_Month Z.compare_eq_iff
                  Z_compare_lt_trans Z_compare_gt_lt orders_df).
    f_equal. apply map_ext. intros [k g]. reflexivity.
  - rewrite Forall_forall. intros r Hr.
    pose proof (monthly_agg_orders_pos orders_df r Hr). lia.
Qed.

(** ** The inventory status distribution and the alerts *)



Lemma status_counts_in (inventory_df : list Inventory.row) (st : string) (c : Z) :
  In (st, c) (Analysis.status_counts inventory_df) ->
  c = Py.len (filter (Analysis.has_status st) inventory_df) /\ (0 < c)%Z.
Proof.
  unfold Analysis.status_counts. intros H. apply in_map_iff in H.
  destruct H as ([k g] & E & Hg). simpl in E. inversion E; subst st c.
  destruct (groupby_in str_compare Inventory.Stock_Status str_compare_eq _ _ _ Hg)
    as (Eg & Hne & _).
  split; [|apply len_pos; exact Hne].
  rewrite Eg. f_equal. apply filter_ext. intros i.
  unfold Pd.same_key, Analysis.has_status.
  destruct (String.eqb_spec (Inventory.Stock_Status i) k) as [->|NE].
  - rewrite (proj2 (str_compare_eq k k) eq_refl). reflexivity.
  - destruct (str_compare (Inventory.Stock_Status i) k) eqn:C; try reflexivity.
    apply str_compare_eq in C. contradiction.
Qed.



Lemma filter_exclusive_length {A} (f g : A -> bool) (l : list A) :
  (forall x, f x = true -> g x = true -> False) ->
  (length (filter f l) + length (filter g l)
   = length (filter (fun x => f x || g x) l))%nat.
Proof.
  intros Hex. induction l as [|x l IH]; simpl; [reflexivity|].
  destruct (f x) eqn:Ef, (g x) eqn:Eg; simpl; try lia.
  exfalso. exact (Hex x Ef Eg).
Qed.

Lemma filter_length_all {A} (h : A -> bool) (l : list A) :
  length (filter h l) = length l <-> (forall x, In x l -> h x = true).
Proof.
  induction l as [|x l IH]; simpl.
  - split; [intros _ y [] | reflexivity].
  - pose proof (filter_length_le h l) as Hle.
    destruct (h x) eqn:E; simpl.
    + split.
      * intros H y [<-|Hy]; [exact E|]. apply IH; [lia | exact Hy].
      * intros H. f_equal. apply IH. intros y Hy. apply H. right. exact Hy.
    + split; [lia|]. intros H.
      specialize (H x (or_introl eq_refl)). congruence.
Qed.

Lemma sorted_head_before_rest {A} (R : A -> A -> Prop) (n : nat) (l : list A) :
  StronglySorted R l ->
  forall a b, In a (firstn n l) -> In b (skipn n l) -> R a b.
Proof.
  intros Hs. rewrite <- (firstn_skipn n l) in Hs.
  apply StronglySorted_app_inv in Hs. tauto.
Qed.

Lemma status_exclusive (i : Inventory.row) :
  Analysis.has_status "Low Stock" i = true ->
  Analysis.has_status "Overstock" i = true -> False.
Proof.
  unfold Analysis.has_status. rewrite !String.eqb_eq. intros -> H.
  discriminate H.
Qed.

(** X4: the low-stock alert list holds exactly the items whose status is
    'Low Stock' and the overstock list exactly those whose status is
    'Overstock'; the two lists share no item and together are no longer
    than the table; low-stock items are listed by ascending days of
    inventory and overstock items by descending stock; the ten items shown
    are low-stock items with no more days of inventory than any low-stock
    item left out. *)
Theorem stock_alert_lists
  (inventory_df low over : list Inventory.row) :
  Analysis.low_stock_items inventory_df low ->
  Analysis.overstock_items inventory_df over ->
  (forall i, In i low <->
             In i inventory_df /\ Inventory.Stock_Status i = "Low Stock"%string) /\
  (forall i, In i over <->
             In i inventory_df /\ Inventory.Stock_Status i = "Overstock"%string) /\
  (forall i, In i low -> ~ In i over) /\
  (length low + length over <= length inventory_df)%nat /\
  StronglySorted
    (fun a b => Inventory.Days_of_Inventory a <= Inventory.Days_of_Inventory b)
    low /\
  StronglySorted
    (fun a b => Inventory.Current_Stock b <= Inventory.Current_Stock a) over /\
  length (Pd.head 10 low) = Nat.min 10 (length low) /\
  (forall a b, In a (Pd.head 10 low) -> In b (skipn 10 low) ->
     Inventory.Stock_Status a = "Low Stock"%string /\
     Inventory.Days_of_Inventory a <= Inventory.Days_of_Inventory b).
Proof.
  intros [Hpl Hsl] [Hpo Hso].
  assert (Hlow : forall i, In i low <->
            In i inventory_df /\ Inventory.Stock_Status i = "Low Stock"%string).
  { intros i. rewrite <- (String.eqb_eq (Inventory.Stock_Status i)).
    rewrite <- (filter_In (Analysis.has_status "Low Stock")).
    split; apply Permutation_in; [symmetry|]; exact Hpl. }
  assert (Hover : forall i, In i over <->
            In i inventory_df /\ Inventory.Stock_Status i = "Overstock"%string).
  { intros i. rewrite <- (String.eqb_eq (Inventory.Stock_Status i)).
    rewrite <- (filter_In (Analysis.has_status "Overstock")).
    split; apply Permutation_in; [symmetry|]; exact Hpo. }
  split; [exact Hlow|]. split; [exact Hover|].
  split; [|split; [|split; [|split; [|split]]]].
  - intros i Hl Ho. apply Hlow in Hl. apply Hover in Ho.
    destruct Hl as [_ E1], Ho as [_ E2]. rewrite E1 in E2. discriminate E2.
  - rewrite <- (Permutation_length Hpl), <- (Permutation_length Hpo).
    rewrite (filter_exclusive_length _ _ _ status_exclusive).
    apply filter_length_le.
  - exact Hsl.
  - exact Hso.
  - unfold Pd.head. apply length_firstn.
  - intros a b Ha Hb. split.
    + apply in_firstn in Ha. apply Hlow in Ha. tauto.
    + exact (sorted_head_before_rest _ 10 low Hsl a b Ha Hb).
Qed.

Lemma stock_alert_lists_witness :
  exists low over,
    Analysis.low_stock_items Examples.stock_alerts low /\
    Analysis.overstock_items Examples.stock_alerts over /\
    map Inventory.Product low = ["P4"; "P1"]%string /\
    map Inventory.Product over = ["P5"; "P2"]%string /\
    (forall i, In i low -> ~ In i over).
Proof.
  set (low := Pd.sort_stable Inventory.Days_of_Inventory true
                (filter (Analysis.has_status "Low Stock") Examples.stock_alerts)).
  set (over := Pd.sort_stable Inventory.Current_Stock false
                 (filter (Analysis.has_status "Overstock") Examples.stock_alerts)).
  assert (Hl : Analysis.low_stock_items Examples.stock_alerts low)
    by apply sort_stable_is_sort_values.
  assert (Ho : Analysis.overstock_items Examples.stock_alerts over)
    by apply sort_stable_is_sort_values.
  exists low, over. split; [exact Hl|]. split; [exact Ho|].
  split; [vm_compute; reflexivity|]. split; [vm_compute; reflexivity|].
  exact (proj1 (proj2 (proj2 (stock_alert_lists _ _ _ Hl Ho)))).
Defined.

(** X5: the numbers of low-stock and overstock alerts are the counts that
    the status distribution shows for 'Low Stock' and 'Overstock'; a status
    that the distribution does not show has no alert. *)
Theorem alert_counts_match_distribution
  (inventory_df low over : list Inventory.row) (out : list (string * Z)) :
  Analysis.stock_status_summary inventory_df out ->
  Analysis.low_stock_items inventory_df low ->
  Analysis.overstock_items inventory_df over ->
  (forall c, In ("Low Stock"%string, c) out -> c = Py.len low) /\
  (forall c, In ("Overstock"%string, c) out -> c = Py.len over) /\
  (~ In "Low Stock"%string (map fst out) -> low = []) /\
  (~ In "Overstock"%string (map fst out) -> over = []).
Proof.
  intros [Hp _] [Hpl _] [Hpo _].
  assert (Hcount : forall st c, In (st, c) out ->
            c = Py.len (filter (Analysis.has_status st) inventory_df)).
  { intros st c Hin. apply (Permutation_in _ (Permutation_sym Hp)) in Hin.
    exact (proj1 (status_counts_in _ _ _ Hin)). }
  assert (Hnone : forall st, ~ In st (map fst out) ->
            filter (Analysis.has_status st) inventory_df = []).
  { intros st Hno.
    destruct (filter (Analysis.has_status st) inventory_df) as [|i l] eqn:E;
      [reflexivity|].
    exfalso. apply Hno.
    assert (Hi : In i (filter (Analysis.has_status st) inventory_df))
      by (rewrite E; left; reflexivity).
    apply filter_In in Hi. destruct Hi as [Hi Hst].
    unfold Analysis.has_status in Hst. apply String.eqb_eq in Hst.
    apply (Permutation_in _ (Permutation_map fst Hp)).
    unfold Analysis.status_counts. rewrite map_map. simpl.
    rewrite (groupby_keys str_compare Inventory.Stock_Status).
    apply (group_keys_in str_compare Inventory.Stock_Status str_compare_eq).
    eauto. }
  split; [|split; [|split]].
  - intros c Hin. rewrite (Hcount _ _ Hin). unfold Py.len.
    rewrite (Permutation_length Hpl). reflexivity.
  - intros c Hin. rewrite (Hcount _ _ Hin). unfold Py.len.
    rewrite (Permutation_length Hpo). reflexivity.
  - intros Hno. apply Permutation_nil. rewrite <- (Hnone _ Hno).
    symmetry in Hpl. rewrite (Hnone _ Hno) in *. symmetry. exact Hpl.
  - intros Hno. apply Permutation_nil. rewrite <- (Hnone _ Hno).
    symmetry in Hpo. rewrite (Hnone _ Hno) in *. symmetry. exact Hpo.
Qed.

Lemma alert_counts_match_distribution_witness :
  exists out low over,
    Analysis.stock_status_summary Examples.stock_alerts out /\
    Analysis.low_stock_items Examples.stock_alerts low /\
    Analysis.overstock_items Examples.stock_alerts over /\
    In ("Low Stock"%string, 2%Z) out /\ Py.len low = 2%Z.
Proof.
  set (out := Pd.sort_stable (fun r : string * Z => inject_Z (snd r)) false
                (Analysis.status_counts Examples.stock_alerts)).
  set (low := Pd.sort_stable Inventory.Days_of_Inventory true
                (filter (Analysis.has_status "Low Stock") Examples.stock_alerts)).
  set (over := Pd.sort_stable Inventory.Current_Stock false
                 (filter (Analysis.has_status "Overstock") Examples.stock_alerts)).
  assert (H : Analysis.stock_status_summary Examples.stock_alerts out)
    by apply sort_stable_is_sort_values.
  assert (Hl : Analysis.low_stock_items Examples.stock_alerts low)
    by apply sort_stable_is_sort_values.
  assert (Ho : Analysis.overstock_items Examples.stock_alerts over)
    by apply sort_stable_is_sort_values.
  assert (Hin : In ("Low Stock"%string, 2%Z) out)
    by (vm_compute; left; reflexivity).
  exists out, low, over. repeat (split; [assumption|]).
  symmetry.
  exact (proj1 (alert_counts_match_distribution _ _ _ _ H Hl Ho) _ Hin).
Defined.

(** ** Late orders *)

Lemma Qpos_nonzero (q : Q) : 0 < q -> ~ q == 0.
Proof. intros H E. rewrite E in H. exact (Qlt_irrefl 0 H). Qed.

Lemma flags_exclusive (o : Orders.row) :
  Analysis.is_yes o = true -> Analysis.is_no o = true -> False.
Proof.
  unfold Analysis.is_yes, Analysis.is_no. rewrite !String.eqb_eq.
  intros -> H. discriminate H.
Qed.

Lemma share_of (k n : Z) :
  (n <> 0)%Z ->
  Py.bind (Py.truediv k n) (fun r => Py.Ok (r * 100))
  = Py.Ok (inject_Z k / inject_Z n * 100).
Proof.
  intros Hn. unfold Py.truediv.
  destruct (Z.eqb_spec n 0); [contradiction | reflexivity].
Qed.

(** X6: on a non-empty Order table the on-time share and the late share
    are both returned, the late share is not negative, and the two add up
    to at most 100; they add up to exactly 100 when, and only when, every
    order is flagged 'Yes' or 'No'. *)
Theorem on_time_and_late_shares (orders_df : list Orders.row) :
  orders_df <> [] ->
  exists on_time late,
    Analysis.on_time_rate orders_df = Py.Ok on_time /\
    Analysis.late_pct orders_df = Py.Ok late /\
    0 <= late /\ on_time + late <= 100 /\
    (on_time + late == 100 <->
     forall o, In o orders_df ->
       Orders.On_Time_Delivery o = "Yes"%string \/
       Orders.On_Time_Delivery o = "No"%string).
Proof.
  intros Hne. pose proof (len_pos orders_df Hne) as Hpos.
  unfold Analysis.on_time_rate, Analysis.late_pct, Analysis.total_orders,
    Analysis.on_time_orders, Analysis.on_time_rows, Analysis.late_orders.
  rewrite !share_of by lia.
  eexists. eexists. split; [reflexivity|]. split; [reflexivity|].
  pose proof (filter_exclusive_length Analysis.is_yes Analysis.is_no orders_df
                flags_exclusive) as Hsum.
  pose proof (filter_length_le (fun o => Analysis.is_yes o || Analysis.is_no o)
                orders_df) as Hle.
  pose proof (filter_length_all (fun o => Analysis.is_yes o || Analysis.is_no o)
                orders_df) as Hall.
  unfold Py.len in *.
  set (ky := length (filter Analysis.is_yes orders_df)) in *.
  set (kn := length (filter Analysis.is_no orders_df)) in *.
  set (kb := length (filter (fun o => Analysis.is_yes o || Analysis.is_no o)
                            orders_df)) in *.
  set (n := length orders_df) in *.
  assert (Hn : 0 < inject_Z (Z.of_nat n))
    by (change 0 with (inject_Z 0); rewrite <- Zlt_Qlt; exact Hpos).
  assert (Hshare : inject_Z (Z.of_nat ky) / inject_Z (Z.of_nat n) * 100
                   + inject_Z (Z.of_nat kn) / inject_Z (Z.of_nat n) * 100
                   == inject_Z (Z.of_nat kb) / inject_Z (Z.of_nat n) * 100).
  { rewrite <- Hsum, Nat2Z.inj_add, inject_Z_plus. field. lra. }
  split.
  { apply percentage_bounds; lia. }
  split.
  { rewrite Hshare. apply percentage_bounds; lia. }
  rewrite Hshare. split.
  - intros E o Ho.
    assert (Hkb : kb = n).
    { assert (Hq : inject_Z (Z.of_nat kb) == inject_Z (Z.of_nat n)).
      { assert (Hx : inject_Z (Z.of_nat kb)
                     == inject_Z (Z.of_nat kb) / inject_Z (Z.of_nat n) * 100
                        * (inject_Z (Z.of_nat n) / 100)).
        { field. apply Qpos_nonzero. exact Hn. }
        rewrite Hx, E. field. }
      apply (proj1 (inject_Z_injective _ _)) in Hq. lia. }
    pose proof (proj1 Hall Hkb o Ho) as Hb.
    apply orb_true_iff in Hb.
    unfold Analysis.is_yes, Analysis.is_no in Hb.
    rewrite !String.eqb_eq in Hb. exact Hb.
  - intros Hflags.
    assert (Hkb : kb = n).
    { apply Hall. intros o Ho. apply orb_true_iff.
      unfold Analysis.is_yes, Analysis.is_no. rewrite !String.eqb_eq. auto. }
    rewrite Hkb. field. apply Qpos_nonzero. exact Hn.
Qed.

Lemma on_time_and_late_shares_witness :
  exists on_time late,
    Analysis.on_time_rate Examples.sample_orders = Py.Ok on_time /\
    Analysis.late_pct Examples.sample_orders = Py.Ok late /\
    on_time + late <= 100.
Proof.
  destruct (on_time_and_late_shares Examples.sample_orders)
    as (a & b & Ha & Hb & _ & Hle & _); [discriminate|].
  exists a, b. auto.
Defined.

(** ** Carriers *)

Lemma div_finite_iff (t p : Q) :
  Np.is_finite (Np.div (Np.Fin t) (Np.Fin p)) = false <-> p == 0.
Proof.
  unfold Np.div, Np.Qsgn.
  destruct (Qcompare_spec p 0) as [E|L|G]; simpl.
  - split; [intros _; exact E|]. intros _. destruct (t ?= 0); reflexivity.
  - split; [discriminate|]. intros E. rewrite E in L.
    exfalso. exact (Qlt_irrefl 0 L).
  - split; [discriminate|]. intros E. rewrite E in G.
    exfalso. exact (Qlt_irrefl 0 G).
Qed.

Lemma fround2_finite (x : Np.float64) :
  Np.is_finite (Np.fround2 x) = Np.is_finite x.
Proof. destruct x; reflexivity. Qed.

Lemma carrier_rollup_in (shipping_df : list Shipping.row)
      (r : Analysis.CarrierAnalysis.row) :
  In r (Analysis.carrier_rollup shipping_df) ->
  exists g,
    g = filter (Pd.same_key str_compare Shipping.Carrier
                  (Analysis.CarrierAnalysis.Carrier r)) shipping_df /\
    g <> [] /\
    Analysis.CarrierAnalysis.Shipments r = Py.len g /\
    Analysis.CarrierAnalysis.Total_Cost r
      = Np.round2 (Np.sum (map Shipping.Shipping_Cost g)) /\
    Analysis.CarrierAnalysis.Avg_Cost r
      = Np.round2 (Pd.group_mean (map Shipping.Shipping_Cost g)) /\
    Analysis.CarrierAnalysis.Cost_per_KM r
      = Analysis.cost_per_km (Analysis.CarrierAnalysis.Total_Cost r)
                             (Analysis.CarrierAnalysis.Shipments r)
                             (Analysis.CarrierAnalysis.Avg_Distance r).
Proof.
  unfold Analysis.carrier_rollup. intros H. apply in_map_iff in H.
  destruct H as ([k g] & <- & Hg). simpl.
  destruct (groupby_in str_compare Shipping.Carrier str_compare_eq _ _ _ Hg)
    as (Eg & Hne & _).
  exists g. repeat split; assumption.
Qed.

(** X8: in the carrier table, whatever order the sort gives to equal
    totals, the shipment counts add up to the number of shipments, every
    carrier occurs once with at least one shipment, the rounded totals
    descend, and a carrier's cost per kilometre is inf, -inf or NaN exactly
    when its rounded average distance is 0, and a finite number otherwise. *)
Theorem carrier_analysis_table
  (shipping_df : list Shipping.row) (out : list Analysis.CarrierAnalysis.row) :
  Analysis.carrier_analysis shipping_df out ->
  Spec.sum_counts (map Analysis.CarrierAnalysis.Shipments out)
  = Py.len shipping_df /\
  NoDup (map Analysis.CarrierAnalysis.Carrier out) /\
  StronglySorted
    (fun a b => Analysis.CarrierAnalysis.Total_Cost b
                <= Analysis.CarrierAnalysis.Total_Cost a) out /\
  (forall r, In r out ->
     (1 <= Analysis.CarrierAnalysis.Shipments r)%Z /\
     (Np.is_finite (Analysis.CarrierAnalysis.Cost_per_KM r) = false
      <-> Analysis.CarrierAnalysis.Avg_Distance r == 0)).
Proof.
  intros [Hperm Hsorted].
  split; [|split; [|split]].
  - rewrite <- (sum_counts_perm _ _
                  (Permutation_map Analysis.CarrierAnalysis.Shipments Hperm)).
    unfold Analysis.carrier_rollup. rewrite map_map.
    rewrite <- (groupby_sizes str_compare Shipping.Carrier str_compare_eq
                  str_compare_lt_trans str_compare_gt_lt shipping_df).
    f_equal. apply map_ext. intros [k g]. reflexivity.
  - apply (Permutation_NoDup
             (Permutation_map Analysis.CarrierAnalysis.Carrier Hperm)).
    replace (map Analysis.CarrierAnalysis.Carrier
                 (Analysis.carrier_rollup shipping_df))
      with (Pd.group_keys str_compare Shipping.Carrier shipping_df).
    + apply (group_keys_NoDup str_compare Shipping.Carrier str_compare_eq
               str_compare_lt_trans str_compare_gt_lt).
    + unfold Analysis.carrier_rollup. rewrite map_map.
      rewrite <- (groupby_keys str_compare Shipping.Carrier).
      apply map_ext. intros [k g]. reflexivity.
  - exact Hsorted.
  - intros r Hr. apply (Permutation_in _ (Permutation_sym Hperm)) in Hr.
    destruct (carrier_rollup_in _ _ Hr) as (g & _ & Hne & Hs & _ & _ & Hc).
    pose proof (len_pos g Hne) as Hpos. rewrite <- Hs in Hpos.
    split; [lia|].
    rewrite Hc. unfold Analysis.cost_per_km.
    rewrite fround2_finite. simpl Np.mul. rewrite div_finite_iff.
    assert (Hq : 0 < inject_Z (Analysis.CarrierAnalysis.Shipments r))
      by (change 0 with (inject_Z 0); rewrite <- Zlt_Qlt; exact Hpos).
    split.
    + intros E. apply Qmult_integral in E. destruct E as [E|E]; [|exact E].
      exfalso. exact (Qpos_nonzero _ Hq E).
    + intros E. rewrite E. ring.
Qed.

Lemma carrier_analysis_table_witness :
  exists out out',
    Analysis.carrier_analysis Examples.carrier_shipments out /\
    Analysis.carrier_analysis Examples.carrier_shipments out' /\
    map Analysis.CarrierAnalysis.Carrier out
    = ["DHL"; "UPS"; "FedEx"]%string /\
    map Analysis.CarrierAnalysis.Carrier out'
    = ["UPS"; "DHL"; "FedEx"]%string /\
    map Analysis.CarrierAnalysis.Shipments out = [1; 2; 1]%Z /\
    map (fun r => Qred (Analysis.CarrierAnalysis.Total_Cost r)) out
    = [50; 50; 10] /\
    map (fun r => Qred (Analysis.CarrierAnalysis.Avg_Distance r)) out
    = [0; 150; 50] /\
    map Analysis.CarrierAnalysis.Cost_per_KM out
    = [Np.PInf; Np.Fin (17 # 100); Np.Fin (20 # 100)] /\
    (Spec.sum_counts (map Analysis.CarrierAnalysis.Shipments out) = 4%Z /\
     NoDup (map Analysis.CarrierAnalysis.Carrier out) /\
     StronglySorted
       (fun a b => Analysis.CarrierAnalysis.Total_Cost b
                   <= Analysis.CarrierAnalysis.Total_Cost a) out /\
     (forall r, In r out ->
        (1 <= Analysis.CarrierAnalysis.Shipments r)%Z /\
        (Np.is_finite (Analysis.CarrierAnalysis.Cost_per_KM r) = false
         <-> Analysis.CarrierAnalysis.Avg_Distance r == 0))) /\
    (Spec.sum_counts (map Analysis.CarrierAnalysis.Shipments out') = 4%Z /\
     NoDup (map Analysis.CarrierAnalysis.Carrier out') /\
     StronglySorted
       (fun a b => Analysis.CarrierAnalysis.Total_Cost b
                   <= Analysis.CarrierAnalysis.Total_Cost a) out').
Proof.
  set (roll := Analysis.carrier_rollup Examples.carrier_shipments).
  set (out := Pd.sort_stable Analysis.CarrierAnalysis.Total_Cost false roll).
  set (out' := skipn 2 roll ++ firstn 2 roll).
  assert (H : Analysis.carrier_analysis Examples.carrier_shipments out)
    by apply sort_stable_is_sort_values.
  assert (H' : Analysis.carrier_analysis Examples.carrier_shipments out').
  { split.
    - fold roll. rewrite <- (firstn_skipn 2 roll) at 1.
      apply Permutation_app_comm.
    - vm_compute. repeat constructor; discriminate. }
  pose proof (carrier_analysis_table Examples.carrier_shipments out H)
    as (Hsum & Hnd & Hs & Hrows).
  pose proof (carrier_analysis_table Examples.carrier_shipments out' H')
    as (Hsum' & Hnd' & Hs' & _).
  exists out, out'.
  split; [exact H|]. split; [exact H'|].
  split; [vm_compute; reflexivity|]. split; [vm_compute; reflexivity|].
  split; [vm_compute; reflexivity|]. split; [vm_compute; reflexivity|].
  split; [vm_compute; reflexivity|]. split; [vm_compute; reflexivity|].
  split.
  - split; [exact Hsum|]. split; [exact Hnd|]. split; [exact Hs | exact Hrows].
  - split; [exact Hsum'|]. split; [exact Hnd' | exact Hs'].
Defined.

(** X9: the per-carrier sums charted by the visualization script add up to
    the total shipping cost of the analysis script, the per-carrier counts
    add up to the number of shipments, and each carrier row of the analysis
    script holds the rounded sum, the rounded mean and the count charted
    for that carrier. *)
Theorem carrier_costs_add_up (shipping_df : list Shipping.row) :
  Np.sum (map (fun r => fst (fst (snd r)))
              (Visualizations.carrier_costs shipping_df))
  == Analysis.total_shipping_cost shipping_df /\
  Spec.sum_counts (map (fun r => snd (snd r))
                       (Visualizations.carrier_costs shipping_df))
  = Py.len shipping_df /\
  (forall r, In r (Analysis.carrier_rollup shipping_df) ->
     exists total mean_cost,
       In (Analysis.CarrierAnalysis.Carrier r,
           (total, mean_cost, Analysis.CarrierAnalysis.Shipments r))
          (Visualizations.carrier_costs shipping_df) /\
       Analysis.CarrierAnalysis.Total_Cost r = Np.round2 total /\
       Analysis.CarrierAnalysis.Avg_Cost r = Np.round2 mean_cost).
Proof.
  unfold Visualizations.carrier_costs, Analysis.total_shipping_cost.
  split; [|split].
  - rewrite map_map. simpl.
    apply (groupby_sums str_compare Shipping.Carrier str_compare_eq
             str_compare_lt_trans str_compare_gt_lt Shipping.Shipping_Cost).
  - rewrite map_map. simpl.
    rewrite <- (groupby_sizes str_compare Shipping.Carrier str_compare_eq
                  str_compare_lt_trans str_compare_gt_lt shipping_df).
    f_equal. apply map_ext. intros [k g]. unfold Py.len.
    rewrite length_map. reflexivity.
  - intros r Hr. unfold Analysis.carrier_rollup in Hr.
    apply in_map_iff in Hr. destruct Hr as ([k g] & <- & Hg). simpl.
    exists (Np.sum (map Shipping.Shipping_Cost g)),
           (Pd.group_mean (map Shipping.Shipping_Cost g)).
    split; [|split; reflexivity].
    apply in_map_iff. exists (k, g). split; [|exact Hg].
    simpl. unfold Py.len. rewrite length_map. reflexivity.
Qed.

(** ** The first rows of the rankings *)

Lemma sorted_first_is_extreme {A} (R : A -> A -> Prop) (l : list A) (a : A) :
  (forall x, R x x) -> StronglySorted R l -> hd_error l = Some a ->
  forall b, In b l -> R a b.
Proof.
  intros Hrefl Hs Hhd b Hb. destruct l as [|x t]; [discriminate|].
  simpl in Hhd. inversion Hhd; subst x.
  inversion Hs as [|? ? _ Hf]; subst. rewrite Forall_forall in Hf.
  destruct Hb as [<-|Hb]; auto.
Qed.

Lemma warehouse_rollup_nonempty (orders_df : list Orders.row) :
  orders_df <> [] -> Analysis.warehouse_rollup orders_df <> [].
Proof.
  intros Hne E. destruct orders_df as [|o l]; [congruence|].
  assert (Hin : In (Orders.Warehouse o)
                   (Pd.group_keys str_compare Orders.Warehouse (o :: l))).
  { apply (group_keys_in str_compare Orders.Warehouse str_compare_eq).
    exists o. split; [left|]; reflexivity. }
  rewrite <- warehouse_rollup_names, E in Hin. exact Hin.
Qed.

(** X10: for a non-empty Order table the ranking has a first row, so the
    report's best warehouse exists; it is a warehouse of the table and no
    warehouse has a higher rounded on-time rate. *)
Theorem best_warehouse_has_highest_rate
  (orders_df : list Orders.row)
  (res : option Analysis.WarehousePerformance.row) :
  orders_df <> [] ->
  Analysis.best_warehouse orders_df res ->
  exists r,
    res = Some r /\
    In (Analysis.WarehousePerformance.Warehouse r)
       (map Orders.Warehouse orders_df) /\
    forall r', In r' (Analysis.warehouse_rollup orders_df) ->
      Analysis.WarehousePerformance.On_Time_Rate_pct r'
      <= Analysis.WarehousePerformance.On_Time_Rate_pct r.
Proof.
  intros Hne (out & [Hperm Hsorted] & ->).
  destruct out as [|r t].
  - exfalso. apply (warehouse_rollup_nonempty orders_df Hne).
    apply Permutation_nil. symmetry. exact Hperm.
  - exists r. split; [reflexivity|]. split.
    + assert (Hin : In (Analysis.WarehousePerformance.Warehouse r)
                       (map Analysis.WarehousePerformance.Warehouse
                            (Analysis.warehouse_rollup orders_df))).
      { apply in_map. apply (Permutation_in _ (Permutation_sym Hperm)).
        left. reflexivity. }
      rewrite warehouse_rollup_names in Hin.
      apply (group_keys_in str_compare Orders.Warehouse str_compare_eq) in Hin.
      destruct Hin as (o & Ho & <-). apply in_map. exact Ho.
    + intros r' Hr'. apply (Permutation_in _ Hperm) in Hr'.
      apply (sorted_first_is_extreme _ _ r
               (fun x => Qle_refl _) Hsorted eq_refl r' Hr').
Qed.

Lemma best_warehouse_has_highest_rate_witness :
  exists r,
    Analysis.best_warehouse Examples.sample_orders (Some r) /\
    Analysis.WarehousePerformance.Warehouse r = "East"%string /\
    forall r', In r' (Analysis.warehouse_rollup Examples.sample_orders) ->
      Analysis.WarehousePerformance.On_Time_Rate_pct r'
      <= Analysis.WarehousePerformance.On_Time_Rate_pct r.
Proof.
  set (out := Pd.sort_stable Analysis.WarehousePerformance.On_Time_Rate_pct
                false (Analysis.warehouse_rollup Examples.sample_orders)).
  assert (H : Analysis.best_warehouse Examples.sample_orders (hd_error out)).
  { exists out. split; [apply sort_stable_is_sort_values | reflexivity]. }
  assert (Hne : Examples.sample_orders <> []) by discriminate.
  destruct (best_warehouse_has_highest_rate _ _ Hne H) as (r & Hr & _ & Hmax).
  exists r. rewrite <- Hr. split; [exact H|]. split; [|exact Hmax].
  assert (E : option_map Analysis.WarehousePerformance.Warehouse (hd_error out)
              = Some "East"%string) by (vm_compute; reflexivity).
  rewrite Hr in E. simpl in E. congruence.
Defined.

Lemma select_n_prefix {A} (key : A -> Q) asc n df out :
  Pd.select_n key asc n df out ->
  exists s, Permutation df s /\ StronglySorted (Pd.before key asc) s /\
            out = firstn n s.
Proof.
  unfold Pd.select_n. intros H. destruct (length df <=? n)%nat.
  - destruct H as (s & [Hp Hs] & ->). exists s. auto.
  - exists (Pd.sort_stable key asc df).
    split; [apply sort_stable_perm|]. split; [apply sort_stable_sorted|].
    exact H.
Qed.

(** X11: for a Supplier table that has rows the report's top supplier
    exists; it is the supplier at its row label, it carries that supplier's
    name and score, and no supplier of the table has a higher score. *)
Theorem top_supplier_has_highest_score (supplier_df : list Suppliers.row) :
  supplier_df <> [] ->
  (exists res, Analysis.top_supplier supplier_df res) /\
  (forall i row, Analysis.top_supplier supplier_df (i, row) ->
     exists s,
       nth_error supplier_df i = Some s /\
       Analysis.Ranking.Supplier row = Suppliers.Supplier s /\
       Analysis.Ranking.Performance_Score row = Analysis.performance_score s /\
       forall s', In s' supplier_df ->
         Analysis.performance_score s' <= Analysis.Ranking.Performance_Score row).
Proof.
  intros Hne. split.
  - set (df := Pd.with_index (Analysis.with_performance_score supplier_df)).
    assert (Hsel : exists sel, Analysis.top_selection supplier_df sel).
    { unfold Analysis.top_selection, Pd.nlargest, Pd.select_n. fold df.
      destruct (length df <=? 5)%nat.
      - exists (firstn 5 (Pd.sort_stable Analysis.score_of false df)).
        exists (Pd.sort_stable Analysis.score_of false df).
        split; [apply sort_stable_is_sort_values | reflexivity].
      - exists (firstn 5 (Pd.sort_stable Analysis.score_of false df)).
        reflexivity. }
    destruct Hsel as (sel & Hsel).
    pose proof (select_n_length _ _ _ _ _ Hsel) as Hlen.
    fold df in Hlen. unfold df in Hlen. rewrite scored_table_length in Hlen.
    destruct sel as [|a t].
    + exfalso. destruct supplier_df; [congruence | discriminate Hlen].
    + exists (Analysis.project a). split; [exact Hne|].
      exists (map Analysis.project (a :: t)). split; [|reflexivity].
      exists (a :: t). split; [exact Hsel | reflexivity].
  - intros i row (_ & out & (sel & Hsel & ->) & Hhd).
    unfold Analysis.top_selection, Pd.nlargest in Hsel.
    destruct (select_n_prefix _ _ _ _ _ Hsel) as (s & Hp & Hs & Esel).
    destruct s as [|a t]; [subst sel; discriminate Hhd|].
    subst sel. simpl in Hhd.
    assert (Ea : Analysis.project a = (i, row)) by congruence.
    assert (Ha : In (i, row) (map Analysis.project (a :: firstn 4 t)))
      by (left; exact Ea).
    destruct (selected_row_score supplier_df false 5 (a :: firstn 4 t) i row
                Hsel Ha) as (su & Hn & Hname & Hscore).
    exists su. split; [exact Hn|]. split; [exact Hname|].
    split; [rewrite Hscore; symmetry; apply performance_score_rounds_spec|].
    intros s' Hs'.
    apply In_nth_error in Hs'. destruct Hs' as (j & Hj).
    assert (Hin : In (j, {| Analysis.supplier := s';
                            Analysis.Performance_Score :=
                              Analysis.performance_score s' |})
                     (Pd.with_index
                        (Analysis.with_performance_score supplier_df))).
    { apply in_with_index. unfold Analysis.with_performance_score.
      rewrite nth_error_map, Hj. reflexivity. }
    apply (Permutation_in _ Hp) in Hin.
    pose proof (sorted_first_is_extreme _ _ a (fun x => Qle_refl _) Hs
                  eq_refl _ Hin) as Hle.
    unfold Pd.before, Analysis.score_of in Hle. simpl in Hle.
    unfold Analysis.project in Ea. inversion Ea; subst i row. simpl.
    exact Hle.
Qed.

Lemma top_supplier_has_highest_score_witness :
  exists i row,
    Analysis.top_supplier Examples.ranked_suppliers (i, row) /\
    i = 2%nat /\
    Analysis.Ranking.Supplier row = "C"%string /\
    forall s', In s' Examples.ranked_suppliers ->
      Analysis.performance_score s' <= Analysis.Ranking.Performance_Score row.
Proof.
  set (df := Pd.with_index
               (Analysis.with_performance_score Examples.ranked_suppliers)).
  set (out := map Analysis.project
                (firstn 5 (Pd.sort_stable Analysis.score_of false df))).
  assert (Hne : Examples.ranked_suppliers <> []) by discriminate.
  assert (Hout : Analysis.top_suppliers Examples.ranked_suppliers out).
  { exists (firstn 5 (Pd.sort_stable Analysis.score_of false df)).
    split; [vm_compute; reflexivity | reflexivity]. }
  assert (E : option_map (fun r : nat * Analysis.Ranking.row =>
                            (fst r, Analysis.Ranking.Supplier (snd r)))
                         (hd_error out) = Some (2%nat, "C"%string))
    by (vm_compute; reflexivity).
  destruct (hd_error out) as [[i row]|] eqn:Hhd; [|discriminate E].
  simpl in E. injection E as Ei En.
  assert (H : Analysis.top_supplier Examples.ranked_suppliers (i, row)).
  { split; [exact Hne|]. exists out. split; [exact Hout | exact Hhd]. }
  destruct (proj2 (top_supplier_has_highest_score _ Hne) i row H)
    as (s & _ & _ & _ & Hmax).
  exists i, row. split; [exact H|]. split; [exact Ei|].
  split; [exact En | exact Hmax].
Defined.

(** ** The dashboard's on-time figure *)

(** X12: on a non-empty Order table the dashboard's on-time percentage is
    the rate of the analysis script, and the figure is drawn green exactly
    when it exceeds 85.  On an empty table the dashboard's expression is
    NaN, drawn red, where the division of the analysis script raises. *)
Theorem dashboard_on_time_pct (orders_df : list Orders.row) :
  (orders_df <> [] /\
   exists r,
     Analysis.on_time_rate orders_df = Py.Ok r /\
     Visualizations.on_time_pct orders_df = Np.Fin r /\
     0 <= r <= 100 /\
     (Visualizations.color_otd orders_df = "#2ecc71"%string <-> 85 < r) /\
     (Visualizations.color_otd orders_df = "#e74c3c"%string <-> r <= 85)) \/
  (orders_df = [] /\
   Analysis.on_time_rate orders_df = Py.Raise Py.ZeroDivisionError /\
   Visualizations.on_time_pct orders_df = Np.NaN /\
   Visualizations.color_otd orders_df = "#e74c3c"%string).
Proof.
  destruct orders_df as [|o l]; [right; repeat split; reflexivity|].
  left. split; [discriminate|].
  assert (Hpos : (0 < Py.len (o :: l))%Z) by (apply len_pos; discriminate).
  unfold Analysis.on_time_rate, Analysis.total_orders, Analysis.on_time_orders,
    Analysis.on_time_rows.
  rewrite share_of by lia.
  eexists. split; [reflexivity|].
  assert (Hv : Visualizations.on_time_pct (o :: l)
               = Np.Fin (inject_Z (Py.len (filter Analysis.is_yes (o :: l)))
                         / inject_Z (Py.len (o :: l)) * 100)).
  { unfold Visualizations.on_time_pct, Np.div.
    assert (Hs : Np.Qsgn (inject_Z (Py.len (o :: l))) = Gt).
    { apply (proj1 (Qgt_alt _ _)). change 0 with (inject_Z 0).
      rewrite <- Zlt_Qlt. exact Hpos. }
    rewrite Hs. reflexivity. }
  split; [exact Hv|].
  split; [apply percentage_bounds; [apply yes_count_bounds | exact Hpos]|].
  unfold Visualizations.color_otd. rewrite Hv.
  set (r := inject_Z (Py.len (filter Analysis.is_yes (o :: l)))
            / inject_Z (Py.len (o :: l)) * 100).
  unfold Np.gt.
  destruct (Qle_bool r 85) eqn:B; cbn [negb].
  - apply Qle_bool_iff in B. split; split; intros H; try discriminate H;
      try reflexivity; try exact B.
    exfalso. exact (Qlt_not_le _ _ H B).
  - assert (Hlt : 85 < r).
    { apply Qnot_le_lt. intros Hle. apply Qle_bool_iff in Hle. congruence. }
    split; split; intros H; try discriminate H; try reflexivity; try exact Hlt.
    exfalso. exact (Qlt_not_le _ _ Hlt H).
Qed.

(** ** The charts of the visualization script *)

Lemma same_group (orders_df : list Orders.row) (w : string)
      (g g' : list Orders.row) :
  In (w, g) (Pd.groupby str_compare Orders.Warehouse orders_df) ->
  In (w, g') (Pd.groupby str_compare Orders.Warehouse orders_df) ->
  g = g'.
Proof.
  intros H H'.
  destruct (groupby_in str_compare Orders.Warehouse str_compare_eq _ _ _ H)
    as (E & _).
  destruct (groupby_in str_compare Orders.Warehouse str_compare_eq _ _ _ H')
    as (E' & _).
  congruence.
Qed.

(** X13: the warehouse chart of the visualization script and the warehouse
    table of the analysis script show the same warehouses, and for each of
    them the table's on-time rate is the charted rate rounded to two
    decimals; the charted rate lies between 0 and 100. *)
Theorem warehouse_chart_matches_report
  (orders_df : list Orders.row) (chart : list (string * Q))
  (report : list Analysis.WarehousePerformance.row) :
  Visualizations.warehouse_perf orders_df chart ->
  Analysis.warehouse_performance orders_df report ->
  (forall w, In w (map fst chart)
             <-> In w (map Analysis.WarehousePerformance.Warehouse report)) /\
  (forall w x r,
     In (w, x) chart -> In r report ->
     Analysis.WarehousePerformance.Warehouse r = w ->
     0 <= x <= 100 /\
     Analysis.WarehousePerformance.On_Time_Rate_pct r = Np.round2 x /\
     x - (1 # 200) <= Analysis.WarehousePerformance.On_Time_Rate_pct r
       <= x + (1 # 200)).
Proof.
  intros [Hpc _] [Hpr _]. split.
  - intros w.
    assert (Hc : map fst (Visualizations.warehouse_rates orders_df)
                 = Pd.group_keys str_compare Orders.Warehouse orders_df).
    { unfold Visualizations.warehouse_rates. rewrite map_map. simpl.
      apply (groupby_keys str_compare Orders.Warehouse). }
    split; intros H.
    + apply (Permutation_in _ (Permutation_sym (Permutation_map fst Hpc))) in H.
      apply (Permutation_in _
               (Permutation_map Analysis.WarehousePerformance.Warehouse Hpr)).
      rewrite warehouse_rollup_names. rewrite <- Hc. exact H.
    + apply (Permutation_in _ (Permutation_map fst Hpc)).
      apply (Permutation_in _
               (Permutation_sym
                  (Permutation_map Analysis.WarehousePerformance.Warehouse Hpr)))
        in H.
      rewrite warehouse_rollup_names in H. rewrite Hc. exact H.
  - intros w x r Hc Hr Hw.
    apply (Permutation_in _ (Permutation_sym Hpc)) in Hc.
    apply (Permutation_in _ (Permutation_sym Hpr)) in Hr.
    unfold Visualizations.warehouse_rates in Hc. apply in_map_iff in Hc.
    destruct Hc as ([k g] & E & Hg). simpl in E. inversion E; subst k x.
    unfold Analysis.warehouse_rollup in Hr. apply in_map_iff in Hr.
    destruct Hr as ([k' g'] & <- & Hg'). simpl in Hw. subst k'. simpl.
    rewrite (same_group _ _ _ _ Hg' Hg).
    destruct (groupby_in str_compare Orders.Warehouse str_compare_eq _ _ _ Hg)
      as (_ & Hne & _).
    split; [|split; [reflexivity | apply round2_error]].
    apply percentage_bounds; [apply yes_count_bounds | apply len_pos; exact Hne].
Qed.

Lemma warehouse_chart_matches_report_witness :
  exists chart report,
    Visualizations.warehouse_perf Examples.sample_orders chart /\
    Analysis.warehouse_performance Examples.sample_orders report /\
    map fst chart = ["East"; "West"; "North"]%string /\
    (forall w, In w (map fst chart)
               <-> In w (map Analysis.WarehousePerformance.Warehouse report)).
Proof.
  set (chart := Pd.sort_stable (fun r : string * Q => snd r) false
                  (Visualizations.warehouse_rates Examples.sample_orders)).
  set (report := Pd.sort_stable Analysis.WarehousePerformance.On_Time_Rate_pct
                   false (Analysis.warehouse_rollup Examples.sample_orders)).
  assert (Hc : Visualizations.warehouse_perf Examples.sample_orders chart)
    by apply sort_stable_is_sort_values.
  assert (Hr : Analysis.warehouse_performance Examples.sample_orders report)
    by apply sort_stable_is_sort_values.
  exists chart, report. split; [exact Hc|]. split; [exact Hr|].
  split; [vm_compute; reflexivity|].
  exact (proj1 (warehouse_chart_matches_report _ _ _ Hc Hr)).
Defined.

Lemma sorted_nth_error {A} (R : A -> A -> Prop) (l : list A) (i j : nat) (a b : A) :
  StronglySorted R l -> (i < j)%nat ->
  nth_error l i = Some a -> nth_error l j = Some b -> R a b.
Proof.
  intros Hs. revert i j.
  induction Hs as [|x l Hs IH Hf]; intros i j Hij Ha Hb.
  - destruct i; discriminate.
  - destruct j as [|j]; [lia|]. simpl in Hb.
    destruct i as [|i]; simpl in Ha.
    + inversion Ha; subst x. rewrite Forall_forall in Hf.
      apply Hf. exact (nth_error_In _ _ Hb).
    + apply (IH i j); [lia | assumption | assumption].
Qed.

Lemma colour_supplier_green (x : Q) :
  Visualizations.colour_supplier x = "#2ecc71"%string <-> 80 < x.
Proof.
  unfold Visualizations.colour_supplier.
  destruct (Qle_bool x 80) eqn:B; cbn [negb].
  - apply Qle_bool_iff in B. split.
    + destruct (negb (Qle_bool x 70)); discriminate.
    + intros H. exfalso. exact (Qlt_not_le _ _ H B).
  - split; [|reflexivity]. intros _. apply Qnot_le_lt.
    intros Hle. apply Qle_bool_iff in Hle. congruence.
Qed.

Lemma colour_supplier_red (x : Q) :
  Visualizations.colour_supplier x = "#e74c3c"%string <-> x <= 70.
Proof.
  unfold Visualizations.colour_supplier.
  destruct (Qle_bool x 80) eqn:B; cbn [negb].
  - destruct (Qle_bool x 70) eqn:B'; cbn [negb].
    + apply Qle_bool_iff in B'. tauto.
    + split; [discriminate|]. intros H. apply Qle_bool_iff in H. congruence.
  - split; [discriminate|]. intros H.
    assert (x <= 80) by (eapply Qle_trans; [exact H | discriminate]).
    apply Qle_bool_iff in H0. congruence.
Qed.

(** X14: in the supplier score chart the bars are drawn in ascending score
    order, so the colours come in blocks: every bar after a green bar is
    green and every bar before a red bar is red.  A bar is green exactly
    when the score exceeds 80 and red exactly when it is at most 70; there
    is one bar per supplier. *)
Theorem supplier_chart_colours
  (supplier_df : list Suppliers.row) (out : list Visualizations.scored) :
  Visualizations.supplier_df_sorted supplier_df out ->
  length (Visualizations.colors_supplier out) = length supplier_df /\
  (forall i r, nth_error out i = Some r ->
     exists c, nth_error (Visualizations.colors_supplier out) i = Some c /\
       (c = "#2ecc71"%string <-> 80 < Visualizations.Performance_Score r) /\
       (c = "#e74c3c"%string <-> Visualizations.Performance_Score r <= 70)) /\
  (forall i j ci cj,
     (i <= j)%nat ->
     nth_error (Visualizations.colors_supplier out) i = Some ci ->
     nth_error (Visualizations.colors_supplier out) j = Some cj ->
     (ci = "#2ecc71"%string -> cj = "#2ecc71"%string) /\
     (cj = "#e74c3c"%string -> ci = "#e74c3c"%string)).
Proof.
  intros [Hperm Hsorted]. unfold Visualizations.colors_supplier.
  split; [|split].
  - rewrite length_map, <- (Permutation_length Hperm).
    unfold Visualizations.with_performance_score. apply length_map.
  - intros i r Hr. rewrite nth_error_map, Hr. simpl. eexists.
    split; [reflexivity|].
    split; [apply colour_supplier_green | apply colour_supplier_red].
  - intros i j ci cj Hij Hi Hj.
    rewrite nth_error_map in Hi, Hj.
    destruct (nth_error out i) as [a|] eqn:Ea; [|discriminate].
    destruct (nth_error out j) as [b|] eqn:Eb; [|discriminate].
    simpl in Hi, Hj. inversion Hi; subst ci. inversion Hj; subst cj.
    assert (Hle : Visualizations.Performance_Score a
                  <= Visualizations.Performance_Score b).
    { destruct (Nat.eq_dec i j) as [->|Hne].
      - rewrite Ea in Eb. inversion Eb. apply Qle_refl.
      - apply (sorted_nth_error _ _ i j a b Hsorted); [lia | assumption..]. }
    rewrite !colour_supplier_green, !colour_supplier_red. split; intros H.
    + eapply Qlt_le_trans; eauto.
    + eapply Qle_trans; eauto.
Qed.

Lemma supplier_chart_colours_witness :
  exists out,
    Visualizations.supplier_df_sorted Examples.scorecard_suppliers out /\
    Visualizations.colors_supplier out
    = ["#e74c3c"; "#f39c12"; "#2ecc71"]%string /\
    length (Visualizations.colors_supplier out) = 3%nat.
Proof.
  set (out := Pd.sort_stable Visualizations.Performance_Score true
                (Visualizations.with_performance_score
                   Examples.scorecard_suppliers)).
  assert (H : Visualizations.supplier_df_sorted Examples.scorecard_suppliers out)
    by apply sort_stable_is_sort_values.
  exists out. split; [exact H|]. split; [vm_compute; reflexivity|].
  exact (proj1 (supplier_chart_colours _ _ H)).
Defined.

Lemma colour_bar_red (x : Q) :
  Visualizations.colour_bar x = "#e74c3c"%string <-> x < 30.
Proof.
  unfold Visualizations.colour_bar.
  destruct (Qle_bool 30 x) eqn:B; cbn [negb].
  - apply Qle_bool_iff in B. split.
    + destruct (negb (Qle_bool x 60)); discriminate.
    + intros H. exfalso. exact (Qlt_not_le _ _ H B).
  - split; [|reflexivity]. intros _. apply Qnot_le_lt.
    intros Hle. apply Qle_bool_iff in Hle. congruence.
Qed.

Lemma colour_bar_green (x : Q) :
  Visualizations.colour_bar x = "#2ecc71"%string <-> 60 < x.
Proof.
  unfold Visualizations.colour_bar.
  destruct (Qle_bool 30 x) eqn:B; cbn [negb].
  - destruct (Qle_bool x 60) eqn:B'; cbn [negb].
    + apply Qle_bool_iff in B'. split; [discriminate|].
      intros H. exfalso. exact (Qlt_not_le _ _ H B').
    + split; [|reflexivity]. intros _. apply Qnot_le_lt.
      intros Hle. apply Qle_bool_iff in Hle. congruence.
  - split; [discriminate|]. intros H.
    assert (Hle : 30 <= x).
    { apply Qlt_le_weak. eapply Qlt_trans; [|exact H]. reflexivity. }
    apply Qle_bool_iff in Hle. congruence.
Qed.

(** X15: in the days-of-inventory chart the warehouses are drawn by
    ascending average, each warehouse of the table once, so the colours
    come in blocks: every bar before a red bar is red and every bar after a
    green bar is green.  A bar is red exactly when the average is below 30
    and green exactly when it is above 60; an average of exactly 30 or 60
    is drawn orange. *)
Theorem inventory_chart_colours
  (inventory_df : list Inventory.row) (out : list (string * Q)) :
  Visualizations.warehouse_inventory inventory_df out ->
  NoDup (map fst out) /\
  (forall w, In w (map fst out)
             <-> In w (map Inventory.Warehouse inventory_df)) /\
  (forall i r, nth_error out i = Some r ->
     exists c, nth_error (Visualizations.colors_bar out) i = Some c /\
       (c = "#e74c3c"%string <-> snd r < 30) /\
       (c = "#2ecc71"%string <-> 60 < snd r) /\
       (c = "#f39c12"%string <-> 30 <= snd r <= 60)) /\
  (forall i j ci cj,
     (i <= j)%nat ->
     nth_error (Visualizations.colors_bar out) i = Some ci ->
     nth_error (Visualizations.colors_bar out) j = Some cj ->
     (ci = "#2ecc71"%string -> cj = "#2ecc71"%string) /\
     (cj = "#e74c3c"%string -> ci = "#e74c3c"%string)).
Proof.
  intros [Hperm Hsorted]. unfold Visualizations.colors_bar.
  assert (Hkeys : map fst
            (map (fun kg : string * list Inventory.row =>
                    (fst kg,
                     Pd.group_mean (map Inventory.Days_of_Inventory (snd kg))))
                 (Pd.groupby str_compare Inventory.Warehouse inventory_df))
          = Pd.group_keys str_compare Inventory.Warehouse inventory_df).
  { rewrite map_map. simpl. apply (groupby_keys str_compare Inventory.Warehouse). }
  split; [|split; [|split]].
  - apply (Permutation_NoDup (Permutation_map fst Hperm)). rewrite Hkeys.
    apply (group_keys_NoDup str_compare Inventory.Warehouse str_compare_eq
             str_compare_lt_trans str_compare_gt_lt).
  - intros w. split; intros H.
    + apply (Permutation_in _ (Permutation_sym (Permutation_map fst Hperm))) in H.
      rewrite Hkeys in H.
      apply (group_keys_in str_compare Inventory.Warehouse str_compare_eq) in H.
      destruct H as (i & Hi & <-). apply in_map. exact Hi.
    + apply (Permutation_in _ (Permutation_map fst Hperm)). rewrite Hkeys.
      apply (group_keys_in str_compare Inventory.Warehouse str_compare_eq).
      apply in_map_iff in H. destruct H as (i & E & Hi). eauto.
  - intros i r Hr. rewrite nth_error_map, Hr. simpl. eexists.
    split; [reflexivity|].
    split; [apply colour_bar_red|]. split; [apply colour_bar_green|].
    unfold Visualizations.colour_bar.
    destruct (Qle_bool 30 (snd r)) eqn:B; cbn [negb].
    + destruct (Qle_bool (snd r) 60) eqn:B'; cbn [negb].
      * apply Qle_bool_iff in B, B'. tauto.
      * split; [discriminate|]. intros [_ H].
        apply Qle_bool_iff in H. congruence.
    + split; [discriminate|]. intros [H _].
      apply Qle_bool_iff in H. congruence.
  - intros i j ci cj Hij Hi Hj.
    rewrite nth_error_map in Hi, Hj.
    destruct (nth_error out i) as [a|] eqn:Ea; [|discriminate].
    destruct (nth_error out j) as [b|] eqn:Eb; [|discriminate].
    simpl in Hi, Hj. inversion Hi; subst ci. inversion Hj; subst cj.
    assert (Hle : snd a <= snd b).
    { destruct (Nat.eq_dec i j) as [->|Hne].
      - rewrite Ea in Eb. inversion Eb. apply Qle_refl.
      - apply (sorted_nth_error _ _ i j a b Hsorted); [lia | assumption..]. }
    rewrite !colour_bar_green, !colour_bar_red. split; intros H.
    + eapply Qlt_le_trans; eauto.
    + eapply Qle_lt_trans; eauto.
Qed.

Lemma inventory_chart_colours_witness :
  exists out,
    Visualizations.warehouse_inventory Examples.warehouse_items out /\
    map fst out = ["East"; "South"; "North"]%string /\
    Visualizations.colors_bar out = ["#e74c3c"; "#f39c12"; "#2ecc71"]%string /\
    NoDup (map fst out).
Proof.
  set (out := Pd.sort_stable (fun r : string * Q => snd r) true
    (map (fun kg : string * list Inventory.row =>
            (fst kg, Pd.group_mean (map Inventory.Days_of_Inventory (snd kg))))
         (Pd.groupby str_compare Inventory.Warehouse Examples.warehouse_items))).
  assert (H : Visualizations.warehouse_inventory Examples.warehouse_items out)
    by apply sort_stable_is_sort_values.
  exists out. split; [exact H|]. split; [vm_compute; reflexivity|].
  split; [vm_compute; reflexivity|].
  exact (proj1 (inventory_chart_colours _ _ H)).
Defined.

(** ** How many shipments are high-cost *)

Lemma filter_length_perm {A} (f : A -> bool) (l l' : list A) :
  Permutation l l' -> length (filter f l) = length (filter f l').
Proof.
  induction 1 as [|x l l' _ IH|x y l|l l' l'' _ IH1 _ IH2]; simpl.
  - reflexivity.
  - destruct (f x); simpl; congruence.
  - destruct (f x), (f y); reflexivity.
  - congruence.
Qed.

Lemma filter_map_length {A B} (f : A -> B) (p : B -> bool) (l : list A) :
  length (filter (fun x => p (f x)) l) = length (filter p (map f l)).
Proof.
  induction l as [|x l IH]; simpl; [reflexivity|].
  destruct (p (f x)); simpl; congruence.
Qed.

(** In an ascending column at most the values after position [j] exceed a
    bound that is at least the value at position [j]. *)
Lemma count_above_order_statistic (v : list Q) (j : nat) (t : Q) :
  StronglySorted Qle v -> (j < length v)%nat -> nth j v 0 <= t ->
  (length (filter (fun a => negb (Qle_bool a t)) v) + (j + 1)
   <= length v)%nat.
Proof.
  intros Hs. revert j.
  induction Hs as [|x v Hs IH Hf]; intros j Hj Ht; simpl in Hj; [lia|].
  assert (Hx : Qle_bool x t = true).
  { apply Qle_bool_iff. destruct j as [|j]; simpl in Ht; [exact Ht|].
    eapply Qle_trans; [|exact Ht].
    rewrite Forall_forall in Hf. apply Hf. apply nth_In. lia. }
  simpl. rewrite Hx. simpl.
  destruct j as [|j].
  - pose proof (filter_length_le (fun a => negb (Qle_bool a t)) v). lia.
  - simpl in Ht. specialize (IH j ltac:(lia) Ht). lia.
Qed.

Lemma floor_nine_tenths (m : nat) :
  Qfloor (inject_Z (Z.of_nat m) * (9 # 10)) = (Z.of_nat m * 9 / 10)%Z.
Proof.
  unfold Qfloor, Qmult, inject_Z. simpl. reflexivity.
Qed.

Lemma nine_tenths_index (m : nat) :
  (Z.to_nat (Z.of_nat m * 9 / 10) <= m)%nat /\
  (9 * m <= 10 * Z.to_nat (Z.of_nat m * 9 / 10) + 9)%nat.
Proof.
  pose proof (Z.div_mod (Z.of_nat m * 9) 10 ltac:(lia)) as Hdm.
  pose proof (Z.mod_pos_bound (Z.of_nat m * 9) 10 ltac:(lia)) as Hmod.
  assert (H0 : (0 <= Z.of_nat m * 9 / 10)%Z) by (apply Z.div_pos; lia).
  split; lia.
Qed.

(** The bound behind the 90th percentile: with [n] shipments, ten times
    the number of shipments above the threshold is at most [n + 8]. *)
Lemma count_above_threshold (shipping_df : list Shipping.row) :
  shipping_df <> [] ->
  (10 * length (Spec.high_cost shipping_df) <= length shipping_df + 8)%nat.
Proof.
  intros Hne.
  assert (Hc : map Shipping.Shipping_Cost shipping_df <> [])
    by (destruct shipping_df; [congruence | discriminate]).
  destruct (quantile_090_linear _ Hc) as (v & Hp & Hs & H).
  cbv zeta in H. destruct H as (Ht & Hlo & _).
  unfold Spec.high_cost, Analysis.high_cost_threshold. rewrite Ht.
  set (t := nth _ v 0 + _) in *.
  simpl Np.gt.
  rewrite (filter_map_length Shipping.Shipping_Cost
             (fun a => negb (Qle_bool a t))).
  rewrite (filter_length_perm _ _ _ Hp).
  assert (Hlen : length v = length shipping_df)
    by (rewrite <- (Permutation_length Hp); apply length_map).
  assert (Hpos : (0 < length v)%nat)
    by (rewrite Hlen; destruct shipping_df; [congruence | simpl; lia]).
  rewrite floor_nine_tenths in Hlo.
  destruct (nine_tenths_index (length v - 1)) as [Hj1 Hj2].
  assert (Hj : (Z.to_nat (Z.of_nat (length v - 1) * 9 / 10) < length v)%nat)
    by lia.
  pose proof (count_above_order_statistic v _ t Hs Hj Hlo) as Hcount.
  lia.
Qed.

Lemma threshold_between_costs (shipping_df : list Shipping.row) :
  shipping_df <> [] ->
  exists t cheap dear,
    Analysis.high_cost_threshold shipping_df = Np.Fin t /\
    In cheap shipping_df /\ In dear shipping_df /\
    Shipping.Shipping_Cost cheap <= t <= Shipping.Shipping_Cost dear.
Proof.
  intros Hne.
  assert (Hc : map Shipping.Shipping_Cost shipping_df <> [])
    by (destruct shipping_df; [congruence | discriminate]).
  destruct (quantile_090_linear _ Hc) as (v & Hp & Hs & H).
  cbv zeta in H. destruct H as (Ht & Hlo & Hhi).
  assert (Hlen : length v = length shipping_df)
    by (rewrite <- (Permutation_length Hp); apply length_map).
  assert (Hpos : (0 < length v)%nat)
    by (rewrite Hlen; destruct shipping_df; [congruence | simpl; lia]).
  rewrite floor_nine_tenths in *.
  destruct (nine_tenths_index (length v - 1)) as [Hj1 _].
  set (j := Z.to_nat (Z.of_nat (length v - 1) * 9 / 10)) in *.
  assert (Hin : forall i, (i < length v)%nat ->
            exists s, In s shipping_df /\ Shipping.Shipping_Cost s = nth i v 0).
  { intros i Hi.
    assert (Hv : In (nth i v 0) v) by (apply nth_In; exact Hi).
    apply (Permutation_in _ (Permutation_sym Hp)) in Hv.
    apply in_map_iff in Hv. destruct Hv as (s & E & Hs'). eauto. }
  destruct (Hin j ltac:(lia)) as (cheap & Hcheap & Ec).
  destruct (Hin (Nat.min (j + 1) (length v - 1)) ltac:(lia))
    as (dear & Hdear & Ed).
  eexists. exists cheap, dear.
  split; [exact Ht|]. split; [exact Hcheap|]. split; [exact Hdear|].
  rewrite Ec, Ed. split; assumption.
Qed.

(** X16: with at least one shipment, the threshold lies between the costs
    of two shipments of the table, and ten times the number of shipments
    whose cost exceeds the threshold is at most the number of shipments
    plus 8: at most about a tenth of the shipments are high-cost. *)
Theorem high_cost_share (shipping_df : list Shipping.row) :
  shipping_df <> [] ->
  (10 * length (Spec.high_cost shipping_df) <= length shipping_df + 8)%nat /\
  exists t cheap dear,
    Analysis.high_cost_threshold shipping_df = Np.Fin t /\
    In cheap shipping_df /\ In dear shipping_df /\
    Shipping.Shipping_Cost cheap <= t <= Shipping.Shipping_Cost dear.
Proof.
  intros Hne. split.
  - apply count_above_threshold. exact Hne.
  - apply threshold_between_costs. exact Hne.
Qed.

Lemma high_cost_share_witness :
  (10 * length (Spec.high_cost Examples.shipments)
   <= length Examples.shipments + 8)%nat /\
  length (Spec.high_cost Examples.shipments) = 1%nat.
Proof.
  split.
  - apply (proj1 (high_cost_share Examples.shipments ltac:(discriminate))).
  - vm_compute. reflexivity.
Defined.

(** ** The size of the joined table *)

Lemma filter_pair_length {L R} (l : L) (P : R -> bool) (X : list R) :
  length (filter (fun p : L * R => P (snd p)) (map (pair l) X))
  = length (filter P X).
Proof.
  induction X as [|x X IH]; simpl; [reflexivity|].
  destruct (P x); simpl; congruence.
Qed.

Lemma split_by_partner {R} (P m ex : R -> bool) (right : list R) :
  (forall r, m r = true -> ex r = true -> False) ->
  (length (filter P (filter m right))
   + length (filter (fun r => P r && ex r) right)
   = length (filter (fun r => P r && (m r || ex r)) right))%nat.
Proof.
  intros Hex. induction right as [|r right IH]; simpl; [reflexivity|].
  destruct (m r) eqn:Em, (ex r) eqn:Ee, (P r) eqn:Ep; simpl;
    rewrite ?Ep; simpl; try lia.
  all: exfalso; exact (Hex r Em Ee).
Qed.

Lemma filter_and_length_le {A} (P Q : A -> bool) (l : list A) :
  (length (filter (fun r => P r && Q r) l) <= length (filter P l))%nat.
Proof.
  induction l as [|x l IH]; simpl; [lia|].
  destruct (P x), (Q x); simpl; lia.
Qed.

Lemma filter_all_true {A} (l : list A) : filter (fun _ => true) l = l.
Proof.
  induction l as [|x l IH]; simpl; congruence.
Qed.

(** With distinct keys on the left, the join has one row for every right
    row that has a partner; a condition on the right row carries over. *)
Lemma merge_filter_length {L R} (lkey : L -> string) (rkey : R -> string)
      (P : R -> bool) (left : list L) (right : list R) :
  NoDup (map lkey left) ->
  length (filter (fun p => P (snd p)) (Pd.merge lkey rkey left right))
  = length (filter (fun r => P r
                             && existsb (fun l => String.eqb (lkey l) (rkey r))
                                        left) right).
Proof.
  unfold Pd.merge. induction left as [|l left IH]; intros Hnd; simpl.
  - induction right as [|r right IHr]; simpl; [reflexivity|].
    rewrite andb_false_r. exact IHr.
  - inversion Hnd as [|? ? Hl Hnd']; subst.
    rewrite filter_app, length_app, filter_pair_length, (IH Hnd').
    apply split_by_partner.
    intros r Em Ee. apply String.eqb_eq in Em.
    apply existsb_exists in Ee. destruct Ee as (l' & Hl' & E').
    apply String.eqb_eq in E'. apply Hl.
    rewrite Em, <- E'. apply in_map. exact Hl'.
Qed.

(** X17: when no two orders share an Order_ID, the joined table has exactly
    one row for each shipment whose order exists, so it is no longer than
    the Shipment table; the high-cost rows are then no more than the
    shipments above the threshold, at most about a tenth of all
    shipments. *)
Theorem joined_table_size
  (orders_df : list Orders.row) (shipping_df : list Shipping.row) :
  NoDup (map Orders.Order_ID orders_df) ->
  length (Analysis.orders_with_shipping orders_df shipping_df)
  = length (filter (Spec.has_order orders_df) shipping_df) /\
  (length (Analysis.orders_with_shipping orders_df shipping_df)
   <= length shipping_df)%nat /\
  (length (Analysis.high_cost_shipments orders_df shipping_df)
   <= length (Spec.high_cost shipping_df))%nat /\
  (shipping_df <> [] ->
   (10 * length (Analysis.high_cost_shipments orders_df shipping_df)
    <= length shipping_df + 8)%nat).
Proof.
  intros Hnd.
  assert (Hall : length (Analysis.orders_with_shipping orders_df shipping_df)
                 = length (filter (Spec.has_order orders_df) shipping_df)).
  { unfold Analysis.orders_with_shipping.
    pose proof (merge_filter_length Orders.Order_ID Shipping.Order_ID
                  (fun _ => true) orders_df shipping_df Hnd) as H.
    cbn beta in H. rewrite filter_all_true in H. exact H. }
  assert (Hhigh : (length (Analysis.high_cost_shipments orders_df shipping_df)
                   <= length (Spec.high_cost shipping_df))%nat).
  { unfold Analysis.high_cost_shipments, Analysis.orders_with_shipping,
      Analysis.joined_cost, Spec.high_cost.
    rewrite (merge_filter_length Orders.Order_ID Shipping.Order_ID
               (fun s => Np.gt (Np.Fin (Shipping.Shipping_Cost s))
                               (Analysis.high_cost_threshold shipping_df))
               orders_df shipping_df Hnd).
    apply filter_and_length_le. }
  split; [exact Hall|]. split; [rewrite Hall; apply filter_length_le|].
  split; [exact Hhigh|].
  intros Hne. pose proof (count_above_threshold shipping_df Hne). lia.
Qed.

Lemma joined_table_size_witness :
  length (Analysis.orders_with_shipping Examples.sample_orders
            (Examples.shipments ++ [Examples.orphan_shipment])) = 10%nat /\
  (length (Analysis.orders_with_shipping Examples.sample_orders
             (Examples.shipments ++ [Examples.orphan_shipment]))
   <= length (Examples.shipments ++ [Examples.orphan_shipment]))%nat.
Proof.
  assert (Hnd : NoDup (map Orders.Order_ID Examples.sample_orders)).
  { simpl. repeat constructor; simpl; intuition discriminate. }
  split; [vm_compute; reflexivity|].
  exact (proj1 (proj2 (joined_table_size Examples.sample_orders
                         (Examples.shipments ++ [Examples.orphan_shipment])
                         Hnd))).
Defined.

(** Two orders with one identifier give every shipment of that identifier
    two joined rows: the hypothesis of [joined_table_size] is needed. *)
Lemma joined_table_repeats_shipments :
  length (Analysis.orders_with_shipping Examples.repeated_orders
            Examples.shipments) = 6%nat /\
  length (filter (Spec.has_order Examples.repeated_orders) Examples.shipments)
  = 3%nat.
Proof. split; vm_compute; reflexivity. Qed.

(** ** The months shown *)

Lemma combine_fst {A B} (l : list A) (l' : list B) :
  length l = length l' -> map fst (combine l l') = l.
Proof.
  revert l'. induction l as [|x l IH]; intros [|y l'] H; simpl in *;
    try reflexivity; try discriminate.
  f_equal. apply IH. lia.
Qed.

Lemma StronglySorted_unmap {A B} (f : A -> B) (R : B -> B -> Prop) (l : list A) :
  StronglySorted R (map f l) -> StronglySorted (fun a b => R (f a) (f b)) l.
Proof.
  induction l as [|x l IH]; simpl; intros H; constructor;
    inversion H as [|? ? Hs Hf]; subst.
  - apply IH. exact Hs.
  - rewrite Forall_map in Hf. exact Hf.
Qed.

(** X18: the trend table has one row per month with an order; the report
    shows its last min(6, number of months) rows, in ascending month order,
    and every month that is not shown is earlier than every month shown. *)
Theorem recent_months_shown (orders_df : list Orders.row) :
  let table := Analysis.monthly_trends orders_df in
  let shown := Analysis.recent_monthly_performance orders_df in
  let month := fun r : Analysis.MonthlyTrends.row * (Np.float64 * Np.float64) =>
                 Analysis.MonthlyTrends.Year_Month (fst r) in
  map fst table = Analysis.monthly_agg orders_df /\
  length shown = Nat.min 6 (length (Analysis.monthly_agg orders_df)) /\
  StronglySorted (fun a b => (month a < month b)%Z) shown /\
  exists hidden,
    table = hidden ++ shown /\
    forall a b, In a hidden -> In b shown -> (month a < month b)%Z.
Proof.
  cbv zeta.
  assert (Hfst : map fst (Analysis.monthly_trends orders_df)
                 = Analysis.monthly_agg orders_df).
  { unfold Analysis.monthly_trends. apply combine_fst.
    rewrite length_combine.
    unfold Analysis.Order_Growth_pct, Analysis.Revenue_Growth_pct,
      Analysis.times_100, Pd.pct_change.
    rewrite !length_map, !pct_change_from_length, !length_map. lia. }
  assert (Hlen : length (Analysis.monthly_trends orders_df)
                 = length (Analysis.monthly_agg orders_df))
    by (rewrite <- Hfst; symmetry; apply length_map).
  assert (Hsorted : StronglySorted
            (fun a b => (Analysis.MonthlyTrends.Year_Month (fst a)
                         < Analysis.MonthlyTrends.Year_Month (fst b))%Z)
            (Analysis.monthly_trends orders_df)).
  { apply (StronglySorted_unmap
             (fun r => Analysis.MonthlyTrends.Year_Month (fst r)) Z.lt).
    rewrite <- (map_map fst Analysis.MonthlyTrends.Year_Month), Hfst.
    rewrite monthly_agg_months.
    apply (group_keys_sorted Z.compare Analysis.Year_Month Z.compare_eq_iff
             Z_compare_lt_trans Z_compare_gt_lt). }
  unfold Analysis.recent_monthly_performance, Pd.tail.
  set (t := Analysis.monthly_trends orders_df) in *.
  rewrite <- (firstn_skipn (length t - 6) t) in Hsorted.
  apply StronglySorted_app_inv in Hsorted.
  destruct Hsorted as (_ & Hshown & Hcross).
  split; [exact Hfst|]. split; [rewrite length_skipn; lia|].
  split; [exact Hshown|].
  exists (firstn (length t - 6) t).
  split; [symmetry; apply firstn_skipn | exact Hcross].
Qed.

(** X19: after the first month, every order-growth cell is a finite number
    greater than -100: a month of the table always has an order, so the
    count never drops to zero and never grows from zero. *)
Theorem order_growth_above_minus_100
  (orders_df : list Orders.row) (i : nat) (growth : Np.float64) :
  (1 <= i)%nat ->
  nth_error (Analysis.Order_Growth_pct orders_df) i = Some growth ->
  exists q, growth = Np.Fin q /\ -100 < q.
Proof.
  intros Hi Hg. destruct i as [|i]; [lia|].
  assert (Hlen : length (Analysis.Order_Growth_pct orders_df)
                 = length (Analysis.monthly_agg orders_df)).
  { unfold Analysis.Order_Growth_pct, Analysis.times_100, Pd.pct_change.
    rewrite length_map, pct_change_from_length, length_map. reflexivity. }
  assert (Hlt : (S i < length (Analysis.monthly_agg orders_df))%nat).
  { rewrite <- Hlen. apply nth_error_Some. congruence. }
  destruct (nth_error (Analysis.monthly_agg orders_df) i) as [prev|] eqn:Ep;
    [|apply nth_error_None in Ep; lia].
  destruct (nth_error (Analysis.monthly_agg orders_df) (S i)) as [cur|] eqn:Ec;
    [|apply nth_error_None in Ec; lia].
  unfold Analysis.Order_Growth_pct, Analysis.times_100, Pd.pct_change in Hg.
  rewrite nth_error_map in Hg.
  rewrite (pct_change_from_next Np.NaN _ i
             (Np.Fin (inject_Z (Analysis.MonthlyTrends.Orders prev)))
             (Np.Fin (inject_Z (Analysis.MonthlyTrends.Orders cur)))) in Hg
    by (rewrite nth_error_map; (rewrite Ep || rewrite Ec); reflexivity).
  simpl option_map in Hg. inversion Hg; subst growth. clear Hg.
  pose proof (monthly_agg_orders_pos orders_df prev (nth_error_In _ _ Ep)) as Hp.
  pose proof (monthly_agg_orders_pos orders_df cur (nth_error_In _ _ Ec)) as Hc.
  rewrite Zlt_Qlt in Hp, Hc. change (inject_Z 0) with 0 in Hp, Hc.
  set (p := inject_Z (Analysis.MonthlyTrends.Orders prev)) in *.
  set (c := inject_Z (Analysis.MonthlyTrends.Orders cur)) in *.
  unfold Np.div.
  assert (Hs : Np.Qsgn p = Gt) by (apply (proj1 (Qgt_alt _ _)); exact Hp).
  rewrite Hs. simpl. eexists. split; [reflexivity|].
  assert (Hq : 0 < c / p) by (apply Qlt_shift_div_l; lra).
  lra.
Qed.

Lemma order_growth_above_minus_100_witness :
  exists growth q,
    nth_error (Analysis.Order_Growth_pct Examples.sample_orders) 2
    = Some growth /\ growth = Np.Fin q /\ -100 < q.
Proof.
  assert (H : exists g,
             nth_error (Analysis.Order_Growth_pct Examples.sample_orders) 2
             = Some g) by (vm_compute; eexists; reflexivity).
  destruct H as (g & Hg).
  destruct (order_growth_above_minus_100 Examples.sample_orders 2 g
              ltac:(lia) Hg) as (q & Hq & Hlt).
  exists g, q. auto.
Defined.
